(** * The smart search bar: token editing, keyboard navigation and the
      autocomplete pipeline of [SmartSearchBar]

    A shallow embedding of the class component [SmartSearchBar]
    (src/unnamed/part_001).  The component is a record of its props, its
    state, the text area behind [searchInput], the calls it has made to its
    host and the asynchronous functions it has left suspended; every method
    is a function from the component before the call to the component
    after it.

    - Strings are Rocq strings, one [ascii] per UTF-16 code unit: the model
      speaks about texts whose code units are below 256.  Offsets are [Z],
      because the source computes with [-1] and with offsets past the end.
    - [setState] is batched by React: the update is applied, the text area
      rendered and the callback run when the handler that called it
      returns, after whatever the handler does past the call: the call to
      the host in [onQueryChange] and [onPaste], the selection assignments
      in [negateToken].
    - An asynchronous method is split at its [await]: the part before it
      runs in the method and leaves a [Pending] behind; [resume] runs the
      part after it on the component as it is when the awaited promise
      settles.
    - [getTagValues], [getReleases] and [getRecentSearches] are debounced
      on the leading edge: a call made outside the waiting window runs the
      function at once.  The definitions of these names are the functions
      that are debounced, and the pipeline is followed for calls that are
      let through; the waiting window and the calls held back in it are
      not modelled.
    - Of the text area only the selection is kept.  It moves where the
      source assigns it, where the browser inserts text
      ([execCommand_insertText]) and where React, rendering a text other
      than the one the text area holds, writes it there: the browser then
      puts the caret at the end ([commitValue]).  Focus and blur events
      are left out.
    - The parser and the helpers of [./utils] are parameters ([Imports]),
      the browser is a parameter ([Platform]).
    - The split of a context line into indentation and code, of
      [ContextLine] (src/unnamed/part_002), is embedded in the module
      [ContextLine]. *)

From Stdlib Require Import ZArith List String Ascii Bool Lia Permutation Sorted.
Import ListNotations.

Set Warnings "-register-all".

Open Scope string_scope.
Open Scope Z_scope.

(* ================================================================== *)
(** ** JavaScript string primitives used by the component *)

Module JS.

Definition dquote : ascii := "034"%char.
Definition backslash : ascii := "092"%char.
Definition newline : ascii := "010"%char.
Definition space : ascii := " "%char.

Definition str (c : ascii) : string := String c EmptyString.

(** [s.length] *)
Definition length (s : string) : Z := Z.of_nat (String.length s).

(** An index argument of [substring]: NaN and negatives become 0, values
    past the end become the length. *)
Definition clamp (s : string) (i : Z) : Z := Z.min (Z.max i 0) (length s).

(** [s.substring(a, b)]: both ends clamped, swapped when out of order. *)
Definition substring (s : string) (a b : Z) : string :=
  let a' := clamp s a in
  let b' := clamp s b in
  let lo := Z.min a' b' in
  let hi := Z.max a' b' in
  String.substring (Z.to_nat lo) (Z.to_nat (hi - lo)) s.

(** [s.substring(a)] *)
Definition substringFrom (s : string) (a : Z) : string :=
  substring s a (length s).

(** A relative index of [slice]: negatives count from the end. *)
Definition relIndex (s : string) (i : Z) : Z :=
  if i <? 0 then Z.max (length s + i) 0 else Z.min i (length s).

(** [s.slice(a, b)]: empty when the ends are out of order. *)
Definition slice (s : string) (a b : Z) : string :=
  let lo := relIndex s a in
  let hi := relIndex s b in
  String.substring (Z.to_nat lo) (Z.to_nat (Z.max (hi - lo) 0)) s.

(** [s.slice(a)] *)
Definition sliceFrom (s : string) (a : Z) : string :=
  slice s a (length s).

(** [s[i]]: [undefined] (here [None]) out of range. *)
Definition charAt (s : string) (i : Z) : option ascii :=
  if i <? 0 then None else String.get (Z.to_nat i) s.

(** White space as [trim] and the class [\s] see it, among the code
    units below 256: TAB, LF, VT, FF, CR, SPACE and the no-break space
    U+00A0. *)
Definition isWhiteSpace (c : ascii) : bool :=
  let n := nat_of_ascii c in
  ((9 <=? n) && (n <=? 13))%nat || (n =? 32)%nat || (n =? 160)%nat.

Fixpoint trimStart (s : string) : string :=
  match s with
  | EmptyString => EmptyString
  | String c s' => if isWhiteSpace c then trimStart s' else s
  end.

(** [trimEnd] keeps a character when it is not white space or when
    something is kept after it. *)
Fixpoint trimEnd (s : string) : string :=
  match s with
  | EmptyString => EmptyString
  | String c s' =>
      match trimEnd s' with
      | EmptyString => if isWhiteSpace c then EmptyString else str c
      | r => String c r
      end
  end.

(** [s.trim()] *)
Definition trim (s : string) : string := trimEnd (trimStart s).

(** [s.startsWith(p)] *)
Definition startsWith (s p : string) : bool := String.prefix p s.

Fixpoint drop (n : nat) (s : string) : string :=
  match n, s with
  | O, _ => s
  | S n', String _ s' => drop n' s'
  | S _, EmptyString => EmptyString
  end.

(** [s.indexOf(p)], searched from offset [from]. *)
Fixpoint indexOfFrom (s p : string) (from : Z) : Z :=
  if String.prefix p s then from
  else match s with
       | EmptyString => -1
       | String _ s' => indexOfFrom s' p (from + 1)
       end.

Definition indexOf (s p : string) : Z := indexOfFrom s p 0.

(** [s.includes(p)] *)
Definition includes (s p : string) : bool := 0 <=? indexOf s p.

(** [s.replace(p, r)] with a string pattern: only the first occurrence
    of [p] is replaced. *)
Fixpoint replace (s p r : string) : string :=
  if String.prefix p s then r ++ drop (String.length p) s
  else match s with
       | EmptyString => EmptyString
       | String c s' => String c (replace s' p r)
       end.

(** [s.replace(/c/g, r)] for a one-character pattern: every occurrence
    of [c] is replaced. *)
Fixpoint replaceAllChar (s : string) (c : ascii) (r : string) : string :=
  match s with
  | EmptyString => EmptyString
  | String d s' =>
      (if Ascii.eqb d c then r else str d) ++ replaceAllChar s' c r
  end.

(** [a % b] on integers, for a divisor other than zero: the remainder has
    the sign of the dividend.  (By zero the source's remainder is not a
    number, which [Z] does not have.) *)
Definition rem (a b : Z) : Z := Z.rem a b.

End JS.

(* ================================================================== *)
(** ** Parsed queries

    The search syntax modules ([searchSyntax/parser], [searchSyntax/utils])
    are imported by the component and are not part of the sources at hand.
    The token tree, the tree locator and the cursor test follow the
    specification's description of them. *)

(** Modelled from the spec: [Token] of searchSyntax/parser is not among
    the sources.  The kinds of node of a parsed query: "Filter, FreeText,
    ValueText, and others treated opaquely". *)
Inductive Token : Type :=
| Spaces | Filter | FreeText | LogicGroup | LogicBoolean
| KeySimple | ValueText | ValueTextList | ValueOther.

Definition Token_eqb (a b : Token) : bool :=
  match a, b with
  | Spaces, Spaces | Filter, Filter | FreeText, FreeText
  | LogicGroup, LogicGroup | LogicBoolean, LogicBoolean
  | KeySimple, KeySimple | ValueText, ValueText
  | ValueTextList, ValueTextList | ValueOther, ValueOther => true
  | _, _ => false
  end.

(** Modelled from the spec: [FilterType] of searchSyntax/parser is not
    among the sources.  The component only asks whether a filter is a
    "multi-value (list) filter", [TextIn]. *)
Inductive FilterType : Type := Text | TextIn | OtherFilter.

(** Modelled from the spec: a token's "location = {start offset, end
    offset} within the original query string", read in the source as
    [location.start.offset] and [location.end.offset]. *)
Record LocationRange : Type := mkLoc { start_offset : Z; end_offset : Z }.

(** Modelled from the spec: a filter's key sub-token.  [text] is the raw
    substring, [value] the key's name. *)
Record KeyToken : Type := mkKey
  { key_location : LocationRange; key_text : string; key_value : string }.

(** Modelled from the spec: a [ValueText] token, with the fields the
    component reads. *)
Record ValueTextToken : Type := mkValueText
  { vt_location : LocationRange; vt_text : string; vt_quoted : bool }.

(** Modelled from the spec: a filter's value, which "may itself be a
    sub-token with its own location": a text, a bracketed list of texts
    (an item's value is absent in an empty slot such as the second one of
    [key:[a, ]]), or a value of another kind. *)
Inductive ValueToken : Type :=
| VText (v : ValueTextToken)
| VTextList (loc : LocationRange) (text : string)
            (items : list (option ValueTextToken))
| VOther (loc : LocationRange) (text : string).

(** Modelled from the spec: "a Filter token has key, operator, value,
    negated flag, and invalid flag". *)
Record FilterToken : Type := mkFilter
  { f_location : LocationRange;
    f_text : string;
    f_filter : FilterType;
    f_negated : bool;
    f_invalid : bool;
    f_key : KeyToken;
    f_operator : string;
    f_value : ValueToken }.

(** Modelled from the spec: [TokenResult] of searchSyntax/parser is not
    among the sources.  A root token of the tree, or a token nested in a
    parenthesised group. *)
Inductive TokenResult : Type :=
| TFilter (f : FilterToken)
| TFreeText (loc : LocationRange) (text : string)
| TSpaces (loc : LocationRange) (text : string)
| TLogicBoolean (loc : LocationRange) (text : string)
| TLogicGroup (loc : LocationRange) (text : string)
              (inner : list TokenResult).

(** [ParseResult] *)
Definition ParseResult : Type := list TokenResult.

Definition value_location (v : ValueToken) : LocationRange :=
  match v with
  | VText t => vt_location t
  | VTextList loc _ _ => loc
  | VOther loc _ => loc
  end.

Definition value_text (v : ValueToken) : string :=
  match v with
  | VText t => vt_text t
  | VTextList _ text _ => text
  | VOther _ text => text
  end.

Definition token_location (t : TokenResult) : LocationRange :=
  match t with
  | TFilter f => f_location f
  | TFreeText loc _ | TSpaces loc _ | TLogicBoolean loc _
  | TLogicGroup loc _ _ => loc
  end.

Definition token_text (t : TokenResult) : string :=
  match t with
  | TFilter f => f_text f
  | TFreeText _ text | TSpaces _ text | TLogicBoolean _ text
  | TLogicGroup _ text _ => text
  end.

Definition token_type (t : TokenResult) : Token :=
  match t with
  | TFilter _ => Filter
  | TFreeText _ _ => FreeText
  | TSpaces _ _ => Spaces
  | TLogicBoolean _ _ => LogicBoolean
  | TLogicGroup _ _ _ => LogicGroup
  end.

(** What a visitor of the tree is handed: any node, with its kind. *)
Inductive Node : Type :=
| NRoot (t : TokenResult)
| NKey (k : KeyToken)
| NValue (v : ValueToken).

Definition node_type (n : Node) : Token :=
  match n with
  | NRoot t => token_type t
  | NKey _ => KeySimple
  | NValue (VText _) => ValueText
  | NValue (VTextList _ _ _) => ValueTextList
  | NValue (VOther _ _) => ValueOther
  end.

Definition node_location (n : Node) : LocationRange :=
  match n with
  | NRoot t => token_location t
  | NKey k => key_location k
  | NValue v => value_location v
  end.

(** The answer of a visitor: [null] (go on into the children), a result
    that ends the search, or [skipToken] (do not enter this node). *)
Inductive Visit (T : Type) : Type :=
| Descend
| ReturnResult (r : T)
| SkipToken.
Arguments Descend {T}.
Arguments ReturnResult {T} r.
Arguments SkipToken {T}.

(** Modelled from the spec: [isWithinToken] of searchSyntax/utils is not
    among the sources.  The cursor is within a token when its offset lies
    between the token's start and end, the end included ("a cursor
    positioned immediately after a token's last character is within that
    token"). *)
Definition isWithinToken (loc : LocationRange) (position : Z) : bool :=
  (start_offset loc <=? position) && (position <=? end_offset loc).

(** Modelled from the spec: [getKeyName] of searchSyntax/utils is not among
    the sources; for a simple key it is the key's name. *)
Definition getKeyName (k : KeyToken) : string := key_value k.

Section TreeLocator.

Context {T : Type}.
Variable visitorTest : Node -> Visit T.

Definition visitLeaf (n : Node) : option T :=
  match visitorTest n with
  | ReturnResult r => Some r
  | _ => None
  end.

Fixpoint visitItems (items : list (option ValueTextToken)) : option T :=
  match items with
  | [] => None
  | None :: rest => visitItems rest
  | Some v :: rest =>
      match visitLeaf (NValue (VText v)) with
      | Some r => Some r
      | None => visitItems rest
      end
  end.

Definition visitValue (v : ValueToken) : option T :=
  match visitorTest (NValue v) with
  | ReturnResult r => Some r
  | SkipToken => None
  | Descend =>
      match v with
      | VTextList _ _ items => visitItems items
      | _ => None
      end
  end.

Fixpoint nodeVisitor (t : TokenResult) : option T :=
  match visitorTest (NRoot t) with
  | ReturnResult r => Some r
  | SkipToken => None
  | Descend =>
      match t with
      | TFilter f =>
          match visitLeaf (NKey (f_key f)) with
          | Some r => Some r
          | None => visitValue (f_value f)
          end
      | TLogicGroup _ _ inner =>
          (fix each (l : list TokenResult) : option T :=
             match l with
             | [] => None
             | x :: l' =>
                 match nodeVisitor x with
                 | Some r => Some r
                 | None => each l'
                 end
             end) inner
      | _ => None
      end
  end.

Fixpoint visitAll (tree : list TokenResult) : option T :=
  match tree with
  | [] => None
  | x :: rest =>
      match nodeVisitor x with
      | Some r => Some r
      | None => visitAll rest
      end
  end.

(** Modelled from the spec: [treeResultLocator] of searchSyntax/utils is
    not among the sources.  A depth-first walk in tree order that stops at
    the first result a visitor returns; a node the visitor skips is not
    entered; without a result the walk yields [noResultValue]. *)
Definition treeResultLocator (tree : ParseResult) (noResultValue : T) : T :=
  match visitAll tree with
  | Some r => r
  | None => noResultValue
  end.

End TreeLocator.

(* ================================================================== *)
(** ** Suggestions, tags and props *)

(** Modelled from the spec: [ItemType] of ./types is not among the
    sources.  The kinds of suggestion the component names. *)
Inductive ItemType : Type :=
| DEFAULT | RECENT_SEARCH | TAG_KEY | TAG_VALUE | TAG_OPERATOR
| FIRST_RELEASE | INVALID_TAG.

Definition ItemType_eqb (a b : ItemType) : bool :=
  match a, b with
  | DEFAULT, DEFAULT | RECENT_SEARCH, RECENT_SEARCH | TAG_KEY, TAG_KEY
  | TAG_VALUE, TAG_VALUE | TAG_OPERATOR, TAG_OPERATOR
  | FIRST_RELEASE, FIRST_RELEASE | INVALID_TAG, INVALID_TAG => true
  | _, _ => false
  end.

(** The one callback the component attaches to a suggestion: opening the
    documentation of searchable properties. *)
Inductive ItemCallback : Type := OpenSearchDocs.

(** Modelled from the spec: [SearchItem] of ./types is not among the
    sources.  "A suggestion entry: value (text to splice in), description,
    type, optional callback, optional flag to bypass the max-items cap";
    [item_active] is its highlight. *)
Record SearchItem : Type := mkItem
  { item_value : option string;
    item_desc : option string;
    item_type : ItemType;
    item_callback : option ItemCallback;
    ignoreMaxSearchItems : option bool;
    item_active : bool }.

(** Modelled from the spec: [SearchGroup] of ./types is not among the
    sources.  A titled section of the dropdown. *)
Record SearchGroup : Type := mkGroup
  { group_title : string;
    group_value : option string;
    group_children : list SearchItem }.

(** [AutocompleteGroup].  The name of the tag is [tag.key] where the
    group is made for a tag, and that is [undefined], here [None], when
    the tag is not an object of the tag collection (see [TagEntry]). *)
Record AutocompleteGroup : Type := mkAutocompleteGroup
  { searchItems : list SearchItem;
    recentSearchItems : option (list SearchItem);
    tagName : option string;
    group_type : ItemType }.

(** What [createSearchGroups] returns and [setState] is handed. *)
Record SearchGroups : Type := mkSearchGroups
  { sg_searchGroups : list SearchGroup;
    sg_flatSearchItems : list SearchItem;
    sg_activeSearchItem : Z }.

(** Modelled from the spec: [Tag] of sentry/types is not among the
    sources.  A tag descriptor "carries an optional static value list and
    an optional max suggested values cap"; [tag_key] and [tag_predefined]
    are the other two fields the component reads. *)
Record Tag : Type := mkTag
  { tag_key : string;
    tag_values : option (list string);
    tag_predefined : bool;
    maxSuggestedValues : option Z }.

(** A release as the releases endpoint lists it. *)
Record Release : Type := mkRelease { shortVersion : string }.

(** [Props]: the options the modelled methods read.  [supportedTags] is
    the object's entries in key order. *)
Record Props : Type := mkProps
  { defaultSearchItems : list SearchItem * list SearchItem;
    excludeEnvironment : bool;
    hasRecentSearches : bool;
    maxQueryLength : option Z;
    maxSearchItems : option Z;
    onGetTagValues : bool;
    hasOnSavedRecentSearch : bool;
    prepareQuery : option (string -> string);
    savedSearchType : option Z;
    supportedTagType : option ItemType;
    supportedTags : list (string * Tag) }.

(** [State] *)
Record State : Type := mkState
  { activeSearchItem : Z;
    flatSearchItems : list SearchItem;
    loading : bool;
    parsedQuery : option ParseResult;
    query : string;
    searchGroups : list SearchGroup;
    searchTerm : string;
    showDropdown : bool;
    noValueQuery : option string }.

(** The text area behind [searchInput]: the component reads and assigns
    its selection; its text is [state.query]. *)
Record Textarea : Type := mkTextarea
  { selectionStart : Z; selectionEnd : Z }.

(** What the component calls outside itself, in the order of the calls. *)
Inductive Call : Type :=
| Call_onSearch (q : string)
| Call_onClose (q : string)
| Call_onChange (q : string)
| Call_onKeyDown (key : string)
| Call_onSavedRecentSearch (q : string)
| Call_saveRecentSearch (q : string)
| Call_trackAnalytics (event : string)
| Call_captureException
| Call_preventDefault
| Call_itemCallback (cb : ItemCallback).

(** What [supportedTags[tagName]] yields when it yields something: a tag
    of the collection or, the collection being a plain object as its
    default [{}] is, a member that every object inherits from
    [Object.prototype] ([constructor], [toString], ...).  Such a member
    is a function or an object and has none of the fields of a tag. *)
Inductive TagEntry : Type :=
| OwnTag (tag : Tag)
| PrototypeMember.

(** [tag.key], [undefined] on an inherited member. *)
Definition entry_key (entry : TagEntry) : option string :=
  match entry with
  | OwnTag tag => Some (tag_key tag)
  | PrototypeMember => None
  end.

(** The request for tag values that [generateValueAutocompleteGroup]
    starts, with what its synchronous part has already computed. *)
Inductive ValueRequest : Type :=
| NoRequest (result : option AutocompleteGroup)
| PredefinedValues (tag : Tag) (items : list SearchItem)
| ReleaseValues (tag : Tag) (query : string)
| RemoteValues (tag : TagEntry) (query : string) (asked : bool).

(** An asynchronous function suspended at its [await], with the locals
    it captured before suspending. *)
Inductive Pending : Type :=
| AwaitValueGroup (cursor : Z) (cursorToken : FilterToken)
                  (tagName : string) (request : ValueRequest)
                  (recentWanted : bool)
| AwaitKeyGroup (cursor : Z) (cursorToken : FilterToken)
                (tagName : string) (tagKeys : list SearchItem)
                (tagType : ItemType) (recentWanted : bool)
| AwaitFreeTextGroup (cursor : Z) (searchTerm : string)
                     (tagKeys : list SearchItem) (tagType : ItemType)
                     (recentWanted : bool)
| AwaitDefaultSearches (query : string) (tagKeys : list SearchItem)
                       (tagType : ItemType) (recentWanted : bool)
| AwaitSaveRecentSearch (query : string).

(** What the awaited promises deliver.  [None] is a rejected promise. *)
Record Response : Type := mkResponse
  { resp_values : option (list string);
    resp_recent : option (list SearchItem);
    resp_releases : list Release;
    resp_saved : bool }.

(** The component instance. *)
Record Comp : Type := mkComp
  { props : Props;
    state : State;
    searchInput : option Textarea;
    calls : list Call;
    pending : list Pending }.

(** The modules the component imports and that are not among the sources:
    the parser, and the helpers of [./utils]. *)
Record Imports : Type := mkImports
  { parseSearch : string -> option ParseResult;
    removeSpace : string -> string;
    createSearchGroups :
      list SearchItem -> option (list SearchItem) -> option string -> ItemType ->
      option Z -> option Z -> bool -> SearchGroups;
    getSearchGroupWithItemMarkedActive :
      list SearchGroup -> option SearchItem -> bool -> list SearchGroup;
    getValidOps : FilterToken -> list string;
    generateOperatorEntryMap : string -> string -> SearchItem;
    filterKeysFromQuery : list string -> string -> list string;
    getTagItemsFromKeys : list string -> list (string * Tag) -> list SearchItem;
    localeCompare : string -> string -> Z }.

(** The browser: whether [document.execCommand] exists, whether its
    [insertText] succeeds on a given text, and whether the user agent is
    Firefox. *)
Record Platform : Type := mkPlatform
  { hasExecCommand : bool;
    insertTextWorks : string -> bool;
    isFirefox : bool }.

(** Modelled from the spec: [Shortcut] of ./types is not among the
    sources.  A shortcut "declares its trigger key combination and an
    applicability predicate over the current cursor token and token
    count"; [runShortcut] reads its type and the predicate. *)
Inductive ShortcutType : Type :=
| ShortcutDelete | ShortcutNegate | ShortcutNext | ShortcutPrevious
| ShortcutOther.

Record Shortcut : Type := mkShortcut
  { shortcutType : ShortcutType;
    canRunShortcut : option TokenResult -> Z -> bool }.

(** Modelled from the spec: [NEGATION_OPERATOR] of sentry/constants is not
    among the sources; it is the negation marker [!]. *)
Definition NEGATION_OPERATOR : string := "!".

(* ================================================================== *)
(** ** The component *)

(** *** Partial state updates, as [setState] merges them *)

Definition put_queryState (q : string) (p : option ParseResult) (s : State) : State :=
  mkState (activeSearchItem s) (flatSearchItems s) (loading s) p q
          (searchGroups s) (searchTerm s) (showDropdown s) (noValueQuery s).

Definition put_searchTerm (t : string) (s : State) : State :=
  mkState (activeSearchItem s) (flatSearchItems s) (loading s) (parsedQuery s)
          (query s) (searchGroups s) t (showDropdown s) (noValueQuery s).

Definition put_searchGroups (g : list SearchGroup) (s : State) : State :=
  mkState (activeSearchItem s) (flatSearchItems s) (loading s) (parsedQuery s)
          (query s) g (searchTerm s) (showDropdown s) (noValueQuery s).

Definition put_activeSearchItem (i : Z) (s : State) : State :=
  mkState i (flatSearchItems s) (loading s) (parsedQuery s)
          (query s) (searchGroups s) (searchTerm s) (showDropdown s)
          (noValueQuery s).

Definition put_showDropdown (b : bool) (s : State) : State :=
  mkState (activeSearchItem s) (flatSearchItems s) (loading s) (parsedQuery s)
          (query s) (searchGroups s) (searchTerm s) b (noValueQuery s).

Definition put_loading (b : bool) (s : State) : State :=
  mkState (activeSearchItem s) (flatSearchItems s) b (parsedQuery s)
          (query s) (searchGroups s) (searchTerm s) (showDropdown s)
          (noValueQuery s).

Definition put_noValueQuery (v : option string) (s : State) : State :=
  mkState (activeSearchItem s) (flatSearchItems s) (loading s) (parsedQuery s)
          (query s) (searchGroups s) (searchTerm s) (showDropdown s) v.

Definition put_suggestions (g : SearchGroups) (s : State) : State :=
  mkState (sg_activeSearchItem g) (sg_flatSearchItems g) (loading s)
          (parsedQuery s) (query s) (sg_searchGroups g) (searchTerm s)
          (showDropdown s) (noValueQuery s).

(** [this.setState(...)]: the update is applied at once. *)
Definition setState (f : State -> State) (c : Comp) : Comp :=
  mkComp (props c) (f (state c)) (searchInput c) (calls c) (pending c).

(** A call that leaves the component. *)
Definition call (x : Call) (c : Comp) : Comp :=
  mkComp (props c) (state c) (searchInput c) (calls c ++ [x])%list (pending c).

(** An asynchronous function reaches its [await]. *)
Definition suspend (p : Pending) (c : Comp) : Comp :=
  mkComp (props c) (state c) (searchInput c) (calls c) (pending c ++ [p])%list.

(** [searchInput.current.selectionStart = a; ....selectionEnd = b] *)
Definition setSelection (a b : Z) (c : Comp) : Comp :=
  match searchInput c with
  | Some _ =>
      mkComp (props c) (state c) (Some (mkTextarea a b)) (calls c) (pending c)
  | None => c
  end.

(** What rendering does to the text area, which the state's text
    controls: when the text area holds [domValue] and the state another
    text, React writes the state's text into it, and the browser puts the
    caret at the end of the text it is given. *)
Definition commitValue (domValue : string) (c : Comp) : Comp :=
  if String.eqb domValue (query (state c)) then c
  else setSelection (JS.length (query (state c))) (JS.length (query (state c))) c.

(** [array[i]]: [undefined] out of range. *)
Definition itemAt {A : Type} (l : list A) (i : Z) : option A :=
  if i <? 0 then None else nth_error l (Z.to_nat i).

(** [array.findIndex(test)] *)
Fixpoint findIndexFrom {A : Type} (test : A -> bool) (l : list A) (i : Z) : Z :=
  match l with
  | [] => -1
  | x :: rest => if test x then i else findIndexFrom test rest (i + 1)
  end.

Definition findIndex {A : Type} (test : A -> bool) (l : list A) : Z :=
  findIndexFrom test l 0.

Definition listLength {A : Type} (l : list A) : Z := Z.of_nat (List.length l).

Definition isEmpty (s : string) : bool :=
  match s with EmptyString => true | _ => false end.

(** Truthiness of an optional number: defined and not zero. *)
Definition truthy (n : option Z) : bool :=
  match n with Some v => negb (v =? 0) | None => false end.

Definition loc_eqb (a b : LocationRange) : bool :=
  (start_offset a =? start_offset b) && (end_offset a =? end_offset b).

(** [tok === token] on nodes of one parse tree.  Two distinct nodes of a
    tree that are both filters never cover the same range, so identity is
    decided by the kind and the location. *)
Definition sameToken (tok : FilterToken) (token : TokenResult) : bool :=
  match token with
  | TFilter f => loc_eqb (f_location tok) (f_location f)
  | _ => false
  end.

(** Stable insertion sort, for [keys.sort((a, b) => a.localeCompare(b))]. *)
Fixpoint insertSorted (cmp : string -> string -> Z) (x : string)
         (l : list string) : list string :=
  match l with
  | [] => [x]
  | y :: rest =>
      if cmp x y <? 0 then x :: l else y :: insertSorted cmp x rest
  end.

Definition sortWith (cmp : string -> string -> Z) (l : list string) : list string :=
  fold_left (fun acc x => insertSorted cmp x acc) l [].

(** [escapeValue]: wrap in quotes if there is a space or a quote. *)
Definition escapeValue (value : string) : string :=
  if JS.includes value " " || JS.includes value (JS.str JS.dquote)
  then JS.str JS.dquote
       ++ JS.replaceAllChar value JS.dquote
            (String JS.backslash (JS.str JS.dquote))
       ++ JS.str JS.dquote
  else value.

Definition tagValueItem (escapedValue : string) (ignoreMax : option bool) : SearchItem :=
  mkItem (Some escapedValue) (Some escapedValue) TAG_VALUE None ignoreMax false.

Fixpoint mapIndexed {A B : Type} (f : A -> Z -> B) (l : list A) (i : Z) : list B :=
  match l with
  | [] => []
  | x :: rest => f x i :: mapIndexed f rest (i + 1)
  end.

(** [getPredefinedTagValues] *)
Definition getPredefinedTagValues (tag : Tag) (query : string) : list SearchItem :=
  mapIndexed
    (fun value i =>
       let escapedValue := escapeValue value in
       tagValueItem escapedValue
         (Some (if truthy (maxSuggestedValues tag)
                then match maxSuggestedValues tag with
                     | Some m => i <? m
                     | None => false
                     end
                else false)))
    (filter (fun value => -1 <? JS.indexOf value query)
            (match tag_values tag with Some vs => vs | None => [] end))
    0.

(** The names every plain object inherits from [Object.prototype]. *)
Definition prototypeNames : list string :=
  ["constructor"; "__defineGetter__"; "__defineSetter__"; "hasOwnProperty";
   "__lookupGetter__"; "__lookupSetter__"; "isPrototypeOf";
   "propertyIsEnumerable"; "toString"; "valueOf"; "__proto__";
   "toLocaleString"].

(** [supportedTags[name]]: the object's own entry of that name, else the
    member it inherits under that name, else [undefined]. *)
Definition lookupTag (tags : list (string * Tag)) (name : string) : option TagEntry :=
  match find (fun kv => String.eqb (fst kv) name) tags with
  | Some kv => Some (OwnTag (snd kv))
  | None =>
      if existsb (String.eqb name) prototypeNames then Some PrototypeMember
      else None
  end.

(** The function that [getReleases] debounces, with the releases its fetch
    has delivered: the tag's own values that contain the query, then the
    releases, all typed as first releases. *)
Definition asFirstRelease (v : SearchItem) : SearchItem :=
  mkItem (item_value v) (item_desc v) FIRST_RELEASE (item_callback v)
         (ignoreMaxSearchItems v) (item_active v).

Definition releaseItem (r : Release) : SearchItem :=
  mkItem (Some (shortVersion r)) (Some (shortVersion r)) FIRST_RELEASE None None false.

Definition getReleases (tag : Tag) (query : string) (releases : list Release)
  : list SearchItem :=
  let tags := getPredefinedTagValues tag query in
  let tagValues := map asFirstRelease tags in
  let releaseValues := map releaseItem releases in
  (tagValues ++ releaseValues)%list.

Definition orEmpty {A : Type} (l : option (list A)) : list A :=
  match l with Some x => x | None => [] end.

Section Component.

Variable M : Imports.
Variable P : Platform.

(** [makeQueryState]: the text and its parse are replaced together. *)
Definition makeQueryState (q : string) : State -> State :=
  put_queryState q (parseSearch M q).

(** [generateOpAutocompleteGroup] *)
Definition generateOpAutocompleteGroup (validOps : list string)
           (tagName : string) : AutocompleteGroup :=
  let operatorMap := generateOperatorEntryMap M tagName in
  mkAutocompleteGroup (map operatorMap validOps) None (Some EmptyString) TAG_OPERATOR.

(** *** Getters *)

(** [get cursorPosition] *)
Definition cursorPosition (c : Comp) : Z :=
  match searchInput c with
  | None => -1
  | Some input => selectionStart input
  end.

(** [findTokensAtCursor] *)
Definition findTokensAtCursor (matchedTokens : list Token) (c : Comp) : option Node :=
  match parsedQuery (state c) with
  | None => None
  | Some tree =>
      let cursor := cursorPosition c in
      treeResultLocator
        (fun token =>
           if negb (existsb (Token_eqb (node_type token)) matchedTokens)
           then Descend
           else if isWithinToken (node_location token) cursor
                then ReturnResult (Some token)
                else SkipToken)
        tree None
  end.

(** [get cursorToken]: the filter or free text under the cursor. *)
Definition cursorToken (c : Comp) : option TokenResult :=
  match findTokensAtCursor [Filter; FreeText] c with
  | Some (NRoot t) => Some t
  | _ => None
  end.

(** [get cursorValue]: the text value under the cursor. *)
Definition cursorValue (c : Comp) : option ValueTextToken :=
  match findTokensAtCursor [ValueText] c with
  | Some (NValue (VText v)) => Some v
  | _ => None
  end.

(** [get filterTokens]: the filters among the root tokens. *)
Definition filterTokens (c : Comp) : list FilterToken :=
  match parsedQuery (state c) with
  | Some tree =>
      flat_map (fun tok => match tok with TFilter f => [f] | _ => [] end) tree
  | None => []
  end.

Definition node_invalid (n : Node) : bool :=
  match n with
  | NRoot (TFilter f) => f_invalid f
  | _ => false
  end.

(** The [visitorTest] of [hasValidSearch]: a node that is not a filter is
    entered, an invalid filter ends the search with [false], a valid one
    is passed over. *)
Definition invalidFilterTest (token : Node) : Visit bool :=
  if negb (Token_eqb (node_type token) Filter) then Descend
  else if node_invalid token then ReturnResult false
       else SkipToken.

(** [get hasValidSearch]: check if any filters are invalid within the
    search query.  If we fail to parse be optimistic that it's valid. *)
Definition hasValidSearch (c : Comp) : bool :=
  match parsedQuery (state c) with
  | None => true
  | Some tree => treeResultLocator invalidFilterTest tree true
  end.

Record SearchTermAtCursor : Type := mkSearchTerm
  { st_end : Z; st_searchTerm : string; st_start : Z }.

Definition isLimiterChar (ch : option ascii) : bool :=
  match ch with
  | Some a => Ascii.eqb a " " || Ascii.eqb a ":"
  | None => false
  end.

(** The two [while] loops of [cursorSearchTerm]; each runs at most as many
    times as the fuel it is given below. *)
Fixpoint scanBack (text : string) (fuel : nat) (tokenStart : Z) : Z :=
  match fuel with
  | O => tokenStart
  | S fuel' =>
      if (0 <? tokenStart) && negb (isLimiterChar (JS.charAt text (tokenStart - 1)))
      then scanBack text fuel' (tokenStart - 1)
      else tokenStart
  end.

Fixpoint scanForward (text : string) (fuel : nat) (tokenEnd : Z) : Z :=
  match fuel with
  | O => tokenEnd
  | S fuel' =>
      if (tokenEnd <? JS.length text) && negb (isLimiterChar (JS.charAt text tokenEnd))
      then scanForward text fuel' (tokenEnd + 1)
      else tokenEnd
  end.

(** [get cursorSearchTerm] *)
Definition cursorSearchTerm (c : Comp) : option SearchTermAtCursor :=
  match cursorToken c with
  | None => None
  | Some token =>
      let text := token_text token in
      let startOffset := start_offset (token_location token) in
      let innerStart := cursorPosition c - startOffset in
      let tokenStart := scanBack text (Z.to_nat innerStart) innerStart in
      let tokenEnd :=
        scanForward text (Z.to_nat (JS.length text - innerStart)) innerStart in
      let searchTerm := JS.slice text tokenStart tokenEnd in
      let negatedTerm := JS.startsWith searchTerm NEGATION_OPERATOR in
      let tokenStart := if negatedTerm then tokenStart + 1 else tokenStart in
      let searchTerm := if negatedTerm then JS.drop 1 searchTerm else searchTerm in
      Some (mkSearchTerm (startOffset + tokenEnd) searchTerm (startOffset + tokenStart))
  end.

(** *** Opening, closing and submitting *)

(** [close] *)
Definition close (c : Comp) : Comp :=
  call (Call_onClose (query (state c))) (setState (put_showDropdown false) c).

(** [open] *)
Definition open (c : Comp) : Comp := setState (put_showDropdown true) c.

(** [blur] *)
Definition blur (c : Comp) : Comp :=
  match searchInput c with
  | None => c
  | Some _ => close c
  end.

(** [doSearch], up to its [await]. *)
Definition doSearch (c : Comp) : Comp :=
  let c := blur c in
  if negb (hasValidSearch c) then c
  else
    let query := removeSpace M (query (state c)) in
    let c := call (Call_trackAnalytics "search.searched") c in
    let c := call (Call_onSearch query) c in
    match savedSearchType (props c) with
    | None => c
    | Some _ =>
        if isEmpty query then c
        else suspend (AwaitSaveRecentSearch query)
                     (call (Call_saveRecentSearch query) c)
    end.

(** *** The autocomplete pipeline *)

Definition queryCharsLeft (c : Comp) : option Z :=
  match maxQueryLength (props c) with
  | Some m =>
      if negb (m =? 0) && negb (isEmpty (query (state c)))
      then Some (m - JS.length (query (state c)))
      else None
  | None => None
  end.

(** [updateAutoCompleteState] *)
Definition updateAutoCompleteState (searchItems recentSearchItems : list SearchItem)
           (tagName : string) (type : ItemType) (c : Comp) : Comp :=
  let searchGroups :=
    createSearchGroups M searchItems
      (if hasRecentSearches (props c) then Some recentSearchItems else None)
      (Some tagName) type (maxSearchItems (props c)) (queryCharsLeft c) true in
  setState (put_suggestions searchGroups) c.

(** [updateAutoCompleteStateMultiHeader] *)
Definition updateAutoCompleteStateMultiHeader (groups : list AutocompleteGroup)
           (c : Comp) : Comp :=
  let searchGroups :=
    fold_left
      (fun acc item =>
         mkSearchGroups (sg_searchGroups acc ++ sg_searchGroups item)%list
                        (sg_flatSearchItems acc ++ sg_flatSearchItems item)%list
                        (-1))
      (map (fun g =>
              createSearchGroups M (searchItems g)
                (if hasRecentSearches (props c) then recentSearchItems g else None)
                (tagName g) (group_type g)
                (maxSearchItems (props c)) (queryCharsLeft c) false)
           groups)
      (mkSearchGroups [] [] (-1)) in
  setState (put_suggestions searchGroups) c.

(** [getTagKeys] *)
Definition getTagKeys (searchTerm : string) (c : Comp) : list SearchItem * ItemType :=
  let tags := supportedTags (props c) in
  let tagKeys := sortWith (localeCompare M) (map fst tags) in
  let tagKeys :=
    if negb (isEmpty searchTerm)
    then filterKeysFromQuery M tagKeys
           (match prepareQuery (props c) with
            | Some prepare => prepare searchTerm
            | None => searchTerm
            end)
    else tagKeys in
  let tagKeys :=
    if excludeEnvironment (props c)
    then filter (fun key => negb (String.eqb key "environment")) tagKeys
    else tagKeys in
  (getTagItemsFromKeys M tagKeys tags,
   match supportedTagType (props c) with Some t => t | None => TAG_KEY end).

(** [getRecentSearches], before its [await]: whether recent searches are
    fetched at all. *)
Definition getRecentSearches (c : Comp) : bool :=
  match savedSearchType (props c) with
  | Some _ => hasRecentSearches (props c)
  | None => false
  end.

(** [getRecentSearches], once the fetch has returned. *)
Definition recentSearchesOf (wanted : bool) (r : Response) : option (list SearchItem) :=
  if wanted then resp_recent r else Some [].

(** The function that [getTagValues] debounces, before its [await]: the
    query without quotes, and whether the remote lookup is made. *)
Definition getTagValues (tag : TagEntry) (query : string) (c : Comp)
  : Comp * ValueRequest :=
  let query := JS.trim (JS.replaceAllChar query JS.dquote EmptyString) in
  if negb (onGetTagValues (props c)) then (c, RemoteValues tag query false)
  else if match noValueQuery (state c) with
          | Some nv => JS.startsWith query nv
          | None => false
          end
       then (c, RemoteValues tag query false)
       else (setState (put_loading true) c, RemoteValues tag query true).

(** The same function, after its [await]. *)
Definition getTagValues_resumed (tag : TagEntry) (query : string) (asked : bool)
           (r : Response) (c : Comp) : Comp * list SearchItem :=
  if asked then
    match resp_values r with
    | None => (call Call_captureException (setState (put_loading false) c), [])
    | Some values =>
        let c := setState (put_loading false) c in
        let values :=
          if match entry_key tag with
             | Some key => String.eqb key "release:"
             | None => false
             end
             && negb (existsb (String.eqb "latest") values)
          then "latest" :: values else values in
        let noValueQuery :=
          if (listLength values =? 0) && (0 <? JS.length query)
          then Some query else None in
        let c := setState (put_noValueQuery noValueQuery) c in
        (c, map (fun value => tagValueItem (escapeValue value) None) values)
    end
  else (c, []).

Definition invalidTagGroup (tagName : string) : AutocompleteGroup :=
  mkAutocompleteGroup
    [mkItem None (Some tagName) INVALID_TAG (Some OpenSearchDocs) None false]
    (Some []) (Some tagName) INVALID_TAG.

(** [generateValueAutocompleteGroup], up to its [await]: the suggestions on
    screen are filtered at once, then the request is chosen by the shape of
    the tag.  The fetchers are debounced; the call made here is taken to be
    let through, as the first call of a burst is. *)
Definition generateValueAutocompleteGroup (tagName query : string) (c : Comp)
  : Comp * ValueRequest :=
  let preparedQuery :=
    match prepareQuery (props c) with
    | Some prepare => prepare query
    | None => query
    end in
  let filteredSearchGroups :=
    if isEmpty preparedQuery then searchGroups (state c)
    else filter
           (fun item =>
              match group_value item with
              | Some v => negb (isEmpty v) && negb (JS.indexOf v preparedQuery =? -1)
              | None => false
              end)
           (searchGroups (state c)) in
  let c :=
    setState (fun s => put_searchGroups filteredSearchGroups (put_searchTerm query s)) c in
  match lookupTag (supportedTags (props c)) tagName with
  | None => (c, NoRequest (Some (invalidTagGroup tagName)))
  | Some entry =>
      if excludeEnvironment (props c) && String.eqb tagName "environment"
      then (c, NoRequest None)
      else match entry with
           | OwnTag tag =>
               if String.eqb (tag_key tag) "firstRelease"
               then (c, ReleaseValues tag preparedQuery)
               else if tag_predefined tag
                    then (c, PredefinedValues tag
                               (getPredefinedTagValues tag preparedQuery))
                    else getTagValues entry preparedQuery c
           | PrototypeMember =>
               (* no [key] and no [predefined] there *)
               getTagValues entry preparedQuery c
           end
  end.

(** [generateValueAutocompleteGroup], after its [await].  The outer
    [None] is a rejected promise, the inner one the [null] group. *)
Definition generateValueAutocompleteGroup_resumed (request : ValueRequest)
           (recentWanted : bool) (r : Response) (c : Comp)
  : Comp * option (option AutocompleteGroup) :=
  match request with
  | NoRequest result => (c, Some result)
  | PredefinedValues tag items =>
      match recentSearchesOf recentWanted r with
      | Some recent =>
          (c, Some (Some (mkAutocompleteGroup items (Some recent)
                            (Some (tag_key tag)) TAG_VALUE)))
      | None => (c, None)
      end
  | ReleaseValues tag query =>
      let items := getReleases tag query (resp_releases r) in
      match recentSearchesOf recentWanted r with
      | Some recent =>
          (c, Some (Some (mkAutocompleteGroup items (Some recent)
                            (Some (tag_key tag)) TAG_VALUE)))
      | None => (c, None)
      end
  | RemoteValues tag query asked =>
      let (c, items) := getTagValues_resumed tag query asked r c in
      match recentSearchesOf recentWanted r with
      | Some recent =>
          (c, Some (Some (mkAutocompleteGroup items (Some recent)
                            (entry_key tag) TAG_VALUE)))
      | None => (c, None)
      end
  end.

(** [showDefaultSearches], up to its [await]. *)
Definition showDefaultSearches (c : Comp) : Comp :=
  let query := query (state c) in
  let (defaultSearchItems, defaultRecentItems) := defaultSearchItems (props c) in
  let c := setState (put_searchTerm EmptyString) c in
  if listLength defaultSearchItems =? 0 then
    let (tagKeys, tagType) := getTagKeys EmptyString c in
    suspend (AwaitDefaultSearches query tagKeys tagType (getRecentSearches c)) c
  else
    updateAutoCompleteState defaultSearchItems defaultRecentItems EmptyString DEFAULT c.

(** [updateAutoCompleteFromAst], up to the [await] of the branch taken. *)
Definition updateAutoCompleteFromAst (c : Comp) : Comp :=
  let cursor := cursorPosition c in
  match cursorToken c with
  | None => showDefaultSearches c
  | Some (TFilter cursorToken) =>
      let tagName := getKeyName (f_key cursorToken) in
      if isWithinToken (value_location (f_value cursorToken)) cursor then
        let node := f_value cursorToken in
        let cursorValue := cursorValue c in
        let searchText :=
          match cursorValue with
          | Some v => vt_text v
          | None => value_text node
          end in
        let searchText :=
          if String.eqb searchText "[]"
             || match cursorValue with None => true | Some _ => false end
          then EmptyString else searchText in
        let recentWanted := getRecentSearches c in
        let (c, request) := generateValueAutocompleteGroup tagName searchText c in
        suspend (AwaitValueGroup cursor cursorToken tagName request recentWanted) c
      else if isWithinToken (key_location (f_key cursorToken)) cursor then
        let (tagKeys, tagType) := getTagKeys tagName c in
        suspend (AwaitKeyGroup cursor cursorToken tagName tagKeys tagType
                               (getRecentSearches c)) c
      else
        let opGroup :=
          generateOpAutocompleteGroup (getValidOps M cursorToken) tagName in
        updateAutoCompleteStateMultiHeader [opGroup] c
  | Some (TFreeText _ _) =>
      match cursorSearchTerm c with
      | Some cursorSearchTerm =>
          let (tagKeys, tagType) := getTagKeys (st_searchTerm cursorSearchTerm) c in
          suspend (AwaitFreeTextGroup cursor (st_searchTerm cursorSearchTerm)
                                      tagKeys tagType (getRecentSearches c)) c
      | None => c
      end
  | Some _ => c
  end.

(** [updateAutoCompleteItems] *)
Definition updateAutoCompleteItems (c : Comp) : Comp := updateAutoCompleteFromAst c.

Definition isInvalidTagGroup (g : option AutocompleteGroup) : bool :=
  match g with
  | Some g => ItemType_eqb (group_type g) INVALID_TAG
  | None => false
  end.

(** The rest of a suspended function, run when what it awaits arrives:
    [c] is the component as it is then. *)
Definition resume (p : Pending) (r : Response) (c : Comp) : Comp :=
  match p with
  | AwaitValueGroup cursor cursorToken tagName request recentWanted =>
      match generateValueAutocompleteGroup_resumed request recentWanted r c with
      | (c, Some valueGroup) =>
          let node := f_value cursorToken in
          let autocompleteGroups :=
            match valueGroup with Some g => [g] | None => [] end in
          let autocompleteGroups :=
            if (cursor =? start_offset (value_location node))
               && negb (isInvalidTagGroup valueGroup)
            then generateOpAutocompleteGroup (getValidOps M cursorToken) tagName
                 :: autocompleteGroups
            else autocompleteGroups in
          if cursor =? cursorPosition c
          then updateAutoCompleteStateMultiHeader autocompleteGroups c
          else c
      | (c, None) => c
      end
  | AwaitKeyGroup cursor cursorToken tagName tagKeys tagType recentWanted =>
      match recentSearchesOf recentWanted r with
      | Some recentSearches =>
          let node := f_key cursorToken in
          let group :=
            mkAutocompleteGroup tagKeys (Some recentSearches) (Some tagName) tagType in
          let autocompleteGroups :=
            if cursor =? end_offset (key_location node)
            then [generateOpAutocompleteGroup (getValidOps M cursorToken) tagName; group]
            else [group] in
          if cursor =? cursorPosition c
          then updateAutoCompleteStateMultiHeader autocompleteGroups
                 (setState (put_searchTerm tagName) c)
          else c
      | None => c
      end
  | AwaitFreeTextGroup cursor searchTerm tagKeys tagType recentWanted =>
      match recentSearchesOf recentWanted r with
      | Some recentSearches =>
          let autocompleteGroups :=
            [mkAutocompleteGroup tagKeys (Some recentSearches) (Some searchTerm)
                                 tagType] in
          if cursor =? cursorPosition c
          then updateAutoCompleteStateMultiHeader autocompleteGroups
                 (setState (put_searchTerm searchTerm) c)
          else c
      | None => c
      end
  | AwaitDefaultSearches query0 tagKeys tagType recentWanted =>
      match recentSearchesOf recentWanted r with
      | Some recentSearches =>
          if String.eqb (query (state c)) query0
          then updateAutoCompleteState tagKeys recentSearches EmptyString tagType c
          else c
      | None => c
      end
  | AwaitSaveRecentSearch query0 =>
      if resp_saved r
      then if hasOnSavedRecentSearch (props c)
           then call (Call_onSavedRecentSearch query0) c
           else c
      else call Call_captureException c
  end.

(** *** Editing the query *)

(** [updateQuery]: the new text is parsed and rendered, the cursor is
    placed when a position is given and is not zero, the suggestions are
    refreshed and the host is told. *)
Definition updateQuery (newQuery : string) (cursorPosition' : option Z) (c : Comp) : Comp :=
  let domValue := query (state c) in
  let c := commitValue domValue (setState (makeQueryState newQuery) c) in
  let c :=
    match cursorPosition' with
    | Some position =>
        if negb (position =? 0) then setSelection position position c else c
    | None => c
    end in
  let c := updateAutoCompleteItems c in
  call (Call_onChange newQuery) c.

(** The state update [onQueryChange] queues, as React applies it: the
    text without its first line break is parsed and rendered into the text
    area, which holds [value], and the suggestions are refreshed. *)
Definition onQueryChange_queued (value : string) (c : Comp) : Comp :=
  let query0 := JS.replace value (JS.str JS.newline) EmptyString in
  let c := commitValue value (setState (makeQueryState query0) c) in
  updateAutoCompleteItems c.

(** [onQueryChange], with the text of the text area: the host is told at
    once, the queued update follows. *)
Definition onQueryChange (value : string) (c : Comp) : Comp :=
  onQueryChange_queued value (call (Call_onChange value) c).

(** [document.execCommand('insertText', false, text)] on the focused text
    area: where the browser performs it, the selected range of the text is
    replaced by [text], the caret is left after the inserted text and the
    change is reported to [onQueryChange], which tells the host and queues
    its update.  The result is the component when the command returns,
    together with the queued update; [None] is the result [false]. *)
Definition execCommand_insertText_queued (text : string) (c : Comp)
  : option (Comp * (Comp -> Comp)) :=
  match searchInput c with
  | Some input =>
      if insertTextWorks P text then
        let value := query (state c) in
        let lo := JS.clamp value (Z.min (selectionStart input) (selectionEnd input)) in
        let hi := JS.clamp value (Z.max (selectionStart input) (selectionEnd input)) in
        let value := JS.substring value 0 lo ++ text ++ JS.substringFrom value hi in
        let caret := lo + JS.length text in
        Some (call (Call_onChange value) (setSelection caret caret c),
              onQueryChange_queued value)
      else None
  | None => None
  end.

(** The same where the command is the last thing the handler does: the
    queued update is applied right after it. *)
Definition execCommand_insertText (text : string) (c : Comp) : option Comp :=
  match execCommand_insertText_queued text c with
  | Some (c', queued) => Some (queued c')
  | None => None
  end.

(** [deleteToken] *)
Definition deleteToken (c : Comp) : Comp :=
  let query0 := query (state c) in
  let filterTokens := filterTokens c in
  match cursorToken c with
  | Some token =>
      if 0 <? listLength filterTokens then
        let index := findIndex (fun tok => sameToken tok token) filterTokens in
        let newQuery :=
          JS.trim (JS.slice query0 0 (start_offset (token_location token)))
          ++ (if (0 <? index) && (index <? listLength filterTokens - 1)
              then " " else EmptyString)
          ++ JS.trim (JS.sliceFrom query0 (end_offset (token_location token))) in
        match searchInput c with
        | Some _ =>
            let c := setSelection 0 (JS.length query0) c in
            if (isFirefox P && (JS.length newQuery =? 0)) || negb (hasExecCommand P)
            then updateQuery newQuery None c
            else match execCommand_insertText newQuery c with
                 | Some c' => c'
                 | None => updateQuery newQuery None c
                 end
        | None => c
        end
      else c
  | None => c
  end.

(** [negateToken].  It runs in an event handler (a shortcut button of the
    dropdown, a hotkey), so the update its edit queues, through
    [onQueryChange] when the browser performs the edit and through
    [updateQuery] when it does not, is applied when [negateToken] has
    returned: after the last two assignments to the selection.  The
    cursor position handed to [updateQuery] is read at the call. *)
Definition negateToken (c : Comp) : Comp :=
  let query0 := query (state c) in
  match cursorToken c with
  | Some (TFilter token) =>
      match searchInput c with
      | None => c
      | Some _ =>
          let keyStart := start_offset (key_location (f_key token)) in
          let tokenStart := start_offset (f_location token) in
          let tokenCursorOffset := cursorPosition c - keyStart in
          if f_negated token then
            (* Select the whole token so we can replace it. *)
            let c := setSelection tokenStart (end_offset (f_location token)) c in
            let (c, queued) :=
              match (if hasExecCommand P
                     then execCommand_insertText_queued (JS.sliceFrom (f_text token) 1) c
                     else None) with
              | Some done => done
              | None =>
                  (* Fallback when execCommand fails *)
                  let newQuery :=
                    JS.slice query0 0 tokenStart ++ JS.sliceFrom query0 keyStart in
                  (c, updateQuery newQuery (Some (cursorPosition c - 1)))
              end in
            (* Return the cursor to where it should be *)
            let newCursorPosition := tokenStart + tokenCursorOffset in
            queued (setSelection newCursorPosition newCursorPosition c)
          else
            let c := setSelection tokenStart tokenStart c in
            let (c, queued) :=
              match (if hasExecCommand P
                     then execCommand_insertText_queued "!" c
                     else None) with
              | Some done => done
              | None =>
                  (* Fallback when execCommand fails *)
                  let newQuery :=
                    JS.slice query0 0 keyStart ++ "!" ++ JS.sliceFrom query0 keyStart in
                  (c, updateQuery newQuery (Some (cursorPosition c + 1)))
              end in
            (* +1 for the ! character we added *)
            let newCursorPosition := tokenStart + tokenCursorOffset + 1 in
            queued (setSelection newCursorPosition newCursorPosition c)
      end
  | _ => c
  end.

(** [moveToNextToken] *)
Definition moveToNextToken (filterTokens : list FilterToken) (c : Comp) : Comp :=
  let token := cursorToken c in
  match searchInput c, filterTokens with
  | Some _, first :: _ =>
      let offset :=
        match token with
        | Some token =>
            let tokenIndex := findIndex (fun tok => sameToken tok token) filterTokens in
            match itemAt filterTokens (tokenIndex + 1) with
            | Some next =>
                if negb (tokenIndex =? -1) then end_offset (f_location next)
                else end_offset (f_location first)
            | None => end_offset (f_location first)
            end
        | None => end_offset (f_location first)
        end in
      updateAutoCompleteItems (setSelection offset offset c)
  | _, _ => c
  end.

(** [runShortcut] *)
Definition runShortcut (shortcut : Shortcut) (c : Comp) : Comp :=
  let token := cursorToken c in
  let filterTokens := filterTokens c in
  if canRunShortcut shortcut token (listLength filterTokens) then
    match shortcutType shortcut with
    | ShortcutDelete => deleteToken c
    | ShortcutNegate => negateToken c
    | ShortcutNext => moveToNextToken filterTokens c
    | ShortcutPrevious => moveToNextToken (rev filterTokens) c
    | ShortcutOther => c
    end
  else c.

(** [onPaste], with the clipboard's plain text.  The paste event comes
    from the text area, so [searchInput.current] is there. *)
Definition onPaste (clipboard : string) (c : Comp) : Comp :=
  match searchInput c with
  | None => c
  | Some input =>
      let c := call Call_preventDefault c in
      let text := JS.trim (JS.replace clipboard (JS.str JS.newline) EmptyString) in
      let currentQuery := query (state c) in
      let cursorPosStart := selectionStart input in
      let cursorPosEnd := selectionEnd input in
      let textBefore := JS.substring currentQuery 0 cursorPosStart in
      let textAfter := JS.substring currentQuery cursorPosEnd (JS.length currentQuery) in
      let mergedText := textBefore ++ text ++ textAfter in
      let c := call (Call_onChange mergedText) c in
      let c := commitValue currentQuery (setState (makeQueryState mergedText) c) in
      let c := updateAutoCompleteItems c in
      let newCursorPosition := cursorPosStart + JS.length text in
      setSelection newCursorPosition newCursorPosition c
  end.

(** *** Accepting a suggestion *)

(** [this.cursorValue ?? cursorToken.value]: its location and its text. *)
Definition valueToken_location (cursorToken : FilterToken) (c : Comp) : LocationRange :=
  match cursorValue c with
  | Some v => vt_location v
  | None => value_location (f_value cursorToken)
  end.

Definition valueToken_text (cursorToken : FilterToken) (c : Comp) : string :=
  match cursorValue c with
  | Some v => vt_text v
  | None => value_text (f_value cursorToken)
  end.

(** The span to overwrite and the text to put there, for a filter under
    the cursor: the first part of [onAutoCompleteFromAst]. *)
Definition filterClause (cursorToken : FilterToken) (replaceText : string)
           (item : SearchItem) (c : Comp) : option (Z * Z) * string :=
  let cursor := cursorPosition c in
  if ItemType_eqb (item_type item) TAG_OPERATOR then
    let valueLocation := value_location (f_value cursorToken) in
    (Some (start_offset (f_location cursorToken), start_offset valueLocation),
     if String.eqb replaceText "!:"
     then "!" ++ key_text (f_key cursorToken) ++ ":"
     else key_text (f_key cursorToken) ++ replaceText)
  else if isWithinToken (value_location (f_value cursorToken)) cursor then
    let location := valueToken_location cursorToken c in
    match f_filter cursorToken with
    | TextIn =>
        (* Current value can be null when adding a 2nd value *)
        match cursorValue c with
        | None => (Some (cursorPosition c, cursorPosition c), replaceText)
        | Some _ => (Some (start_offset location, end_offset location), replaceText)
        end
    | _ =>
        let keyLocation := key_location (f_key cursorToken) in
        let clauseStart := end_offset keyLocation + 1 in
        let clauseEnd := end_offset location + 1 in
        (* The user tag often contains : within its value and we need to
           quote it. *)
        let replaceToken :=
          if String.eqb (getKeyName (f_key cursorToken)) "user"
          then JS.str JS.dquote ++ JS.trim replaceText ++ JS.str JS.dquote
          else replaceText in
        (* handle using autocomplete with key:[] *)
        if String.eqb (valueToken_text cursorToken c) "[]"
        then (Some (clauseStart + 1, clauseEnd - 2), replaceToken)
        else (Some (clauseStart, clauseEnd), replaceToken ++ " ")
    end
  else if isWithinToken (key_location (f_key cursorToken)) cursor then
    let location := key_location (f_key cursorToken) in
    (* trim off the end to avoid duplicate ':' *)
    (Some (start_offset location, end_offset location + 1), replaceText)
  else (None, replaceText).

(** [onAutoCompleteFromAst] *)
Definition onAutoCompleteFromAst (replaceText : string) (item : SearchItem)
           (c : Comp) : Comp :=
  let query0 := query (state c) in
  match cursorToken c with
  | None => updateQuery (query0 ++ replaceText) None c
  | Some cursorToken =>
      let '(c', clause, replaceToken) :=
        match cursorToken with
        | TFilter f =>
            let (clause, replaceToken) := filterClause f replaceText item c in
            (if ItemType_eqb (item_type item) TAG_OPERATOR
             then call (Call_trackAnalytics "search.operator_autocompleted") c
             else c,
             clause, replaceToken)
        | _ => (c, None, replaceText)
        end in
      let clause :=
        match cursorToken, cursorSearchTerm c with
        | TFreeText _ _, Some cursorSearchTerm =>
            Some (st_start cursorSearchTerm, st_end cursorSearchTerm)
        | _, _ => clause
        end in
      match clause with
      | Some (clauseStart, clauseEnd) =>
          let beforeClause := JS.substring query0 0 clauseStart in
          let endClause := JS.substringFrom query0 clauseEnd in
          let newQuery := beforeClause ++ replaceToken ++ endClause in
          updateQuery newQuery
            (Some (JS.length beforeClause + JS.length replaceToken)) c'
      | None => c'
      end
  end.

(** [onAutoComplete]: a recent search replaces the query and is submitted;
    any other suggestion edits the text. *)
Definition onAutoComplete (replaceText : string) (item : SearchItem) (c : Comp) : Comp :=
  if ItemType_eqb (item_type item) RECENT_SEARCH then
    let c := call (Call_trackAnalytics "search.searched") c in
    let domValue := query (state c) in
    doSearch (commitValue domValue (setState (makeQueryState replaceText) c))
  else onAutoCompleteFromAst replaceText item c.

(** *** Keyboard *)

(** The arrow-key branch of [onKeyDown]: the next highlighted index, when
    there are items to go through. *)
Definition nextActiveSearchItem (key : string) (c : Comp) : Z :=
  let isSelectingDropdownItems := negb (activeSearchItem (state c) =? -1) in
  let currIndex :=
    if isSelectingDropdownItems then activeSearchItem (state c) else 0 in
  let totalItems := listLength (flatSearchItems (state c)) in
  if String.eqb key "ArrowUp"
  then JS.rem (currIndex - 1 + totalItems) totalItems
  else if isSelectingDropdownItems
       then JS.rem (currIndex + 1) totalItems
       else 0.

(** [onKeyDown], with [evt.key]. *)
Definition onKeyDown (key : string) (c : Comp) : Comp :=
  let c := call (Call_onKeyDown key) c in
  let hasSearchGroups := 0 <? listLength (searchGroups (state c)) in
  let isSelectingDropdownItems := negb (activeSearchItem (state c) =? -1) in
  let c :=
    if negb (showDropdown (state c)) && negb (String.eqb key "Escape")
    then open c else c in
  let c :=
    if (String.eqb key "ArrowDown" || String.eqb key "ArrowUp") && hasSearchGroups
    then
      let c := call Call_preventDefault c in
      let flatSearchItems := flatSearchItems (state c) in
      let currIndex :=
        if isSelectingDropdownItems then activeSearchItem (state c) else 0 in
      let next := nextActiveSearchItem key c in
      (* Clear previous selection *)
      let prevItem := itemAt flatSearchItems currIndex in
      let searchGroups :=
        getSearchGroupWithItemMarkedActive M (searchGroups (state c)) prevItem false in
      (* Set new selection *)
      let activeItem := itemAt flatSearchItems next in
      let searchGroups :=
        getSearchGroupWithItemMarkedActive M searchGroups activeItem true in
      setState (fun s => put_activeSearchItem next (put_searchGroups searchGroups s)) c
    else c in
  if (String.eqb key "Tab" || String.eqb key "Enter")
     && isSelectingDropdownItems && hasSearchGroups
  then
    let c := call Call_preventDefault c in
    match itemAt (flatSearchItems (state c)) (activeSearchItem (state c)) with
    | Some item =>
        match item_callback item with
        | Some cb => call (Call_itemCallback cb) c
        | None =>
            onAutoComplete
              (match item_value item with Some v => v | None => EmptyString end)
              item c
        end
    | None => c
    end
  else if String.eqb key "Tab" && negb isSelectingDropdownItems then close c
  else if String.eqb key "Enter" && negb isSelectingDropdownItems then doSearch c
  else
    match cursorToken c with
    | Some (TFilter cursorToken) =>
        if String.eqb key "["
           && (JS.length (value_text (f_value cursorToken)) =? 0)
           && isWithinToken (value_location (f_value cursorToken)) (cursorPosition c)
        then
          let query0 := query (state c) in
          let c := call Call_preventDefault c in
          let replaceToken := "[]" in
          let location := value_location (f_value cursorToken) in
          let keyLocation := key_location (f_key cursorToken) in
          (* Include everything after the ':' *)
          let clauseStart := end_offset keyLocation + 1 in
          let clauseEnd := end_offset location + 1 in
          let beforeClause := JS.substring query0 0 clauseStart in
          let endClause := JS.substringFrom query0 clauseEnd in
          (* Add space before next clause if it exists *)
          let endClause := if isEmpty endClause then endClause else " " ++ endClause in
          let newQuery := beforeClause ++ replaceToken ++ endClause in
          (* Place cursor between inserted brackets *)
          updateQuery newQuery
            (Some (JS.length beforeClause + JS.length replaceToken - 1)) c
        else c
    | _ => c
    end.

End Component.

(* ================================================================== *)
(** ** The imported modules, modelled

    The properties below that quantify over [Imports] hold for any parser
    and any helpers.  To run the component on a concrete query the imports
    are given the following instance. *)

(** The longest prefix without a space, and the rest. *)
Fixpoint takeWord (s : string) : string * string :=
  match s with
  | EmptyString => (EmptyString, EmptyString)
  | String ch rest =>
      if Ascii.eqb ch " " then (EmptyString, s)
      else let (w, r) := takeWord rest in (String ch w, r)
  end.

(** One term at offset [off]: [key:value], possibly behind the negation
    marker, is a filter with its key and value located; any other word is
    free text. *)
Definition termToken (w : string) (off : Z) : TokenResult :=
  let negated := JS.startsWith w NEGATION_OPERATOR in
  let body := if negated then JS.drop 1 w else w in
  let keyStart := if negated then off + 1 else off in
  let i := JS.indexOf body ":" in
  if 0 <? i then
    let key := JS.substring body 0 i in
    TFilter
      (mkFilter (mkLoc off (off + JS.length w)) w Text negated false
         (mkKey (mkLoc keyStart (keyStart + i)) key key)
         EmptyString
         (VText (mkValueText (mkLoc (keyStart + i + 1) (off + JS.length w))
                             (JS.substringFrom body (i + 1)) false)))
  else TFreeText (mkLoc off (off + JS.length w)) w.

Fixpoint terms (fuel : nat) (s : string) (off : Z) : list TokenResult :=
  match fuel with
  | O => []
  | S fuel' =>
      match s with
      | EmptyString => []
      | String ch rest =>
          if Ascii.eqb ch " " then terms fuel' rest (off + 1)
          else let (w, r) := takeWord s in
               termToken w off :: terms fuel' r (off + JS.length w)
      end
  end.

(** Modelled from the spec: the query parser ([parseSearch] of
    searchSyntax/parser) is not among the sources.  It "parses a free-form
    query string into an ordered tree of typed tokens, each carrying a
    half-open source-offset range"; a filter is "a key-operator-value
    clause (e.g. level:error)" whose text begins with the negation marker
    when it is negated.  The model covers queries made of words separated
    by spaces and never fails on them. *)
Definition parseSearch_model (q : string) : option ParseResult :=
  Some (terms (String.length q) q 0).

(** Modelled from the spec: [createSearchGroups] of ./utils is not among
    the sources.  The items become one titled group, followed by a group of
    recent searches when there are any, and the flat list holds the items
    of both in that order; nothing is highlighted.  The optional caps are
    not applied. *)
Definition createSearchGroups_model (searchItems : list SearchItem)
           (recentSearchItems : option (list SearchItem)) (tagName : option string)
           (type : ItemType) (maxSearchItems queryCharsLeft : option Z)
           (isDefaultState : bool) : SearchGroups :=
  mkSearchGroups
    (mkGroup (match tagName with Some name => name | None => EmptyString end)
             None searchItems
     :: match recentSearchItems with
        | Some (x :: l) => [mkGroup "Recent Searches" None (x :: l)]
        | _ => []
        end)
    (searchItems ++ orEmpty recentSearchItems)%list
    (-1).

Definition sameItem (a b : SearchItem) : bool :=
  ItemType_eqb (item_type a) (item_type b)
  && match item_value a, item_value b with
     | Some x, Some y => String.eqb x y
     | None, None => true
     | _, _ => false
     end.

(** Modelled from the spec: [getSearchGroupWithItemMarkedActive] of
    ./utils is not among the sources; it sets the highlight of the given
    item in the groups. *)
Definition getSearchGroupWithItemMarkedActive_model (groups : list SearchGroup)
           (item : option SearchItem) (active : bool) : list SearchGroup :=
  match item with
  | None => groups
  | Some it =>
      map (fun g =>
             mkGroup (group_title g) (group_value g)
               (map (fun ch =>
                       if sameItem ch it
                       then mkItem (item_value ch) (item_desc ch) (item_type ch)
                                   (item_callback ch) (ignoreMaxSearchItems ch) active
                       else ch)
                    (group_children g)))
          groups
  end.

(** Modelled from the spec: [filterKeysFromQuery] of ./utils is not among
    the sources; "only keys matching a substring/fuzzy filter are kept". *)
Definition filterKeysFromQuery_model (tagKeys : list string) (searchTerm : string)
  : list string :=
  filter (fun key => JS.includes key searchTerm) tagKeys.

(** Modelled from the spec: [getTagItemsFromKeys] of ./utils; a key is
    offered with its separator, so that accepting it "does not duplicate
    it". *)
Definition getTagItemsFromKeys_model (tagKeys : list string)
           (tags : list (string * Tag)) : list SearchItem :=
  map (fun key => mkItem (Some (key ++ ":")) (Some key) TAG_KEY None None false)
      tagKeys.

(** Modelled from the spec: [getValidOps] of ./utils, "the valid operator
    set for this tag's value kind"; here the plain separator and the "not
    equals" shorthand. *)
Definition getValidOps_model (f : FilterToken) : list string := [":"; "!:"].

(** Modelled from the spec: [generateOperatorEntryMap] of ./utils; the
    suggestion of an operator carries the operator as its value. *)
Definition generateOperatorEntryMap_model (tagName op : string) : SearchItem :=
  mkItem (Some op) (Some (tagName ++ op)) TAG_OPERATOR None None false.

(** [a.localeCompare(b)], here the order of the character codes. *)
Definition localeCompare_model (a b : string) : Z :=
  match String.compare a b with
  | Lt => -1
  | Eq => 0
  | Gt => 1
  end.

(** Modelled from the spec: [removeSpace] of ./utils is not among the
    sources; the search callback receives the "whitespace-collapsed final
    text". *)
Definition removeSpace_model (q : string) : string := JS.trim q.

Definition model : Imports :=
  mkImports parseSearch_model removeSpace_model createSearchGroups_model
            getSearchGroupWithItemMarkedActive_model getValidOps_model
            generateOperatorEntryMap_model filterKeysFromQuery_model
            getTagItemsFromKeys_model localeCompare_model.

(** Two browsers: one without [execCommand], one where [insertText] always
    succeeds. *)
Definition plainBrowser : Platform := mkPlatform false (fun _ => false) false.
Definition richBrowser : Platform := mkPlatform true (fun _ => true) false.

Definition noProps : Props :=
  mkProps ([], []) false false None None false false None (Some 0) None [].

(** The component as mounted on [q] with the cursor at [cursor]: empty
    suggestion list, dropdown closed. *)
Definition mounted (M : Imports) (p : Props) (q : string) (cursor : Z) : Comp :=
  mkComp p
    (mkState (-1) [] false (parseSearch M q) q [] EmptyString false None)
    (Some (mkTextarea cursor cursor)) [] [].

Definition valueItem (v : string) : SearchItem :=
  mkItem (Some v) (Some v) TAG_VALUE None None false.

Definition operatorItem (op : string) : SearchItem :=
  mkItem (Some op) (Some op) TAG_OPERATOR None None false.

(** The list filter [user:[bob]] as the parser lays it out: the key, then
    a bracketed list with one text item.  The modelled parser does not
    produce lists, so the tree is given. *)
Definition userListFilter : FilterToken :=
  mkFilter (mkLoc 0 10) "user:[bob]" TextIn false false
    (mkKey (mkLoc 0 4) "user" "user") EmptyString
    (VTextList (mkLoc 5 10) "[bob]"
       [Some (mkValueText (mkLoc 6 9) "bob" false)]).

(** The component on [user:[bob]] with the cursor inside [bob]. *)
Definition onUserList : Comp :=
  mkComp noProps
    (mkState (-1) [] false (Some [TFilter userListFilter]) "user:[bob]" []
             EmptyString false None)
    (Some (mkTextarea 7 7)) [] [].

(** A component whose dropdown shows three value suggestions, none of
    them highlighted. *)
Definition threeItems : list SearchItem :=
  [valueItem "error"; valueItem "warning"; valueItem "info"].

Definition threeSuggestions : Comp :=
  mkComp noProps
    (mkState (-1) threeItems false (parseSearch_model "level:") "level:"
             [mkGroup "level" None threeItems] EmptyString true None)
    (Some (mkTextarea 6 6)) [] [].

(** The clipboard text [a], line break, [b], line break, [c]. *)
Definition threeLines : string :=
  "a" ++ JS.str JS.newline ++ "b" ++ JS.str JS.newline ++ "c".

(** Props of a search bar that knows the tag [level] and offers recent
    searches and remote tag values. *)
Definition tagProps : Props :=
  mkProps ([], []) false true None None true false None (Some 0) None
          [("level", mkTag "level" None false None)].

(** A query of ten spaces: it has no token, so the cursor is on none. *)
Definition tenSpaces : string := "          ".

(** A response with no recent search and the values [error] and
    [warning]. *)
Definition someValues : Response :=
  mkResponse (Some ["error"; "warning"]) (Some []) [] true.

(** The imports with a parser that fails on every text, to follow the
    path of a failed parse. *)
Definition noParse : Imports :=
  mkImports (fun _ => None) removeSpace_model createSearchGroups_model
            getSearchGroupWithItemMarkedActive_model getValidOps_model
            generateOperatorEntryMap_model filterKeysFromQuery_model
            getTagItemsFromKeys_model localeCompare_model.

(** The query [(age:x)]: a group that holds one filter, which the parser
    has marked invalid. *)
Definition invalidInGroup : Comp :=
  mkComp noProps
    (mkState (-1) [] false
       (Some [TLogicGroup (mkLoc 0 7) "(age:x)"
                [TFilter (mkFilter (mkLoc 1 6) "age:x" OtherFilter false true
                            (mkKey (mkLoc 1 4) "age" "age") EmptyString
                            (VOther (mkLoc 5 6) "x"))]])
       "(age:x)" [] EmptyString false None)
    (Some (mkTextarea 7 7)) [] [].

(* ================================================================== *)
(** ** Vocabulary of the properties *)

(** The part of the component an edit is about: the props, the text with
    its parse, and the text area. *)
Definition sameEditor (a b : Comp) : Prop :=
  props a = props b
  /\ query (state a) = query (state b)
  /\ parsedQuery (state a) = parsedQuery (state b)
  /\ searchInput a = searchInput b.

(** The suggestion list: the groups shown and their flat list. *)
Definition suggestions (c : Comp) : list SearchGroup * list SearchItem :=
  (searchGroups (state c), flatSearchItems (state c)).

(** The queries the search callback was called with, oldest first. *)
Definition searchCalls (l : list Call) : list string :=
  flat_map (fun x => match x with Call_onSearch q => [q] | _ => [] end) l.

(** A filter occurring anywhere in a tree: at the root or inside groups. *)
Inductive FilterIn (f : FilterToken) : list TokenResult -> Prop :=
| FilterIn_here : forall rest, FilterIn f (TFilter f :: rest)
| FilterIn_group : forall loc text inner rest,
    FilterIn f inner -> FilterIn f (TLogicGroup loc text inner :: rest)
| FilterIn_later : forall t rest, FilterIn f rest -> FilterIn f (t :: rest).

(** Whether a character occurs in a string. *)
Fixpoint hasChar (ch : ascii) (s : string) : bool :=
  match s with
  | EmptyString => false
  | String d rest => Ascii.eqb d ch || hasChar ch rest
  end.

(** The escaped form of a raw tag value, in the specification's words:
    a value with a space or a double quote is wrapped in double quotes,
    each of its double quotes preceded by a backslash; any other value is
    left as it is. *)
Definition escapedAsSpecified (raw : string) : string :=
  if hasChar " " raw || hasChar JS.dquote raw
  then JS.str JS.dquote
       ++ String.concat EmptyString
            (map (fun ch => if Ascii.eqb ch JS.dquote
                            then String JS.backslash (JS.str JS.dquote)
                            else JS.str ch)
                 (list_ascii_of_string raw))
       ++ JS.str JS.dquote
  else raw.







(** What the search for an invalid filter finds in a list of tokens:
    nothing exactly when no filter in it, at any depth, is invalid, and
    otherwise [false]. *)
Definition findsNoInvalid (l : list TokenResult) : Prop :=
  (visitAll invalidFilterTest l = None \/ visitAll invalidFilterTest l = Some false)
  /\ (visitAll invalidFilterTest l = None
      <-> forall f, FilterIn f l -> f_invalid f = false).

(** A fetch of the default state, as opposed to one made for a token. *)
Definition isDefaultFetch (p : Pending) : bool :=
  match p with
  | AwaitDefaultSearches _ _ _ _ => true
  | _ => false
  end.

Definition isSuggestionFetch (p : Pending) : bool :=
  match p with
  | AwaitSaveRecentSearch _ => false
  | _ => true
  end.

(* ================================================================== *)
(** ** More of the component, and the context line *)

Section ComponentMore.

Variable M : Imports.

(** [onInputClick] *)
Definition onInputClick (c : Comp) : Comp := updateAutoCompleteItems M (open c).

(** [clearSearch]: the callback of [setState] closes the dropdown and
    hands the text, now empty, to the search callback. *)
Definition clearSearch (c : Comp) : Comp :=
  let domValue := query (state c) in
  let c := commitValue domValue (setState (makeQueryState M EmptyString) c) in
  let c := close c in
  call (Call_onSearch (query (state c))) c.

(** [onKeyUp], with [evt.key]. *)
Definition onKeyUp (key : string) (c : Comp) : Comp :=
  let c :=
    if String.eqb key "ArrowLeft" || String.eqb key "ArrowRight"
    then updateAutoCompleteItems M c else c in
  (* Other keys are managed at onKeyDown function *)
  if negb (String.eqb key "Escape") then c
  else
    let c := call Call_preventDefault c in
    if negb (showDropdown (state c)) then blur c
    else
      let isSelectingDropdownItems := -1 <? activeSearchItem (state c) in
      let searchGroups :=
        if isSelectingDropdownItems
        then getSearchGroupWithItemMarkedActive M (searchGroups (state c))
               (itemAt (flatSearchItems (state c)) (activeSearchItem (state c)))
               false
        else searchGroups (state c) in
      let c :=
        setState (fun s => put_searchGroups searchGroups (put_activeSearchItem (-1) s)) c in
      close c.



(** The groups [updateAutoCompleteStateMultiHeader] builds, one call of
    [createSearchGroups] per autocomplete group. *)
Definition groupsBuilt (groups : list AutocompleteGroup) (c : Comp) : list SearchGroups :=
  map (fun g =>
         createSearchGroups M (searchItems g)
           (if hasRecentSearches (props c) then recentSearchItems g else None)
           (tagName g) (group_type g)
           (maxSearchItems (props c)) (queryCharsLeft c) false)
      groups.

End ComponentMore.

(** *** The context line of a stack frame (src/unnamed/part_002) *)

Module ContextLine.

(** A line terminator, which [.] does not match and before which [$]
    matches under the [m] flag: LF and CR in the ASCII range. *)
Definition isLineTerminator (ch : ascii) : bool :=
  Ascii.eqb ch JS.newline || Ascii.eqb ch "013"%char.

Fixpoint takeWhile (p : ascii -> bool) (s : string) : string :=
  match s with
  | EmptyString => EmptyString
  | String ch rest => if p ch then String ch (takeWhile p rest) else EmptyString
  end.

Fixpoint dropWhile (p : ascii -> bool) (s : string) : string :=
  match s with
  | EmptyString => EmptyString
  | String ch rest => if p ch then dropWhile p rest else s
  end.

(** [[, lineWs, lineCode] = line[1].match(...)] with the pattern: start of
    line, a greedy group of white space, a lazy group of any characters,
    end of line, under the multi-line flag.  The match starts at offset 0,
    where the first group takes all the leading white space and the second
    then runs to the first position where the end of a line matches. *)
Definition splitLine (content : string) : string * string :=
  (takeWhile JS.isWhiteSpace content,
   takeWhile (fun ch => negb (isLineTerminator ch))
             (dropWhile JS.isWhiteSpace content)).

(** The two spans [ContextLine] renders for [line]: both empty when
    [line[1]] is not a string. *)
Definition lineSpans (content : option string) : string * string :=
  match content with
  | Some text => splitLine text
  | None => (EmptyString, EmptyString)
  end.

End ContextLine.

(** *** Vocabulary of the further properties *)

(** The queries handed to [saveRecentSearch], oldest first. *)
Definition saveCalls (l : list Call) : list string :=
  flat_map (fun x => match x with Call_saveRecentSearch q => [q] | _ => [] end) l.

(** Every double quote of [s] has a backslash right before it; [escaped]
    tells whether the character before [s] is a backslash. *)
Fixpoint quotesEscapedFrom (escaped : bool) (s : string) : bool :=
  match s with
  | EmptyString => true
  | String ch rest =>
      (if Ascii.eqb ch JS.dquote then escaped else true)
      && quotesEscapedFrom (Ascii.eqb ch JS.backslash) rest
  end.

Definition quotesEscaped (s : string) : bool := quotesEscapedFrom false s.

(** The number of occurrences of a character. *)
Fixpoint countChar (ch : ascii) (s : string) : Z :=
  match s with
  | EmptyString => 0
  | String d rest => (if Ascii.eqb d ch then 1 else 0) + countChar ch rest
  end.

(** All the characters of a string satisfy a test. *)
Fixpoint allChars (p : ascii -> bool) (s : string) : bool :=
  match s with
  | EmptyString => true
  | String ch rest => p ch && allChars p rest
  end.

(** A text that neither starts nor ends with white space. *)
Definition isTrimmed (s : string) : Prop := JS.trim s = s.

(** The component on a query of three filters with the cursor at
    [cursor]. *)
Definition onThreeFilters (p : Props) (cursor : Z) : Comp :=
  mounted model p "a:1 b:2 c:3" cursor.

(** Props of a search bar that saves its searches and is given a
    callback for it. *)
Definition savingProps : Props :=
  mkProps ([], []) false true None None true true None (Some 0) None
          [("level", mkTag "level" None false None);
           ("environment", mkTag "environment" None false None)].


(** What a walk of the tree returns is what the visitor returned at some
    node. *)
Definition fromVisitor {T : Type} (visitorTest : Node -> Visit T)
           (found : option T) : Prop :=
  forall r, found = Some r -> exists n, visitorTest n = ReturnResult r.

(** Whether the browser performs an insertion: [document.execCommand] is
    there and its [insertText] succeeds on the text. *)
Definition browserInserts (P : Platform) (text : string) : bool :=
  hasExecCommand P && insertTextWorks P text.

(** The suggestion that opens the documentation, and a component whose
    dropdown shows it highlighted. *)
Definition docsItem : SearchItem :=
  mkItem None (Some "See the documentation") DEFAULT (Some OpenSearchDocs) None true.

Definition docsHighlighted : Comp :=
  mkComp noProps
    (mkState 0 [docsItem] false (parseSearch_model "a:1") "a:1"
             [mkGroup "Help" None [docsItem]] EmptyString true None)
    (Some (mkTextarea 3 3)) [] [].

(** Props of a search bar whose only tag is [firstRelease], with two
    values of its own. *)
Definition releaseProps : Props :=
  mkProps ([], []) false true None None true false None (Some 0) None
          [("firstRelease", mkTag "firstRelease" (Some ["1.0"; "2.0 beta"]) false None)].

(* ================================================================== *)
(** ** Properties of the string primitives *)


Lemma append_empty_r (s : string) : s ++ EmptyString = s.
Proof. induction s as [|ch s IH]; simpl; [reflexivity | now rewrite IH]. Qed.

(** The primitives on the texts of the examples. *)
Example trim_both_ends : JS.trim "  a:1  b:2 " = "a:1  b:2".
Proof. reflexivity. Qed.

Example slice_counts_from_the_end : JS.slice "level:error" (-5) 11 = "error".
Proof. reflexivity. Qed.

Example substring_swaps_and_clamps : JS.substring "age:5" 9 4 = "5".
Proof. reflexivity. Qed.

Example replace_is_not_global :
  JS.replace "a b c" " " EmptyString = "ab c"
  /\ JS.replaceAllChar "a b c" " " EmptyString = "abc".
Proof. split; reflexivity. Qed.

Example escapeValue_examples :
  escapeValue "prod" = "prod"
  /\ escapeValue "my app"
     = JS.str JS.dquote ++ "my app" ++ JS.str JS.dquote
  /\ escapeValue (String "a" (String JS.dquote "b"))
     = String JS.dquote (String "a" (String JS.backslash
         (String JS.dquote (String "b" (JS.str JS.dquote))))).
Proof. repeat split; reflexivity. Qed.

Lemma prefix_char (ch d : ascii) (rest : string) :
  String.prefix (JS.str ch) (String d rest) = Ascii.eqb d ch.
Proof.
  unfold JS.str; simpl.
  destruct (ascii_dec ch d) as [->|ne].
  - rewrite Ascii.eqb_refl. now destruct rest.
  - symmetry; apply Ascii.eqb_neq; congruence.
Qed.

Lemma indexOfFrom_range (s p : string) (k : Z) :
  JS.indexOfFrom s p k = -1 \/ k <= JS.indexOfFrom s p k.
Proof.
  revert k; induction s as [|d s IH]; intros k; cbn [JS.indexOfFrom].
  - destruct (String.prefix p EmptyString); [right; lia | now left].
  - destruct (String.prefix p (String d s)); [right; lia|].
    destruct (IH (k + 1)) as [E|E]; [now left | right; lia].
Qed.

Lemma includes_char (s : string) (ch : ascii) :
  JS.includes s (JS.str ch) = hasChar ch s.
Proof.
  unfold JS.includes, JS.indexOf.
  assert (G : forall k, 0 <= k ->
            (0 <=? JS.indexOfFrom s (JS.str ch) k) = hasChar ch s).
  { induction s as [|d s IH]; intros k Hk.
    - reflexivity.
    - cbn [JS.indexOfFrom hasChar]. rewrite prefix_char.
      destruct (Ascii.eqb d ch); cbn [orb].
      + apply Z.leb_le; lia.
      + apply IH; lia. }
  apply G; lia.
Qed.

Lemma replace_absent (s : string) (ch : ascii) (r : string) :
  hasChar ch s = false -> JS.replace s (JS.str ch) r = s.
Proof.
  induction s as [|d s IH]; intros H.
  - reflexivity.
  - cbn [JS.replace]. rewrite prefix_char.
    cbn [hasChar] in H. apply orb_false_iff in H as [H1 H2].
    rewrite H1. now rewrite IH.
Qed.

Lemma concat_empty_cons (x : string) (xs : list string) :
  String.concat EmptyString (x :: xs) = x ++ String.concat EmptyString xs.
Proof.
  destruct xs as [|y ys]; simpl; [now rewrite append_empty_r | reflexivity].
Qed.

Lemma replaceAllChar_concat (s : string) (ch : ascii) (r : string) :
  JS.replaceAllChar s ch r
  = String.concat EmptyString
      (map (fun d => if Ascii.eqb d ch then r else JS.str d)
           (list_ascii_of_string s)).
Proof.
  induction s as [|d s IH].
  - reflexivity.
  - cbn [JS.replaceAllChar list_ascii_of_string map].
    now rewrite concat_empty_cons, IH.
Qed.

(** The code's [escapeValue] computes the escaped form the specification
    describes. *)
Lemma escapeValue_as_specified (raw : string) :
  escapeValue raw = escapedAsSpecified raw.
Proof.
  unfold escapeValue, escapedAsSpecified.
  change " " with (JS.str " "%char) at 1.
  rewrite !includes_char, replaceAllChar_concat.
  reflexivity.
Qed.

(* ================================================================== *)
(** ** Tag-value suggestions *)

Lemma mapIndexed_proj {A B C : Type} (f : A -> Z -> B) (g : B -> C) (h : A -> C)
      (l : list A) (k : Z) :
  (forall x i, g (f x i) = h x) ->
  map g (mapIndexed f l k) = map h l.
Proof.
  intros H. revert k; induction l as [|x l IH]; intros k; cbn; [reflexivity|].
  now rewrite H, IH.
Qed.

Lemma includes_indexOf (s p : string) : (-1 <? JS.indexOf s p) = JS.includes s p.
Proof.
  unfold JS.includes.
  destruct (Z.ltb_spec (-1) (JS.indexOf s p)); destruct (Z.leb_spec 0 (JS.indexOf s p));
    try reflexivity; lia.
Qed.

(** C10.  The suggestions of the two fetchers are exactly the escaped
    forms of the raw values, one suggestion per raw value and in their
    order.  The predefined-value fetcher ([getPredefinedTagValues]) yields,
    for the tag's values that contain the query, items whose value and
    description are the escaped form and whose type is that of a tag
    value; the remote-value fetcher ([getTagValues], once its request has
    returned) yields such items for the values the request has delivered,
    with [latest] put in front for the key [release:] when it is not among
    them, and no item when the request has failed or was not made.  The
    escaped form is the raw value wrapped in double quotes with each
    double quote backslash-escaped when the raw value has a space or a
    double quote, and the raw value itself otherwise. *)
Theorem tag_value_suggestions_are_escaped :
  forall (tag : Tag) (entry : TagEntry) (query : string) (r : Response) (c : Comp),
    map (fun item => (item_value item, item_desc item, item_type item))
        (getPredefinedTagValues tag query)
    = map (fun raw => (Some (escapedAsSpecified raw),
                       Some (escapedAsSpecified raw), TAG_VALUE))
          (filter (fun raw => JS.includes raw query) (orEmpty (tag_values tag)))
    /\ (forall values : list string,
           resp_values r = Some values ->
           snd (getTagValues_resumed entry query true r c)
           = map (fun raw => mkItem (Some (escapedAsSpecified raw))
                                    (Some (escapedAsSpecified raw))
                                    TAG_VALUE None None false)
                 (if match entry_key entry with
                     | Some key => String.eqb key "release:"
                     | None => false
                     end
                     && negb (existsb (String.eqb "latest") values)
                  then "latest" :: values else values))
    /\ (resp_values r = None -> snd (getTagValues_resumed entry query true r c) = [])
    /\ snd (getTagValues_resumed entry query false r c) = [].
Proof.
  intros tag entry query0 r c. split; [|split; [|split]].
  - unfold getPredefinedTagValues.
    rewrite (mapIndexed_proj _ _
               (fun raw => (Some (escapedAsSpecified raw),
                            Some (escapedAsSpecified raw), TAG_VALUE))).
    + f_equal. destruct (tag_values tag) as [values|]; [|reflexivity].
      cbn [orEmpty]. apply filter_ext. intros raw. apply includes_indexOf.
    + intros raw i. cbn. now rewrite escapeValue_as_specified.
  - intros values Hr. unfold getTagValues_resumed. rewrite Hr. cbn [snd].
    apply map_ext. intros raw. unfold tagValueItem.
    now rewrite escapeValue_as_specified.
  - intros Hr. unfold getTagValues_resumed. now rewrite Hr.
  - reflexivity.
Qed.

Lemma tag_value_suggestions_are_escaped_witness :
  snd (getTagValues_resumed (OwnTag (mkTag "app" (Some ["prod"]) false None)) "my" true
         (mkResponse (Some ["my app"; "web"]) (Some []) [] true)
         (mounted model noProps "app:my" 6))
  = [mkItem (Some (escapedAsSpecified "my app")) (Some (escapedAsSpecified "my app"))
            TAG_VALUE None None false;
     mkItem (Some (escapedAsSpecified "web")) (Some (escapedAsSpecified "web"))
            TAG_VALUE None None false].
Proof.
  apply (proj1 (proj2 (tag_value_suggestions_are_escaped
                         (mkTag "app" (Some ["prod"]) false None)
                         (OwnTag (mkTag "app" (Some ["prod"]) false None)) "my"
                         (mkResponse (Some ["my app"; "web"]) (Some []) [] true)
                         (mounted model noProps "app:my" 6)))
           ["my app"; "web"]).
  reflexivity.
Defined.

(* ================================================================== *)
(** ** What refreshing the suggestions leaves alone *)

Section Properties.

Variable M : Imports.
Variable P : Platform.

Lemma sameEditor_refl (c : Comp) : sameEditor c c.
Proof. repeat split. Qed.

Ltac split_matches :=
  repeat match goal with
         | |- context [match ?x with _ => _ end] => destruct x
         | |- context [if ?x then _ else _] => destruct x
         end.

Lemma generateValueAutocompleteGroup_sameEditor (tagName0 query0 : string) (c : Comp) :
  sameEditor (fst (generateValueAutocompleteGroup tagName0 query0 c)) c
  /\ calls (fst (generateValueAutocompleteGroup tagName0 query0 c)) = calls c
  /\ pending (fst (generateValueAutocompleteGroup tagName0 query0 c)) = pending c.
Proof.
  unfold generateValueAutocompleteGroup, getTagValues, sameEditor.
  split_matches; cbn; repeat split; reflexivity.
Qed.

Lemma showDefaultSearches_sameEditor (c : Comp) :
  sameEditor (showDefaultSearches M c) c
  /\ calls (showDefaultSearches M c) = calls c.
Proof.
  unfold showDefaultSearches, updateAutoCompleteState, sameEditor.
  split_matches; cbn; repeat split; reflexivity.
Qed.

(** Refreshing the suggestions changes neither the text, nor its parse,
    nor the selection, and calls nothing outside. *)
Lemma updateAutoCompleteFromAst_sameEditor (c : Comp) :
  sameEditor (updateAutoCompleteFromAst M c) c
  /\ calls (updateAutoCompleteFromAst M c) = calls c.
Proof.
  unfold updateAutoCompleteFromAst.
  destruct (cursorToken c) as [[f| | | |]|];
    try (split; [apply sameEditor_refl | reflexivity]).
  - destruct (isWithinToken (value_location (f_value f)) (cursorPosition c)).
    + match goal with
      | |- context [generateValueAutocompleteGroup ?t ?q c] =>
          pose proof (generateValueAutocompleteGroup_sameEditor t q c) as H;
          destruct (generateValueAutocompleteGroup t q c) as [c1 request]
      end.
      cbn [fst] in H. destruct H as ((H1 & H2 & H3 & H4) & H5 & _).
      unfold sameEditor; cbn. repeat split; assumption.
    + destruct (isWithinToken (key_location (f_key f)) (cursorPosition c)).
      * destruct (getTagKeys M (getKeyName (f_key f)) c).
        unfold sameEditor; cbn. repeat split; reflexivity.
      * unfold updateAutoCompleteStateMultiHeader, sameEditor; cbn.
        repeat split; reflexivity.
  - destruct (cursorSearchTerm c) as [st|].
    + destruct (getTagKeys M (st_searchTerm st) c).
      unfold sameEditor; cbn. repeat split; reflexivity.
    + split; [apply sameEditor_refl | reflexivity].
  - apply showDefaultSearches_sameEditor.
Qed.

(** Assigning the selection and rendering touch the text area only. *)
Lemma setSelection_rest (a b : Z) (c : Comp) :
  props (setSelection a b c) = props c
  /\ state (setSelection a b c) = state c
  /\ calls (setSelection a b c) = calls c
  /\ pending (setSelection a b c) = pending c.
Proof. unfold setSelection. destruct (searchInput c); repeat split. Qed.

Lemma commitValue_rest (domValue : string) (c : Comp) :
  props (commitValue domValue c) = props c
  /\ state (commitValue domValue c) = state c
  /\ calls (commitValue domValue c) = calls c
  /\ pending (commitValue domValue c) = pending c.
Proof.
  unfold commitValue. destruct (String.eqb domValue (query (state c)));
    [repeat split | apply setSelection_rest].
Qed.

Lemma commitValue_input (domValue : string) (c : Comp) :
  searchInput (commitValue domValue c)
  = if String.eqb domValue (query (state c)) then searchInput c
    else match searchInput c with
         | Some _ => Some (mkTextarea (JS.length (query (state c)))
                                      (JS.length (query (state c))))
         | None => None
         end.
Proof.
  unfold commitValue, setSelection.
  destruct (String.eqb domValue (query (state c))); [reflexivity|].
  destruct (searchInput c) eqn:E; [reflexivity | exact E].
Qed.

Lemma commitValue_has_input (domValue : string) (c : Comp) :
  searchInput c <> None -> searchInput (commitValue domValue c) <> None.
Proof.
  intros H. rewrite commitValue_input.
  destruct (String.eqb domValue (query (state c))); [exact H|].
  destruct (searchInput c); [discriminate | contradiction].
Qed.

Lemma updateQuery_query (newQuery : string) (pos : option Z) (c : Comp) :
  query (state (updateQuery M newQuery pos c)) = newQuery
  /\ parsedQuery (state (updateQuery M newQuery pos c)) = parseSearch M newQuery
  /\ props (updateQuery M newQuery pos c) = props c.
Proof.
  unfold updateQuery, updateAutoCompleteItems.
  match goal with
  | |- context [updateAutoCompleteFromAst M ?x] =>
      destruct (updateAutoCompleteFromAst_sameEditor x) as ((H1 & H2 & H3 & H4) & _)
  end.
  cbn [call state props]. rewrite H1, H2, H3.
  assert (R : forall x : Comp,
             props (match pos with
                    | Some position =>
                        if negb (position =? 0) then setSelection position position x
                        else x
                    | None => x
                    end) = props x
             /\ state (match pos with
                       | Some position =>
                           if negb (position =? 0) then setSelection position position x
                           else x
                       | None => x
                       end) = state x).
  { intros x. destruct pos as [z|]; [destruct (negb (z =? 0))|];
      try (split; reflexivity).
    destruct (setSelection_rest z z x) as (A & B & _). now split. }
  match goal with
  | |- context [match pos with Some _ => _ | None => ?x end] =>
      destruct (R x) as [R1 R2];
      destruct (commitValue_rest (query (state c))
                  (setState (makeQueryState M newQuery) c)) as (C1 & C2 & _)
  end.
  rewrite R1, R2, C1, C2. repeat split; reflexivity.
Qed.

Lemma updateQuery_cursor (newQuery : string) (pos : Z) (c : Comp) :
  searchInput c <> None -> pos <> 0 ->
  searchInput (updateQuery M newQuery (Some pos) c) = Some (mkTextarea pos pos).
Proof.
  intros Hin Hpos. unfold updateQuery, updateAutoCompleteItems.
  match goal with
  | |- context [updateAutoCompleteFromAst M ?x] =>
      destruct (updateAutoCompleteFromAst_sameEditor x) as ((H1 & H2 & H3 & H4) & _)
  end.
  cbn [call searchInput]. rewrite H4.
  destruct (Z.eqb_spec pos 0) as [|_]; [contradiction|]. cbn [negb].
  pose proof (commitValue_has_input (query (state c))
                (setState (makeQueryState M newQuery) c) Hin) as Hc.
  unfold setSelection at 1.
  destruct (searchInput (commitValue (query (state c))
                           (setState (makeQueryState M newQuery) c)));
    [reflexivity | contradiction].
Qed.

(** What [updateQuery] does to the selection when it is given no
    position: the text area is rendered, so the caret goes to the end
    when the text has changed and stays otherwise. *)
Lemma updateQuery_rendered (newQuery : string) (c : Comp) :
  searchInput (updateQuery M newQuery None c)
  = if String.eqb (query (state c)) newQuery then searchInput c
    else match searchInput c with
         | Some _ => Some (mkTextarea (JS.length newQuery) (JS.length newQuery))
         | None => None
         end.
Proof.
  unfold updateQuery, updateAutoCompleteItems.
  match goal with
  | |- context [updateAutoCompleteFromAst M ?x] =>
      destruct (updateAutoCompleteFromAst_sameEditor x) as ((H1 & H2 & H3 & H4) & _)
  end.
  cbn [call searchInput]. rewrite H4, commitValue_input. reflexivity.
Qed.

Lemma onQueryChange_query (value : string) (c : Comp) :
  query (state (onQueryChange M value c))
  = JS.replace value (JS.str JS.newline) EmptyString
  /\ parsedQuery (state (onQueryChange M value c))
     = parseSearch M (JS.replace value (JS.str JS.newline) EmptyString)
  /\ searchInput (onQueryChange M value c)
     = searchInput
         (commitValue value
            (setState
               (makeQueryState M (JS.replace value (JS.str JS.newline) EmptyString))
               c))
  /\ props (onQueryChange M value c) = props c.
Proof.
  unfold onQueryChange, onQueryChange_queued, updateAutoCompleteItems.
  match goal with
  | |- context [updateAutoCompleteFromAst M ?x] =>
      destruct (updateAutoCompleteFromAst_sameEditor x) as ((H1 & H2 & H3 & H4) & _)
  end.
  rewrite H1, H2, H3, H4.
  match goal with
  | |- context [commitValue ?d ?x] =>
      destruct (commitValue_rest d x) as (C1 & C2 & _)
  end.
  rewrite C1, C2. repeat split.
  rewrite !commitValue_input. reflexivity.
Qed.

(** Typing a text without line break leaves the selection where the
    browser has put it. *)
Lemma onQueryChange_input (value : string) (c : Comp) :
  hasChar JS.newline value = false ->
  searchInput (onQueryChange M value c) = searchInput c.
Proof.
  intros H. destruct (onQueryChange_query value c) as (_ & _ & S & _).
  rewrite S, commitValue_input. cbn [state setState makeQueryState put_queryState query].
  rewrite replace_absent by exact H. now rewrite String.eqb_refl.
Qed.

(** *** Strings without a line break *)


Lemma hasChar_substring (ch : ascii) (s : string) :
  hasChar ch s = false ->
  forall n m, hasChar ch (String.substring n m s) = false.
Proof.
  induction s as [|d s IH]; intros H n m.
  - destruct n, m; reflexivity.
  - cbn in H. apply orb_false_iff in H as [H1 H2].
    destruct n as [|n]; [destruct m as [|m]|]; cbn.
    + reflexivity.
    + rewrite H1. now apply IH.
    + now apply IH.
Qed.

Lemma hasChar_trimStart (ch : ascii) (s : string) :
  hasChar ch s = false -> hasChar ch (JS.trimStart s) = false.
Proof.
  induction s as [|d s IH]; intros H; cbn [JS.trimStart]; [reflexivity|].
  destruct (JS.isWhiteSpace d); [|exact H].
  cbn in H. apply orb_false_iff in H as [_ H]. now apply IH.
Qed.

Lemma hasChar_trimEnd (ch : ascii) (s : string) :
  hasChar ch s = false -> hasChar ch (JS.trimEnd s) = false.
Proof.
  induction s as [|d s IH]; intros H; cbn [JS.trimEnd]; [reflexivity|].
  cbn in H. apply orb_false_iff in H as [H1 H2].
  specialize (IH H2).
  destruct (JS.trimEnd s) as [|e t].
  - destruct (JS.isWhiteSpace d); cbn; [reflexivity | now rewrite H1].
  - cbn [hasChar]. rewrite H1. exact IH.
Qed.

Lemma hasChar_trim (ch : ascii) (s : string) :
  hasChar ch s = false -> hasChar ch (JS.trim s) = false.
Proof. intros H. now apply hasChar_trimEnd, hasChar_trimStart. Qed.

Lemma hasChar_slice (ch : ascii) (s : string) (a b : Z) :
  hasChar ch s = false -> hasChar ch (JS.slice s a b) = false.
Proof. intros H. now apply hasChar_substring. Qed.

Lemma trimEnd_idempotent (s : string) : JS.trimEnd (JS.trimEnd s) = JS.trimEnd s.
Proof.
  induction s as [|d s IH]; [reflexivity|].
  cbn [JS.trimEnd]. destruct (JS.trimEnd s) as [|e r] eqn:E.
  - destruct (JS.isWhiteSpace d) eqn:W; [reflexivity|].
    unfold JS.str. cbn [JS.trimEnd]. now rewrite W.
  - cbn [JS.trimEnd]. cbn [JS.trimEnd] in IH. rewrite IH. reflexivity.
Qed.

Lemma trimStart_head (s : string) :
  match JS.trimStart s with
  | EmptyString => True
  | String d _ => JS.isWhiteSpace d = false
  end.
Proof.
  induction s as [|d s IH]; cbn [JS.trimStart]; [exact I|].
  destruct (JS.isWhiteSpace d) eqn:W; [exact IH | exact W].
Qed.

Lemma trimEnd_head (d : ascii) (s : string) :
  JS.isWhiteSpace d = false ->
  exists r, JS.trimEnd (String d s) = String d r.
Proof.
  intros W. cbn [JS.trimEnd]. destruct (JS.trimEnd s) as [|e r].
  - rewrite W. now exists EmptyString.
  - now exists (String e r).
Qed.

Lemma trim_idempotent (s : string) : JS.trim (JS.trim s) = JS.trim s.
Proof.
  unfold JS.trim. pose proof (trimStart_head s) as H.
  destruct (JS.trimStart s) as [|d t]; [reflexivity|].
  destruct (trimEnd_head d t H) as [r E]. rewrite E.
  cbn [JS.trimStart]. rewrite H, <- E. apply trimEnd_idempotent.
Qed.

Lemma slice_in_range (s : string) (a b : Z) :
  0 <= a <= b -> b <= JS.length s ->
  JS.slice s a b = String.substring (Z.to_nat a) (Z.to_nat (b - a)) s.
Proof.
  intros Ha Hb. unfold JS.slice, JS.relIndex.
  destruct (Z.ltb_spec a 0); [lia|]. destruct (Z.ltb_spec b 0); [lia|].
  rewrite !Z.min_l, Z.max_l by lia. reflexivity.
Qed.

Lemma length_append (a b : string) : JS.length (a ++ b) = JS.length a + JS.length b.
Proof.
  unfold JS.length. induction a as [|d a IH]; cbn [append String.length].
  - lia.
  - rewrite !Nat2Z.inj_succ. lia.
Qed.

Lemma substring_none (n : nat) (s : string) :
  String.substring n 0 s = EmptyString.
Proof.
  revert n; induction s as [|d s IH]; intros [|n]; cbn; try reflexivity.
  apply IH.
Qed.

Lemma substring_all (s : string) :
  String.substring 0 (String.length s) s = s.
Proof. induction s as [|d s IH]; cbn; [reflexivity | now rewrite IH]. Qed.

Lemma length_nonneg (s : string) : 0 <= JS.length s.
Proof. unfold JS.length; lia. Qed.

Lemma jsSubstring_empty (s : string) (a : Z) : JS.substring s a a = EmptyString.
Proof.
  unfold JS.substring.
  replace (Z.max (JS.clamp s a) (JS.clamp s a) - Z.min (JS.clamp s a) (JS.clamp s a))
    with 0 by lia.
  apply substring_none.
Qed.

Lemma slice_to_start (s : string) : JS.slice s 0 0 = EmptyString.
Proof. unfold JS.slice. cbn. rewrite Z.sub_diag. apply substring_none. Qed.


(** *** Deleting the token under the cursor *)

Lemma jsSubstring_from_start (s : string) : JS.substringFrom s 0 = s.
Proof.
  unfold JS.substringFrom, JS.substring, JS.clamp.
  pose proof (length_nonneg s) as L.
  replace (Z.min (Z.max 0 0) (JS.length s)) with 0 by lia.
  replace (Z.min (Z.max (JS.length s) 0) (JS.length s)) with (JS.length s) by lia.
  rewrite Z.min_l, Z.max_r, Z.sub_0_r by lia.
  unfold JS.length. rewrite Nat2Z.id. apply substring_all.
Qed.

Lemma sliceFrom_start (s : string) : JS.sliceFrom s 0 = s.
Proof.
  unfold JS.sliceFrom, JS.slice, JS.relIndex.
  pose proof (length_nonneg s) as L.
  change (0 <? 0) with false. cbv iota.
  destruct (Z.ltb_spec (JS.length s) 0) as [|_]; [lia|].
  rewrite Z.min_l, Z.min_id, Z.sub_0_r, Z.max_l by lia.
  unfold JS.length. rewrite Nat2Z.id. apply substring_all.
Qed.

Lemma sliceFrom_one (ch : ascii) (s : string) : JS.sliceFrom (String ch s) 1 = s.
Proof.
  unfold JS.sliceFrom, JS.slice, JS.relIndex.
  assert (L : JS.length (String ch s) = JS.length s + 1).
  { unfold JS.length. cbn [String.length]. lia. }
  pose proof (length_nonneg s) as L0.
  change (1 <? 0) with false. cbv iota.
  destruct (Z.ltb_spec (JS.length (String ch s)) 0) as [|_]; [lia|].
  rewrite Z.min_l, Z.min_id by lia.
  rewrite L. replace (Z.max (JS.length s + 1 - 1) 0) with (JS.length s) by lia.
  change (Z.to_nat 1) with 1%nat. cbn [String.substring].
  unfold JS.length. rewrite Nat2Z.id. apply substring_all.
Qed.

(** What the browser's own insertion leaves behind. *)
Lemma execCommand_insertText_queued_spec (text : string) (c c' : Comp)
      (queued : Comp -> Comp) (a b : Z) :
  searchInput c = Some (mkTextarea a b) ->
  0 <= a <= b -> b <= JS.length (query (state c)) ->
  execCommand_insertText_queued M P text c = Some (c', queued) ->
  let raw := JS.substring (query (state c)) 0 a ++ text
             ++ JS.substringFrom (query (state c)) b in
  c' = call (Call_onChange raw)
         (setSelection (a + JS.length text) (a + JS.length text) c)
  /\ queued = onQueryChange_queued M raw.
Proof.
  intros Hin Hab Hb H raw. unfold execCommand_insertText_queued in H.
  rewrite Hin in H. cbn [selectionStart selectionEnd] in H.
  destruct (insertTextWorks P text); [|discriminate].
  replace (JS.clamp (query (state c)) (Z.min a b)) with a in H
    by (unfold JS.clamp; lia).
  replace (JS.clamp (query (state c)) (Z.max a b)) with b in H
    by (unfold JS.clamp; lia).
  injection H as <- <-. split; reflexivity.
Qed.

Lemma onQueryChange_queued_query (value : string) (c : Comp) :
  query (state (onQueryChange_queued M value c))
  = JS.replace value (JS.str JS.newline) EmptyString
  /\ parsedQuery (state (onQueryChange_queued M value c))
     = parseSearch M (JS.replace value (JS.str JS.newline) EmptyString)
  /\ (hasChar JS.newline value = false ->
      searchInput (onQueryChange_queued M value c) = searchInput c).
Proof.
  unfold onQueryChange_queued, updateAutoCompleteItems.
  match goal with
  | |- context [updateAutoCompleteFromAst M ?x] =>
      destruct (updateAutoCompleteFromAst_sameEditor x) as ((H1 & H2 & H3 & H4) & _)
  end.
  rewrite H2, H3, H4.
  match goal with
  | |- context [commitValue ?d ?x] =>
      destruct (commitValue_rest d x) as (C1 & C2 & _)
  end.
  rewrite C2. repeat split.
  intros Hn. rewrite commitValue_input.
  cbn [state setState makeQueryState put_queryState query].
  rewrite replace_absent by exact Hn. now rewrite String.eqb_refl.
Qed.



Lemma cursorToken_single (c : Comp) (f : FilterToken) :
  parsedQuery (state c) = Some [TFilter f] ->
  isWithinToken (f_location f) (cursorPosition c) = true ->
  cursorToken c = Some (TFilter f).
Proof.
  intros Hp Hw. unfold cursorToken, findTokensAtCursor. rewrite Hp.
  unfold treeResultLocator. cbn. now rewrite Hw.
Qed.

Lemma within_has_input (c : Comp) (loc : LocationRange) :
  0 <= start_offset loc ->
  isWithinToken loc (cursorPosition c) = true -> searchInput c <> None.
Proof.
  intros H0 Hw E. unfold cursorPosition in Hw. rewrite E in Hw.
  unfold isWithinToken in Hw. apply andb_true_iff in Hw as [Hw _].
  apply Z.leb_le in Hw. lia.
Qed.


End Properties.

(* ================================================================== *)
(** ** Deleting a token *)

(** *** Filters in a row *)

























(* ================================================================== *)
(** ** Accepting a suggestion *)

Section AcceptProperties.

Variable M : Imports.


(** The text and the cursor after a filter's clause has been overwritten. *)
Lemma onAutoCompleteFromAst_filter (c : Comp) (f : FilterToken)
      (replaceText : string) (item : SearchItem)
      (clauseStart clauseEnd : Z) (replaceToken : string) :
  cursorToken c = Some (TFilter f) ->
  filterClause f replaceText item c = (Some (clauseStart, clauseEnd), replaceToken) ->
  query (state (onAutoCompleteFromAst M replaceText item c))
  = JS.substring (query (state c)) 0 clauseStart ++ replaceToken
    ++ JS.substringFrom (query (state c)) clauseEnd
  /\ (searchInput c <> None -> replaceToken <> EmptyString ->
      cursorPosition (onAutoCompleteFromAst M replaceText item c)
      = JS.length (JS.substring (query (state c)) 0 clauseStart)
        + JS.length replaceToken).
Proof.
  intros Htok Hcl. unfold onAutoCompleteFromAst. rewrite Htok, Hcl.
  split.
  - apply updateQuery_query.
  - intros Hin Hne. unfold cursorPosition at 1.
    rewrite updateQuery_cursor; [reflexivity| |].
    + destruct (ItemType_eqb (item_type item) TAG_OPERATOR); cbn; exact Hin.
    + pose proof (length_nonneg (JS.substring (query (state c)) 0 clauseStart)).
      destruct replaceToken as [|d t]; [contradiction|].
      unfold JS.length at 2. cbn [String.length]. lia.
Qed.

(** An operator suggestion overwrites the filter up to its value. *)
Lemma filterClause_operator (c : Comp) (f : FilterToken)
      (replaceText : string) (item : SearchItem) :
  item_type item = TAG_OPERATOR ->
  filterClause f replaceText item c
  = (Some (start_offset (f_location f), start_offset (value_location (f_value f))),
     if String.eqb replaceText "!:"
     then "!" ++ key_text (f_key f) ++ ":"
     else key_text (f_key f) ++ replaceText).
Proof. intros H. unfold filterClause. now rewrite H. Qed.

(** A value suggestion on a filter that is not a list overwrites what
    follows the separator, quoted for the [user] key, and is followed by
    one space unless it goes between the brackets of [[]]. *)
Lemma filterClause_value (c : Comp) (f : FilterToken)
      (replaceText : string) (item : SearchItem) :
  item_type item <> TAG_OPERATOR ->
  isWithinToken (value_location (f_value f)) (cursorPosition c) = true ->
  f_filter f <> TextIn ->
  valueToken_text f c <> "[]" ->
  filterClause f replaceText item c
  = (Some (end_offset (key_location (f_key f)) + 1,
           end_offset (valueToken_location f c) + 1),
     (if String.eqb (getKeyName (f_key f)) "user"
      then JS.str JS.dquote ++ JS.trim replaceText ++ JS.str JS.dquote
      else replaceText) ++ " ").
Proof.
  intros Hop Hw Hf Hb. unfold filterClause.
  destruct (ItemType_eqb (item_type item) TAG_OPERATOR) eqn:E.
  { destruct (item_type item); try discriminate. now contradiction Hop. }
  rewrite Hw.
  destruct (String.eqb_spec (valueToken_text f c) "[]") as [|_]; [contradiction|].
  destruct (f_filter f); [reflexivity | now contradiction Hf | reflexivity].
Qed.

(** The same suggestion on the value [[]] goes between the brackets and
    is not followed by a space. *)
Lemma filterClause_brackets (c : Comp) (f : FilterToken)
      (replaceText : string) (item : SearchItem) :
  item_type item <> TAG_OPERATOR ->
  isWithinToken (value_location (f_value f)) (cursorPosition c) = true ->
  f_filter f <> TextIn ->
  valueToken_text f c = "[]" ->
  filterClause f replaceText item c
  = (Some (end_offset (key_location (f_key f)) + 1 + 1,
           end_offset (valueToken_location f c) + 1 - 2),
     if String.eqb (getKeyName (f_key f)) "user"
     then JS.str JS.dquote ++ JS.trim replaceText ++ JS.str JS.dquote
     else replaceText).
Proof.
  intros Hop Hw Hf Hb. unfold filterClause.
  destruct (ItemType_eqb (item_type item) TAG_OPERATOR) eqn:E.
  { destruct (item_type item); try discriminate. now contradiction Hop. }
  rewrite Hw, Hb. cbn [String.eqb]. rewrite !Ascii.eqb_refl.
  destruct (f_filter f); [reflexivity | now contradiction Hf | reflexivity].
Qed.

End AcceptProperties.

(** C5.  Accepting the operator suggestion [!:] on [age:5], wherever the
    cursor is in the filter, gives [!age:5] and not [age!:5]; in general
    an operator suggestion [!:] replaces the text from the filter's start
    to the start of its value by the negation marker, the key and [:]. *)
Theorem negation_operator_goes_before_the_key :
  (forall cursor : Z,
      0 <= cursor <= 5 ->
      query (state (onAutoCompleteFromAst model "!:" (operatorItem "!:")
                      (mounted model noProps "age:5" cursor)))
      = "!age:5")
  /\ "!age:5" <> "age!:5"
  /\ (forall (M : Imports) (c : Comp) (f : FilterToken) (item : SearchItem),
         cursorToken c = Some (TFilter f) ->
         item_type item = TAG_OPERATOR ->
         query (state (onAutoCompleteFromAst M "!:" item c))
         = JS.substring (query (state c)) 0 (start_offset (f_location f))
           ++ ("!" ++ key_text (f_key f) ++ ":")
           ++ JS.substringFrom (query (state c))
                (start_offset (value_location (f_value f)))).
Proof.
  split; [|split].
  - intros cursor H.
    assert (C : cursor = 0 \/ cursor = 1 \/ cursor = 2 \/ cursor = 3
                \/ cursor = 4 \/ cursor = 5) by lia.
    destruct C as [ -> | [ -> | [ -> | [ -> | [ -> | -> ] ] ] ] ];
      vm_compute; reflexivity.
  - discriminate.
  - intros M c f item Htok Hop.
    pose proof (filterClause_operator c f "!:" item Hop) as Hcl.
    apply (onAutoCompleteFromAst_filter M c f "!:" item _ _ _ Htok Hcl).
Qed.

Lemma negation_operator_goes_before_the_key_witness :
  query (state (onAutoCompleteFromAst model "!:" (operatorItem "!:")
                  (mounted model noProps "age:5" 2)))
  = "!age:5"
  /\ query (state (onAutoCompleteFromAst model "!:" (operatorItem "!:")
                     (mounted model noProps "x age:5 y" 4)))
     = JS.substring "x age:5 y" 0 2 ++ ("!" ++ "age" ++ ":")
       ++ JS.substringFrom "x age:5 y" 6.
Proof.
  split.
  - apply (proj1 negation_operator_goes_before_the_key 2). lia.
  - apply (proj2 (proj2 negation_operator_goes_before_the_key) model
             (mounted model noProps "x age:5 y" 4)
             (mkFilter (mkLoc 2 7) "age:5" Text false false
                (mkKey (mkLoc 2 5) "age" "age") EmptyString
                (VText (mkValueText (mkLoc 6 7) "5" false)))
             (operatorItem "!:"));
      reflexivity.
Defined.

(** C4, as the code has it.  Accepting the value suggestion [production]
    on [environment:] with the cursor in the empty value gives
    [environment:production ] with one trailing space, and the cursor is
    at the end of the inserted text, which includes that space: offset 23,
    the end of the new text.  In general a value suggestion on a filter
    that is not a list, whose key is not [user] and whose value is not
    [[]], replaces what follows the separator by the suggestion and one
    space, and the cursor is placed after that space. *)
Theorem accepted_value_is_followed_by_one_space :
  (let c := onAutoCompleteFromAst model "production" (valueItem "production")
              (mounted model noProps "environment:" 12) in
   query (state c) = "environment:production "
   /\ cursorPosition c = 23
   /\ cursorPosition c = JS.length (query (state c)))
  /\ (forall (M : Imports) (c : Comp) (f : FilterToken)
             (replaceText : string) (item : SearchItem),
         cursorToken c = Some (TFilter f) ->
         item_type item <> TAG_OPERATOR ->
         isWithinToken (value_location (f_value f)) (cursorPosition c) = true ->
         f_filter f <> TextIn ->
         valueToken_text f c <> "[]" ->
         getKeyName (f_key f) <> "user" ->
         searchInput c <> None ->
         let before :=
           JS.substring (query (state c)) 0 (end_offset (key_location (f_key f)) + 1) in
         query (state (onAutoCompleteFromAst M replaceText item c))
         = before ++ (replaceText ++ " ")
           ++ JS.substringFrom (query (state c))
                (end_offset (valueToken_location f c) + 1)
         /\ cursorPosition (onAutoCompleteFromAst M replaceText item c)
            = JS.length before + JS.length replaceText + 1).
Proof.
  split.
  - vm_compute. repeat split; reflexivity.
  - intros M c f replaceText item Htok Hop Hw Hf Hb Hu Hin before.
    pose proof (filterClause_value c f replaceText item Hop Hw Hf Hb) as Hcl.
    destruct (String.eqb_spec (getKeyName (f_key f)) "user") as [|_];
      [contradiction|].
    destruct (onAutoCompleteFromAst_filter M c f replaceText item _ _ _ Htok Hcl)
      as [Hq Hc].
    split; [exact Hq|].
    rewrite Hc; [| exact Hin | now destruct replaceText].
    rewrite length_append. fold before. change (JS.length " ") with 1. lia.
Qed.

Lemma accepted_value_is_followed_by_one_space_witness :
  query (state (onAutoCompleteFromAst model "error" (valueItem "error")
                  (mounted model noProps "level:err x:1" 9)))
  = JS.substring "level:err x:1" 0 6 ++ ("error" ++ " ")
    ++ JS.substringFrom "level:err x:1" 10
  /\ cursorPosition (onAutoCompleteFromAst model "error" (valueItem "error")
                       (mounted model noProps "level:err x:1" 9))
     = JS.length (JS.substring "level:err x:1" 0 6) + JS.length "error" + 1.
Proof.
  apply (proj2 accepted_value_is_followed_by_one_space model
           (mounted model noProps "level:err x:1" 9)
           (mkFilter (mkLoc 0 9) "level:err" Text false false
              (mkKey (mkLoc 0 5) "level" "level") EmptyString
              (VText (mkValueText (mkLoc 6 9) "err" false)))
           "error"%string (valueItem "error"));
    try reflexivity; discriminate.
Defined.

(** C4 as stated fails: after [production] is accepted on [environment:]
    the cursor is not immediately after the word [production] (offset 22)
    but one further, after the trailing space. *)
Lemma cursor_is_not_right_after_production :
  let c := onAutoCompleteFromAst model "production" (valueItem "production")
             (mounted model noProps "environment:" 12) in
  JS.length "environment:production" = 22
  /\ cursorPosition c = 23
  /\ ~ (query (state c) = "environment:production "
        /\ cursorPosition c = JS.length "environment:production").
Proof.
  vm_compute. repeat split; try reflexivity.
  intros [_ H]. discriminate H.
Qed.

(** C6, as the code has it.  For the key [user], accepting a value
    suggestion while the cursor is within the value of a filter that is
    not a list filter inserts the value, trimmed of the white space at its
    ends, wrapped in double quotes: accepting [alice@example.com] with the
    cursor after [user:] gives [user:"alice@example.com"] followed by one
    space; in general the quoted value followed by one space replaces what
    follows the separator, and when the value under the cursor is [[]] the
    quoted value goes between the brackets without a space. *)
Theorem user_value_is_quoted :
  query (state (onAutoCompleteFromAst model "alice@example.com"
                  (valueItem "alice@example.com")
                  (mounted model noProps "user:" 5)))
  = "user:" ++ JS.str JS.dquote ++ "alice@example.com" ++ JS.str JS.dquote ++ " "
  /\ (forall (M : Imports) (c : Comp) (f : FilterToken)
             (replaceText : string) (item : SearchItem),
         cursorToken c = Some (TFilter f) ->
         item_type item <> TAG_OPERATOR ->
         isWithinToken (value_location (f_value f)) (cursorPosition c) = true ->
         f_filter f <> TextIn ->
         valueToken_text f c <> "[]" ->
         getKeyName (f_key f) = "user" ->
         query (state (onAutoCompleteFromAst M replaceText item c))
         = JS.substring (query (state c)) 0 (end_offset (key_location (f_key f)) + 1)
           ++ ((JS.str JS.dquote ++ JS.trim replaceText ++ JS.str JS.dquote) ++ " ")
           ++ JS.substringFrom (query (state c))
                (end_offset (valueToken_location f c) + 1))
  /\ (forall (M : Imports) (c : Comp) (f : FilterToken)
             (replaceText : string) (item : SearchItem),
         cursorToken c = Some (TFilter f) ->
         item_type item <> TAG_OPERATOR ->
         isWithinToken (value_location (f_value f)) (cursorPosition c) = true ->
         f_filter f <> TextIn ->
         valueToken_text f c = "[]" ->
         getKeyName (f_key f) = "user" ->
         query (state (onAutoCompleteFromAst M replaceText item c))
         = JS.substring (query (state c)) 0
             (end_offset (key_location (f_key f)) + 1 + 1)
           ++ (JS.str JS.dquote ++ JS.trim replaceText ++ JS.str JS.dquote)
           ++ JS.substringFrom (query (state c))
                (end_offset (valueToken_location f c) + 1 - 2)).
Proof.
  split; [|split].
  - vm_compute. reflexivity.
  - intros M c f replaceText item Htok Hop Hw Hf Hb Hu.
    pose proof (filterClause_value c f replaceText item Hop Hw Hf Hb) as Hcl.
    rewrite Hu in Hcl. cbn [String.eqb] in Hcl.
    rewrite !Ascii.eqb_refl in Hcl.
    apply (onAutoCompleteFromAst_filter M c f replaceText item _ _ _ Htok Hcl).
  - intros M c f replaceText item Htok Hop Hw Hf Hb Hu.
    pose proof (filterClause_brackets c f replaceText item Hop Hw Hf Hb) as Hcl.
    rewrite Hu in Hcl. cbn [String.eqb] in Hcl.
    rewrite !Ascii.eqb_refl in Hcl.
    apply (onAutoCompleteFromAst_filter M c f replaceText item _ _ _ Htok Hcl).
Qed.

Lemma user_value_is_quoted_witness :
  query (state (onAutoCompleteFromAst model " bob " (valueItem " bob ")
                  (mounted model noProps "user:b level:error" 6)))
  = JS.substring "user:b level:error" 0 5
    ++ ((JS.str JS.dquote ++ JS.trim " bob " ++ JS.str JS.dquote) ++ " ")
    ++ JS.substringFrom "user:b level:error" 7
  /\ query (state (onAutoCompleteFromAst model "bob" (valueItem "bob")
                     (mounted model noProps "user:[]" 6)))
     = JS.substring "user:[]" 0 6
       ++ (JS.str JS.dquote ++ JS.trim "bob" ++ JS.str JS.dquote)
       ++ JS.substringFrom "user:[]" 6.
Proof.
  split.
  - apply (proj1 (proj2 user_value_is_quoted) model
             (mounted model noProps "user:b level:error" 6)
             (mkFilter (mkLoc 0 6) "user:b" Text false false
                (mkKey (mkLoc 0 4) "user" "user") EmptyString
                (VText (mkValueText (mkLoc 5 6) "b" false)))
             " bob "%string (valueItem " bob "));
      try reflexivity; discriminate.
  - apply (proj2 (proj2 user_value_is_quoted) model
             (mounted model noProps "user:[]" 6)
             (mkFilter (mkLoc 0 7) "user:[]" Text false false
                (mkKey (mkLoc 0 4) "user" "user") EmptyString
                (VText (mkValueText (mkLoc 5 7) "[]" false)))
             "bob"%string (valueItem "bob"));
      try reflexivity; discriminate.
Defined.

(** C6 as stated fails on a list filter and with the cursor on the key.
    Accepting [alice@example.com] with the cursor on the item of
    [user:[bob]] puts the value between the brackets as it is, without
    double quotes; accepting it with the cursor on the key of [user:]
    replaces the key and its separator by the value as it is. *)
Lemma user_value_is_not_always_quoted :
  let c := onAutoCompleteFromAst model "alice@example.com"
             (valueItem "alice@example.com") onUserList in
  let k := onAutoCompleteFromAst model "alice@example.com"
             (valueItem "alice@example.com") (mounted model noProps "user:" 2) in
  (cursorToken onUserList = Some (TFilter userListFilter)
   /\ getKeyName (f_key userListFilter) = "user"
   /\ query (state c) = "user:[alice@example.com]"
   /\ hasChar JS.dquote (query (state c)) = false)
  /\ (cursorToken (mounted model noProps "user:" 2)
      = Some (TFilter (mkFilter (mkLoc 0 5) "user:" Text false false
                         (mkKey (mkLoc 0 4) "user" "user") EmptyString
                         (VText (mkValueText (mkLoc 5 5) EmptyString false))))
      /\ query (state k) = "alice@example.com"
      /\ hasChar JS.dquote (query (state k)) = false).
Proof. vm_compute. repeat split; reflexivity. Qed.

(* ================================================================== *)
(** ** Pasting *)

(** C9.  The claim asks that every line break of the pasted text be
    removed.  [onPaste] removes the first one only: pasting the three lines
    [a], [b], [c] at the end of [x:1 ] merges them at the selection and
    places the cursor after the inserted text, but the text inserted is
    [ab], a line break, [c]. *)
Theorem onPaste_removes_the_first_line_break_only :
  let c := onPaste model threeLines (mounted model noProps "x:1 " 4) in
  query (state c) = "x:1 ab" ++ JS.str JS.newline ++ "c"
  /\ hasChar JS.newline (query (state c)) = true
  /\ cursorPosition c = 4 + JS.length ("ab" ++ JS.str JS.newline ++ "c")
  /\ In Call_preventDefault (calls c).
Proof. vm_compute. repeat split; try reflexivity. now left. Qed.

(* ================================================================== *)
(** ** Arrow keys *)

Section KeyboardProperties.

Variable M : Imports.

Lemma onKeyDown_arrow (key : string) (c : Comp) :
  key = "ArrowDown" \/ key = "ArrowUp" ->
  searchGroups (state c) <> [] ->
  activeSearchItem (state (onKeyDown M key c)) = nextActiveSearchItem key c
  /\ flatSearchItems (state (onKeyDown M key c)) = flatSearchItems (state c)
  /\ query (state (onKeyDown M key c)) = query (state c).
Proof.
  intros Hk Hg.
  assert (G : (0 <? listLength (searchGroups (state c))) = true).
  { apply Z.ltb_lt. unfold listLength.
    destruct (searchGroups (state c)); [contradiction | cbn; lia]. }
  unfold onKeyDown.
  destruct Hk as [-> | ->]; cbn -[nextActiveSearchItem Z.ltb];
    rewrite G; cbn -[nextActiveSearchItem];
    destruct (showDropdown (state c)); cbn -[nextActiveSearchItem];
    match goal with
    | |- context [cursorToken ?x] => destruct (cursorToken x) as [[]|]
    end; cbn -[nextActiveSearchItem]; repeat split; reflexivity.
Qed.

Lemma nextActiveSearchItem_down (c : Comp) :
  0 < listLength (flatSearchItems (state c)) ->
  -1 <= activeSearchItem (state c) ->
  nextActiveSearchItem "ArrowDown" c
  = if activeSearchItem (state c) =? -1 then 0
    else (activeSearchItem (state c) + 1) mod listLength (flatSearchItems (state c)).
Proof.
  intros Hn Ha. unfold nextActiveSearchItem.
  change (String.eqb "ArrowDown" "ArrowUp") with false. cbv iota.
  destruct (Z.eqb_spec (activeSearchItem (state c)) (-1)) as [E|E];
    cbn [negb].
  - reflexivity.
  - unfold JS.rem. apply Z.rem_mod_nonneg; lia.
Qed.

Lemma nextActiveSearchItem_up (c : Comp) :
  0 < listLength (flatSearchItems (state c)) ->
  -1 <= activeSearchItem (state c) ->
  nextActiveSearchItem "ArrowUp" c
  = if activeSearchItem (state c) =? -1
    then listLength (flatSearchItems (state c)) - 1
    else (activeSearchItem (state c) - 1 + listLength (flatSearchItems (state c)))
           mod listLength (flatSearchItems (state c)).
Proof.
  intros Hn Ha. unfold nextActiveSearchItem.
  rewrite String.eqb_refl.
  destruct (Z.eqb_spec (activeSearchItem (state c)) (-1)) as [E|E];
    cbn [negb].
  - unfold JS.rem. rewrite Z.rem_small; lia.
  - unfold JS.rem. apply Z.rem_mod_nonneg; lia.
Qed.

End KeyboardProperties.

(** C8, as the code has it.  While the dropdown shows its groups and has
    [n > 0] items, arrow-down moves the highlight from nothing to index 0
    and from [i] to [(i+1) mod n]; arrow-up moves it from nothing to the
    last index [n-1] and from [i] to [(i-1+n) mod n]; the list itself is
    unchanged.  On three items, arrow-down from nothing highlighted gives
    0, then 1, then 2, then 0 again. *)
Theorem arrow_keys_move_the_highlight_circularly :
  (forall (M : Imports) (c : Comp) (n : Z),
      searchGroups (state c) <> [] ->
      n = listLength (flatSearchItems (state c)) ->
      0 < n ->
      -1 <= activeSearchItem (state c) ->
      activeSearchItem (state (onKeyDown M "ArrowDown" c))
      = (if activeSearchItem (state c) =? -1 then 0
         else (activeSearchItem (state c) + 1) mod n)
      /\ activeSearchItem (state (onKeyDown M "ArrowUp" c))
         = (if activeSearchItem (state c) =? -1 then n - 1
            else (activeSearchItem (state c) - 1 + n) mod n)
      /\ flatSearchItems (state (onKeyDown M "ArrowDown" c)) = flatSearchItems (state c)
      /\ flatSearchItems (state (onKeyDown M "ArrowUp" c)) = flatSearchItems (state c))
  /\ (let down := onKeyDown model "ArrowDown" in
      activeSearchItem (state threeSuggestions) = -1
      /\ activeSearchItem (state (down threeSuggestions)) = 0
      /\ activeSearchItem (state (down (down threeSuggestions))) = 1
      /\ activeSearchItem (state (down (down (down threeSuggestions)))) = 2
      /\ activeSearchItem (state (down (down (down (down threeSuggestions))))) = 0).
Proof.
  split.
  - intros M c n Hg -> Hn Ha.
    destruct (onKeyDown_arrow M "ArrowDown" c (or_introl eq_refl) Hg) as (D1 & D2 & _).
    destruct (onKeyDown_arrow M "ArrowUp" c (or_intror eq_refl) Hg) as (U1 & U2 & _).
    rewrite D1, U1, D2, U2.
    rewrite nextActiveSearchItem_down, nextActiveSearchItem_up by assumption.
    repeat split; reflexivity.
  - vm_compute. repeat split; reflexivity.
Qed.

Lemma arrow_keys_move_the_highlight_circularly_witness :
  activeSearchItem (state (onKeyDown model "ArrowDown" threeSuggestions))
  = (if activeSearchItem (state threeSuggestions) =? -1 then 0
     else (activeSearchItem (state threeSuggestions) + 1) mod 3)
  /\ activeSearchItem (state (onKeyDown model "ArrowUp" threeSuggestions))
     = (if activeSearchItem (state threeSuggestions) =? -1 then 3 - 1
        else (activeSearchItem (state threeSuggestions) - 1 + 3) mod 3)
  /\ flatSearchItems (state (onKeyDown model "ArrowDown" threeSuggestions))
     = flatSearchItems (state threeSuggestions)
  /\ flatSearchItems (state (onKeyDown model "ArrowUp" threeSuggestions))
     = flatSearchItems (state threeSuggestions).
Proof.
  apply (proj1 arrow_keys_move_the_highlight_circularly model threeSuggestions 3).
  - discriminate.
  - reflexivity.
  - lia.
  - vm_compute. discriminate.
Defined.

(** C8 as stated fails for arrow-up: pressed with nothing highlighted on
    three items it highlights the last item, index 2, not index 0. *)
Lemma arrow_up_from_nothing_highlights_the_last_item :
  activeSearchItem (state threeSuggestions) = -1
  /\ listLength (flatSearchItems (state threeSuggestions)) = 3
  /\ activeSearchItem (state (onKeyDown model "ArrowUp" threeSuggestions)) = 2
  /\ activeSearchItem (state (onKeyDown model "ArrowUp" threeSuggestions)) <> 0.
Proof. vm_compute. repeat split; try reflexivity. discriminate. Qed.

(* ================================================================== *)
(** ** Submitting *)

Lemma TokenResult_nested_ind (Q : TokenResult -> Prop) :
  (forall f, Q (TFilter f)) ->
  (forall loc text, Q (TFreeText loc text)) ->
  (forall loc text, Q (TSpaces loc text)) ->
  (forall loc text, Q (TLogicBoolean loc text)) ->
  (forall loc text inner, Forall Q inner -> Q (TLogicGroup loc text inner)) ->
  forall t, Q t.
Proof.
  intros HF HT HS HB HG.
  fix IH 1. intros [f|loc text|loc text|loc text|loc text inner].
  - apply HF.
  - apply HT.
  - apply HS.
  - apply HB.
  - apply HG. induction inner as [|x inner IHinner].
    + constructor.
    + constructor; [apply IH | exact IHinner].
Qed.

Lemma FilterIn_nil (f : FilterToken) : ~ FilterIn f [].
Proof. intros H. inversion H. Qed.

Lemma FilterIn_cons (f : FilterToken) (t : TokenResult) (rest : list TokenResult) :
  FilterIn f (t :: rest) <-> (FilterIn f [t] \/ FilterIn f rest).
Proof.
  split.
  - intros H. inversion H; subst.
    + left. constructor.
    + left. now constructor.
    + now right.
  - intros [H|H].
    + inversion H; subst.
      * constructor.
      * now constructor.
      * now apply FilterIn_nil in H1.
    + now apply FilterIn_later.
Qed.

Lemma visitAll_single (t : TokenResult) :
  visitAll invalidFilterTest [t] = nodeVisitor invalidFilterTest t.
Proof. cbn [visitAll]. now destruct (nodeVisitor invalidFilterTest t). Qed.

Lemma findsNoInvalid_list (l : list TokenResult) :
  Forall (fun t => findsNoInvalid [t]) l -> findsNoInvalid l.
Proof.
  induction 1 as [|t l Ht _ IH].
  - split; [now left|]. split; [intros _ f H; now apply FilterIn_nil in H | reflexivity].
  - destruct Ht as [Hr Hi], IH as [IHr IHi].
    rewrite visitAll_single in Hr, Hi.
    unfold findsNoInvalid. cbn [visitAll].
    destruct (nodeVisitor invalidFilterTest t) as [r|] eqn:E.
    + destruct Hr as [Hr|Hr]; [discriminate|]. split; [now right|].
      split; [discriminate|].
      intros H. apply Hi. intros f Hf. apply H. apply FilterIn_cons. now left.
    + split; [exact IHr|].
      rewrite IHi. split.
      * intros H f Hf. apply FilterIn_cons in Hf as [Hf|Hf].
        -- now apply (proj1 Hi eq_refl).
        -- now apply H.
      * intros H f Hf. apply H. apply FilterIn_cons. now right.
Qed.

Lemma findsNoInvalid_token (t : TokenResult) : findsNoInvalid [t].
Proof.
  induction t as [f|loc text|loc text|loc text|loc text inner IH]
    using TokenResult_nested_ind;
    unfold findsNoInvalid; rewrite visitAll_single.
  - cbn. unfold invalidFilterTest. cbn.
    destruct (f_invalid f) eqn:E.
    + split; [now right|]. split; [discriminate|].
      intros H. specialize (H f (FilterIn_here f [])). congruence.
    + split; [now left|]. split; [|reflexivity].
      intros _ f' H. inversion H; subst; [exact E | now apply FilterIn_nil in H1].
  - cbn. split; [now left|]. split; [|reflexivity].
    intros _ f H. inversion H; subst. now apply FilterIn_nil in H1.
  - cbn. split; [now left|]. split; [|reflexivity].
    intros _ f H. inversion H; subst. now apply FilterIn_nil in H1.
  - cbn. split; [now left|]. split; [|reflexivity].
    intros _ f H. inversion H; subst. now apply FilterIn_nil in H1.
  - apply findsNoInvalid_list in IH. destruct IH as [IHr IHi].
    change (nodeVisitor invalidFilterTest (TLogicGroup loc text inner))
      with (visitAll invalidFilterTest inner).
    split; [exact IHr|]. rewrite IHi. split.
    + intros H f Hf. inversion Hf; subst;
        [now apply H | now apply FilterIn_nil in H1].
    + intros H f Hf. apply H. now constructor.
Qed.

Lemma findsNoInvalid_tree (tree : list TokenResult) : findsNoInvalid tree.
Proof.
  apply findsNoInvalid_list, Forall_forall. intros t _.
  apply findsNoInvalid_token.
Qed.

Lemma hasValidSearch_iff (c : Comp) :
  hasValidSearch c = true
  <-> (parsedQuery (state c) = None
       \/ exists tree, parsedQuery (state c) = Some tree
                       /\ forall f, FilterIn f tree -> f_invalid f = false).
Proof.
  unfold hasValidSearch.
  destruct (parsedQuery (state c)) as [tree|]; [|split; [now left | reflexivity]].
  destruct (findsNoInvalid_tree tree) as [Hr Hi].
  unfold treeResultLocator. split.
  - intros H. right. exists tree. split; [reflexivity|]. apply Hi.
    destruct Hr as [Hr|Hr]; [exact Hr | rewrite Hr in H; discriminate].
  - intros [H|(tree' & E & H)]; [discriminate|].
    injection E as <-. apply Hi in H. now rewrite H.
Qed.

Lemma searchCalls_app (a b : list Call) :
  searchCalls (a ++ b)%list = (searchCalls a ++ searchCalls b)%list.
Proof. apply flat_map_app. Qed.

Lemma doSearch_calls (M : Imports) (c : Comp) :
  searchCalls (calls (doSearch M c))
  = (searchCalls (calls c)
     ++ (if hasValidSearch c then [removeSpace M (query (state c))] else []))%list.
Proof.
  unfold doSearch.
  assert (B : hasValidSearch (blur c) = hasValidSearch c
              /\ query (state (blur c)) = query (state c)
              /\ searchCalls (calls (blur c)) = searchCalls (calls c)).
  { unfold blur, close. destruct (searchInput c); [|repeat split].
    cbn. repeat split. rewrite searchCalls_app. cbn. apply app_nil_r. }
  destruct B as (B1 & B2 & B3). rewrite B1, B2.
  destruct (hasValidSearch c).
  - cbn [negb]. cbv iota.
    destruct (savedSearchType _);
      [destruct (isEmpty _)|];
      cbn; rewrite ?searchCalls_app, B3; cbn; rewrite ?app_nil_r; reflexivity.
  - cbn. rewrite B3. now rewrite app_nil_r.
Qed.

(** C3.  [doSearch] calls the search callback exactly when the query is
    valid: the calls made to it grow by one, with the query without its
    trailing space, when [hasValidSearch] holds, and by none otherwise;
    and [hasValidSearch] holds exactly when there is no parsed tree (a
    query that failed to parse is taken as valid) or no filter anywhere in
    the tree, groups included, is marked invalid.  Parsing is a total
    function that yields a tree or nothing, for every string; when it
    yields nothing for the text just entered, the callback is called. *)
Theorem search_is_run_iff_the_query_is_valid :
  forall (M : Imports) (c : Comp),
    searchCalls (calls (doSearch M c))
    = (searchCalls (calls c)
       ++ (if hasValidSearch c then [removeSpace M (query (state c))] else []))%list
    /\ (hasValidSearch c = true
        <-> (parsedQuery (state c) = None
             \/ exists tree, parsedQuery (state c) = Some tree
                             /\ forall f, FilterIn f tree -> f_invalid f = false))
    /\ (forall q : string,
           parseSearch M q = None ->
           searchCalls (calls (doSearch M (setState (makeQueryState M q) c)))
           = (searchCalls (calls c) ++ [removeSpace M q])%list).
Proof.
  intros M c. split; [apply doSearch_calls|]. split; [apply hasValidSearch_iff|].
  intros q H. rewrite doSearch_calls.
  replace (hasValidSearch (setState (makeQueryState M q) c)) with true;
    [reflexivity|].
  symmetry. apply hasValidSearch_iff. left. exact H.
Qed.

Lemma search_is_run_iff_the_query_is_valid_witness :
  searchCalls (calls (doSearch noParse
                        (setState (makeQueryState noParse "((")
                                  (mounted noParse noProps EmptyString 0))))
  = ["(("]
  /\ searchCalls (calls (doSearch model invalidInGroup))
     = (if hasValidSearch invalidInGroup then ["(age:x)"] else [])
  /\ hasValidSearch invalidInGroup = false.
Proof.
  split; [|split].
  - apply (proj2 (proj2 (search_is_run_iff_the_query_is_valid noParse
                           (mounted noParse noProps EmptyString 0))) "((").
    reflexivity.
  - apply (proj1 (search_is_run_iff_the_query_is_valid model invalidInGroup)).
  - reflexivity.
Defined.

(* ================================================================== *)
(** ** Negating a filter *)

Section NegateProperties.

Variable M : Imports.
Variable P : Platform.

Lemma setSelection_input (a b : Z) (c : Comp) :
  searchInput c <> None ->
  searchInput (setSelection a b c) = Some (mkTextarea a b).
Proof.
  intros H. unfold setSelection.
  destruct (searchInput c); [reflexivity | contradiction].
Qed.

(** What the browser's insertion leaves behind, or that it was not made. *)
Lemma insertion_cases (text : string) (c : Comp) (a b : Z) :
  searchInput c = Some (mkTextarea a b) ->
  0 <= a <= b -> b <= JS.length (query (state c)) ->
  let raw := JS.substring (query (state c)) 0 a ++ text
             ++ JS.substringFrom (query (state c)) b in
  (browserInserts P text = true
   /\ (if hasExecCommand P then execCommand_insertText_queued M P text c else None)
      = Some (call (Call_onChange raw)
                (setSelection (a + JS.length text) (a + JS.length text) c),
              onQueryChange_queued M raw))
  \/ (browserInserts P text = false
      /\ (if hasExecCommand P then execCommand_insertText_queued M P text c else None)
         = None).
Proof.
  intros Hin Hab Hb raw. unfold browserInserts.
  destruct (hasExecCommand P); [|right; split; reflexivity].
  destruct (execCommand_insertText_queued M P text c) as [[c' queued]|] eqn:X.
  - left.
    destruct (execCommand_insertText_queued_spec M P text c c' queued a b
                Hin Hab Hb X) as [-> ->].
    split; [|reflexivity].
    unfold execCommand_insertText_queued in X. rewrite Hin in X.
    destruct (insertTextWorks P text); [reflexivity | discriminate].
  - right. split; [|reflexivity].
    unfold execCommand_insertText_queued in X. rewrite Hin in X.
    destruct (insertTextWorks P text); [discriminate | reflexivity].
Qed.

(** The component after [negateToken] on a filter that is not negated,
    starts the text and has its key at its start: the marker is put in
    front; the cursor is one to the right when the browser has made the
    insertion, and right after the marker when it has not. *)
Lemma negateToken_plain (c : Comp) (f : FilterToken) :
  cursorToken c = Some (TFilter f) ->
  searchInput c <> None ->
  f_negated f = false ->
  start_offset (f_location f) = 0 ->
  start_offset (key_location (f_key f)) = 0 ->
  hasChar JS.newline (query (state c)) = false ->
  let c1 := negateToken M P c in
  query (state c1) = "!" ++ query (state c)
  /\ parsedQuery (state c1) = parseSearch M ("!" ++ query (state c))
  /\ searchInput c1
     = Some (if browserInserts P "!"
             then mkTextarea (cursorPosition c + 1) (cursorPosition c + 1)
             else mkTextarea 1 1).
Proof.
  intros Htok Hin Hneg Hs Hk Hnl c1. subst c1. unfold negateToken.
  rewrite Htok, Hneg, Hs, Hk.
  destruct (searchInput c) as [input|] eqn:E; [|contradiction].
  set (c0 := setSelection 0 0 c).
  assert (E0 : searchInput c0 = Some (mkTextarea 0 0))
    by (unfold c0, setSelection; now rewrite E).
  assert (Q0 : query (state c0) = query (state c))
    by (unfold c0, setSelection; now rewrite E).
  assert (C0 : cursorPosition c0 = 0) by (unfold cursorPosition; now rewrite E0).
  set (k := 0 + (cursorPosition c - 0) + 1).
  assert (K : k = cursorPosition c + 1) by (unfold k; lia).
  destruct (insertion_cases "!" c0 0 0 E0) as [[B X]|[B X]];
    [lia | apply length_nonneg | |]; rewrite X, B; clear X.
  - rewrite Q0, jsSubstring_empty, jsSubstring_from_start. cbn [append].
    match goal with
    | |- context [onQueryChange_queued M ?v ?x] =>
        destruct (onQueryChange_queued_query M v x) as (Q1 & Q2 & Q3)
    end.
    rewrite replace_absent in Q1, Q2 by (cbn [hasChar]; now rewrite Hnl).
    rewrite Q1, Q2, Q3 by (cbn [hasChar]; now rewrite Hnl).
    repeat split. rewrite setSelection_input, K; [reflexivity|].
    cbn [call searchInput]. rewrite setSelection_input; [discriminate | congruence].
  - rewrite slice_to_start, sliceFrom_start, C0. cbn [append Z.add].
    match goal with
    | |- context [updateQuery M ?q ?p ?x] =>
        destruct (updateQuery_query M q p x) as (U1 & U2 & _)
    end.
    rewrite U1, U2. repeat split.
    apply updateQuery_cursor; [|lia].
    rewrite setSelection_input; [discriminate | congruence].
Qed.

(** The component after [negateToken] on a negated filter that is the
    whole text: the marker is gone; the cursor is one to the left when
    the browser has made the edit. *)
Lemma negateToken_negated (c : Comp) (f : FilterToken) (ch : ascii) (rest : string) :
  cursorToken c = Some (TFilter f) ->
  searchInput c <> None ->
  f_negated f = true ->
  query (state c) = String ch rest ->
  f_text f = String ch rest ->
  f_location f = mkLoc 0 (JS.length (String ch rest)) ->
  start_offset (key_location (f_key f)) = 1 ->
  hasChar JS.newline rest = false ->
  let c2 := negateToken M P c in
  query (state c2) = rest
  /\ parsedQuery (state c2) = parseSearch M rest
  /\ (browserInserts P rest = true ->
      searchInput c2
      = Some (mkTextarea (cursorPosition c - 1) (cursorPosition c - 1))).
Proof.
  intros Htok Hin Hneg Hq Ht Hl Hk Hnl c2. subst c2. unfold negateToken.
  rewrite Htok, Hneg, Hl, Hk, Ht, Hq.
  cbn [start_offset end_offset].
  destruct (searchInput c) as [input|] eqn:E; [|contradiction].
  set (len := JS.length (String ch rest)).
  set (c0 := setSelection 0 len c).
  assert (E0 : searchInput c0 = Some (mkTextarea 0 len))
    by (unfold c0, setSelection; now rewrite E).
  assert (Q0 : query (state c0) = String ch rest)
    by (unfold c0, setSelection; now rewrite E).
  assert (C0 : cursorPosition c0 = 0) by (unfold cursorPosition; now rewrite E0).
  set (k := 0 + (cursorPosition c - 1)).
  assert (K : k = cursorPosition c - 1) by (unfold k; lia).
  rewrite sliceFrom_one.
  destruct (insertion_cases rest c0 0 len E0) as [[B X]|[B X]];
    [pose proof (length_nonneg (String ch rest)); unfold len; lia
    | rewrite Q0; unfold len; lia | |]; rewrite X, B; clear X.
  - rewrite Q0. fold len. unfold JS.substringFrom.
    rewrite !jsSubstring_empty. cbn [append]. rewrite append_empty_r.
    match goal with
    | |- context [onQueryChange_queued M ?v ?x] =>
        destruct (onQueryChange_queued_query M v x) as (Q1 & Q2 & Q3)
    end.
    rewrite replace_absent in Q1, Q2 by exact Hnl.
    rewrite Q1, Q2, Q3 by exact Hnl.
    repeat split. intros _. rewrite setSelection_input, K; [reflexivity|].
    cbn [call searchInput]. rewrite setSelection_input; [discriminate | congruence].
  - rewrite slice_to_start. cbn [append].
    match goal with
    | |- context [updateQuery M ?q ?p ?x] =>
        destruct (updateQuery_query M q p x) as (U1 & U2 & _)
    end.
    rewrite U1, U2. repeat split. discriminate.
Qed.

(** Negating the one filter of a query and negating it again. *)
Lemma negateToken_round_trip (c : Comp) (f f' : FilterToken) :
  parsedQuery (state c) = Some [TFilter f] ->
  f_negated f = false ->
  f_location f = mkLoc 0 (JS.length (query (state c))) ->
  start_offset (key_location (f_key f)) = 0 ->
  isWithinToken (f_location f) (cursorPosition c) = true ->
  hasChar JS.newline (query (state c)) = false ->
  parseSearch M ("!" ++ query (state c)) = Some [TFilter f'] ->
  f_negated f' = true ->
  f_text f' = "!" ++ query (state c) ->
  f_location f' = mkLoc 0 (JS.length (query (state c)) + 1) ->
  start_offset (key_location (f_key f')) = 1 ->
  let c1 := negateToken M P c in
  let c2 := negateToken M P c1 in
  (query (state c1) = "!" ++ query (state c)
   /\ query (state c2) = query (state c))
  /\ (browserInserts P "!" = true ->
      cursorPosition c1 = cursorPosition c + 1
      /\ (browserInserts P (query (state c)) = true ->
          cursorPosition c2 = cursorPosition c))
  /\ (browserInserts P "!" = false -> cursorPosition c1 = 1).
Proof.
  intros Hp Hneg Hl Hk Hw Hnl Hp' Hneg' Ht' Hl' Hk' c1 c2.
  assert (Hin : searchInput c <> None).
  { apply (within_has_input c (f_location f)); [rewrite Hl; cbn; lia | exact Hw]. }
  destruct (negateToken_plain c f) as (Q1 & P1 & I1); try assumption.
  { now apply cursorToken_single. }
  { now rewrite Hl. }
  fold c1 in Q1, P1, I1.
  assert (C1 : cursorPosition c1
               = if browserInserts P "!" then cursorPosition c + 1 else 1).
  { unfold cursorPosition at 1. rewrite I1. now destruct (browserInserts P "!"). }
  assert (L1 : JS.length (String "!" (query (state c)))
               = JS.length (query (state c)) + 1).
  { unfold JS.length. cbn [String.length]. lia. }
  assert (R : 0 <= cursorPosition c <= JS.length (query (state c))).
  { rewrite Hl in Hw. unfold isWithinToken in Hw. cbn in Hw.
    apply andb_true_iff in Hw as [A B].
    apply Z.leb_le in A. apply Z.leb_le in B. lia. }
  destruct (negateToken_negated c1 f' "!"%char (query (state c)))
    as (Q2 & P2 & I2); try assumption.
  - apply cursorToken_single; [now rewrite P1|].
    rewrite Hl', C1. unfold isWithinToken. cbn.
    apply andb_true_iff; split; apply Z.leb_le;
      destruct (browserInserts P "!"); lia.
  - rewrite I1. discriminate.
  - now rewrite Hl', L1.
  - fold c2 in Q2, P2, I2.
    split; [split; [exact Q1 | exact Q2]|]. split.
    + intros B. rewrite B in C1. split; [exact C1|].
      intros B'. unfold cursorPosition at 1. rewrite (I2 B'), C1. cbn. lia.
    + intros B. now rewrite B in C1.
Qed.

End NegateProperties.

(** C2.  On a query that is a single filter, not negated, with the cursor
    anywhere in it, [negateToken] puts the negation marker before the key
    and a second [negateToken] gives back exactly the original text:
    [level:error] becomes [!level:error] and then [level:error] again,
    whatever the browser.  The cursor keeps its place in the key, one to
    the right and back, when the browser makes the edits.  When it does
    not, the claim fails: [updateQuery] is handed the cursor position read
    after the selection has been moved to the start of the token, and
    places the cursor when the handler has returned, after [negateToken]
    has put it where it should be; with the cursor at offset 3 of
    [level:error] the cursor ends at offset 1, not at offset 4. *)
Theorem negateToken_keeps_the_text_and_loses_the_cursor_without_execCommand :
  (forall (P : Platform) (cursor : Z),
      0 <= cursor <= 11 ->
      let c := mounted model noProps "level:error" cursor in
      let c1 := negateToken model P c in
      let c2 := negateToken model P c1 in
      (query (state c1) = "!level:error" /\ query (state c2) = "level:error")
      /\ (browserInserts P "!" = true ->
          cursorPosition c1 = cursor + 1
          /\ (browserInserts P "level:error" = true -> cursorPosition c2 = cursor))
      /\ (browserInserts P "!" = false -> cursorPosition c1 = 1))
  /\ (let c := mounted model noProps "level:error" 3 in
      query (state (negateToken model plainBrowser c)) = "!level:error"
      /\ cursorPosition (negateToken model plainBrowser c) = 1
      /\ cursorPosition (negateToken model plainBrowser c) <> 3 + 1)
  /\ (forall (M : Imports) (P : Platform) (c : Comp) (f f' : FilterToken),
         parsedQuery (state c) = Some [TFilter f] ->
         f_negated f = false ->
         f_location f = mkLoc 0 (JS.length (query (state c))) ->
         start_offset (key_location (f_key f)) = 0 ->
         isWithinToken (f_location f) (cursorPosition c) = true ->
         hasChar JS.newline (query (state c)) = false ->
         parseSearch M ("!" ++ query (state c)) = Some [TFilter f'] ->
         f_negated f' = true ->
         f_text f' = "!" ++ query (state c) ->
         f_location f' = mkLoc 0 (JS.length (query (state c)) + 1) ->
         start_offset (key_location (f_key f')) = 1 ->
         let c1 := negateToken M P c in
         let c2 := negateToken M P c1 in
         (query (state c1) = "!" ++ query (state c)
          /\ query (state c2) = query (state c))
         /\ (browserInserts P "!" = true ->
             cursorPosition c1 = cursorPosition c + 1
             /\ (browserInserts P (query (state c)) = true ->
                 cursorPosition c2 = cursorPosition c))
         /\ (browserInserts P "!" = false -> cursorPosition c1 = 1)).
Proof.
  assert (G : forall (P : Platform) (cursor : Z),
             0 <= cursor <= 11 ->
             let c := mounted model noProps "level:error" cursor in
             let c1 := negateToken model P c in
             let c2 := negateToken model P c1 in
             (query (state c1) = "!level:error" /\ query (state c2) = "level:error")
             /\ (browserInserts P "!" = true ->
                 cursorPosition c1 = cursor + 1
                 /\ (browserInserts P "level:error" = true -> cursorPosition c2 = cursor))
             /\ (browserInserts P "!" = false -> cursorPosition c1 = 1)).
  { intros P cursor H c.
    pose (f := mkFilter (mkLoc 0 11) "level:error" Text false false
                 (mkKey (mkLoc 0 5) "level" "level") EmptyString
                 (VText (mkValueText (mkLoc 6 11) "error" false))).
    pose (f' := mkFilter (mkLoc 0 12) "!level:error" Text true false
                  (mkKey (mkLoc 1 6) "level" "level") EmptyString
                  (VText (mkValueText (mkLoc 7 12) "error" false))).
    apply (negateToken_round_trip model P c f f'); try reflexivity.
    unfold isWithinToken. cbn.
    apply andb_true_iff; split; apply Z.leb_le; lia. }
  split; [exact G|]. split.
  - destruct (G plainBrowser 3 ltac:(lia)) as ((Q & _) & _ & F).
    cbv zeta in Q, F. specialize (F eq_refl).
    split; [exact Q|]. split; [exact F|]. rewrite F. discriminate.
  - intros M P c f f'. apply negateToken_round_trip.
Qed.

Lemma negateToken_keeps_the_text_and_loses_the_cursor_without_execCommand_witness :
  let c := mounted model noProps "level:error" 3 in
  ((query (state (negateToken model richBrowser c)) = "!level:error"
    /\ query (state (negateToken model richBrowser (negateToken model richBrowser c)))
       = "level:error")
   /\ (browserInserts richBrowser "!" = true ->
       cursorPosition (negateToken model richBrowser c) = 3 + 1
       /\ (browserInserts richBrowser "level:error" = true ->
           cursorPosition
             (negateToken model richBrowser (negateToken model richBrowser c)) = 3))
   /\ (browserInserts richBrowser "!" = false ->
       cursorPosition (negateToken model richBrowser c) = 1))
  /\ cursorPosition (negateToken model plainBrowser c) = 1.
Proof.
  intros c. split.
  - apply (proj1 negateToken_keeps_the_text_and_loses_the_cursor_without_execCommand
             richBrowser 3).
    lia.
  - apply (proj1 negateToken_keeps_the_text_and_loses_the_cursor_without_execCommand
             plainBrowser 3 ltac:(lia)).
    reflexivity.
Defined.

(* ================================================================== *)
(** ** Stale fetches *)

Section StaleProperties.

Variable M : Imports.

Lemma not_own_extension {A : Type} (l : list A) (x : A) : l <> (l ++ [x])%list.
Proof.
  intros H. apply (f_equal (@List.length A)) in H.
  rewrite length_app in H. cbn in H. lia.
Qed.

Lemma last_pending (l : list Pending) (x p : Pending) :
  (l ++ [x])%list = (l ++ [p])%list -> x = p.
Proof. intros H. apply app_inv_head in H. now injection H. Qed.

(** What a refresh of the suggestions leaves suspended, if anything: a
    fetch that has captured the cursor offset, or, in the default state,
    the query text. *)
Lemma updateAutoCompleteFromAst_pending (c : Comp) (p : Pending) :
  pending (updateAutoCompleteFromAst M c) = (pending c ++ [p])%list ->
  match p with
  | AwaitValueGroup cursor _ _ _ _
  | AwaitKeyGroup cursor _ _ _ _ _
  | AwaitFreeTextGroup cursor _ _ _ _ => cursor = cursorPosition c
  | AwaitDefaultSearches query0 _ _ _ => query0 = query (state c)
  | AwaitSaveRecentSearch _ => False
  end.
Proof.
  unfold updateAutoCompleteFromAst.
  destruct (cursorToken c) as [[f| | | |]|];
    try (intros H; now apply not_own_extension in H).
  - destruct (isWithinToken (value_location (f_value f)) (cursorPosition c)).
    + match goal with
      | |- context [generateValueAutocompleteGroup ?t ?q c] =>
          pose proof (generateValueAutocompleteGroup_sameEditor t q c) as G;
          destruct (generateValueAutocompleteGroup t q c) as [c1 request]
      end.
      cbn [fst] in G. destruct G as (_ & _ & G).
      cbn. rewrite G. intros H. apply last_pending in H. now subst p.
    + destruct (isWithinToken (key_location (f_key f)) (cursorPosition c)).
      * destruct (getTagKeys M (getKeyName (f_key f)) c).
        cbn. intros H. apply last_pending in H. now subst p.
      * cbn. intros H. now apply not_own_extension in H.
  - destruct (cursorSearchTerm c) as [st|].
    + destruct (getTagKeys M (st_searchTerm st) c).
      cbn. intros H. apply last_pending in H. now subst p.
    + intros H. now apply not_own_extension in H.
  - unfold showDefaultSearches.
    destruct (defaultSearchItems (props c)) as [items recents].
    destruct (listLength items =? 0).
    + match goal with
      | |- context [getTagKeys M ?t ?x] => destruct (getTagKeys M t x)
      end.
      cbn. intros H. apply last_pending in H. now subst p.
    + cbn. intros H. now apply not_own_extension in H.
Qed.

Lemma generateValueAutocompleteGroup_resumed_frame (request : ValueRequest)
      (recentWanted : bool) (r : Response) (c : Comp) :
  let c' := fst (generateValueAutocompleteGroup_resumed request recentWanted r c) in
  suggestions c' = suggestions c /\ searchInput c' = searchInput c.
Proof.
  unfold generateValueAutocompleteGroup_resumed, getTagValues_resumed.
  destruct request as [result|tag items|tag items|tag query0 asked];
    try (destruct (recentSearchesOf recentWanted r); split; reflexivity).
  destruct asked; [destruct (resp_values r)|];
    destruct (recentSearchesOf recentWanted r); split; reflexivity.
Qed.

(** A fetch made for a token commits nothing once the cursor has moved; a
    fetch of the default state commits nothing once the text has
    changed. *)
Lemma resume_stale (p : Pending) (r : Response) (c : Comp) :
  match p with
  | AwaitValueGroup cursor _ _ _ _
  | AwaitKeyGroup cursor _ _ _ _ _
  | AwaitFreeTextGroup cursor _ _ _ _ => cursor <> cursorPosition c
  | AwaitDefaultSearches query0 _ _ _ => query (state c) <> query0
  | AwaitSaveRecentSearch _ => True
  end ->
  suggestions (resume M p r c) = suggestions c.
Proof.
  destruct p as [cursor f t request w|cursor f t keys ty w|cursor st keys ty w
                |query0 keys ty w|query0]; intros H; cbn [resume].
  - pose proof (generateValueAutocompleteGroup_resumed_frame request w r c) as F.
    destruct (generateValueAutocompleteGroup_resumed request w r c) as [c' [vg|]];
      cbn [fst] in F; destruct F as [F1 F2]; [|exact F1].
    assert (E : cursorPosition c' = cursorPosition c)
      by (unfold cursorPosition; now rewrite F2).
    rewrite E. destruct (Z.eqb_spec cursor (cursorPosition c)); [contradiction|].
    exact F1.
  - destruct (recentSearchesOf w r); [|reflexivity].
    destruct (Z.eqb_spec cursor (cursorPosition c)); [contradiction | reflexivity].
  - destruct (recentSearchesOf w r); [|reflexivity].
    destruct (Z.eqb_spec cursor (cursorPosition c)); [contradiction | reflexivity].
  - destruct (recentSearchesOf w r); [|reflexivity].
    destruct (String.eqb_spec (query (state c)) query0); [contradiction | reflexivity].
  - destruct (resp_saved r); [destruct (hasOnSavedRecentSearch (props c))|];
      reflexivity.
Qed.

End StaleProperties.

(** C1, as the code has it.  Let a refresh of the suggestions on [c0]
    suspend the fetch [p], and let the fetch complete on the component
    [c].  If [p] was made for a token (value, key or free-text state) and
    the cursor offset of [c] differs from the one of [c0], completing [p]
    leaves the suggestion list of [c] as it is.  If [p] is the fetch of
    the default state, the same holds when the query text of [c] differs
    from the one of [c0]: that branch compares the text, not the cursor. *)
Theorem stale_fetch_results_are_dropped :
  forall (M : Imports) (c0 : Comp) (p : Pending) (r : Response) (c : Comp),
    pending (updateAutoCompleteFromAst M c0) = (pending c0 ++ [p])%list ->
    (if isDefaultFetch p
     then query (state c) <> query (state c0)
     else cursorPosition c <> cursorPosition c0) ->
    suggestions (resume M p r c) = suggestions c.
Proof.
  intros M c0 p r c Hp Hstale.
  apply updateAutoCompleteFromAst_pending in Hp.
  apply resume_stale.
  destruct p; cbn [isDefaultFetch] in Hstale; subst; try congruence.
  exact I.
Qed.

Lemma stale_fetch_results_are_dropped_witness :
  let c0 := mounted model tagProps "level:" 6 in
  let c := mounted model tagProps "level:err" 9 in
  let p := AwaitValueGroup 6
             (mkFilter (mkLoc 0 6) "level:" Text false false
                (mkKey (mkLoc 0 5) "level" "level") EmptyString
                (VText (mkValueText (mkLoc 6 6) EmptyString false)))
             "level" (RemoteValues (OwnTag (mkTag "level" None false None)) EmptyString true)
             true in
  suggestions (resume model p someValues c) = suggestions c.
Proof.
  intros c0 c p.
  apply (stale_fetch_results_are_dropped model c0 p someValues c).
  - reflexivity.
  - vm_compute. discriminate.
Defined.

(** C1 as stated fails in the default state: a fetch started with the
    cursor at offset 5 of a query without token still fills the suggestion
    list when it completes after the cursor has moved to offset 9, because
    the text is the same. *)
Lemma default_fetch_is_committed_after_the_cursor_moved :
  let c0 := mounted model tagProps tenSpaces 5 in
  let c1 := updateAutoCompleteFromAst model c0 in
  let c := setSelection 9 9 c1 in
  exists p : Pending,
    pending c1 = [p]
    /\ isDefaultFetch p = true
    /\ cursorPosition c0 = 5
    /\ cursorPosition c = 9
    /\ suggestions c = ([], [])
    /\ suggestions (resume model p someValues c) <> suggestions c.
Proof.
  eexists. split; [vm_compute; reflexivity|].
  vm_compute. repeat split; try reflexivity. discriminate.
Qed.

(** A fetch that is not stale is committed: with the cursor still at the
    start of the value of [level:], the values that arrive are listed
    after the two operators. *)
Example fresh_value_fetch_is_committed :
  let c0 := mounted model tagProps "level:" 6 in
  let c1 := updateAutoCompleteFromAst model c0 in
  match pending c1 with
  | [p] =>
      map item_value (flatSearchItems (state (resume model p someValues c1)))
      = [Some ":"; Some "!:"; Some "error"; Some "warning"]
  | _ => False
  end.
Proof. vm_compute. reflexivity. Qed.

(* ================================================================== *)
(** ** The token under the cursor *)

Section LocatorProperties.

Context {T : Type}.
Variable visitorTest : Node -> Visit T.

Lemma visitLeaf_fromVisitor (n : Node) : fromVisitor visitorTest (visitLeaf visitorTest n).
Proof.
  intros r H. unfold visitLeaf in H.
  destruct (visitorTest n) as [|r'|] eqn:E; try discriminate.
  injection H as <-. now exists n.
Qed.

Lemma visitItems_fromVisitor (items : list (option ValueTextToken)) :
  fromVisitor visitorTest (visitItems visitorTest items).
Proof.
  induction items as [|[v|] items IH]; intros r H; cbn [visitItems] in H.
  - discriminate.
  - destruct (visitLeaf visitorTest (NValue (VText v))) as [r'|] eqn:E.
    + injection H as <-. now apply (visitLeaf_fromVisitor _ _ E).
    + now apply IH.
  - now apply IH.
Qed.

Lemma visitValue_fromVisitor (v : ValueToken) :
  fromVisitor visitorTest (visitValue visitorTest v).
Proof.
  intros r H. unfold visitValue in H.
  destruct (visitorTest (NValue v)) as [|r'|] eqn:E.
  - destruct v as [t|loc text items|loc text]; try discriminate.
    now apply (visitItems_fromVisitor items).
  - injection H as <-. now exists (NValue v).
  - discriminate.
Qed.

Lemma visitAll_fromVisitor_list (l : list TokenResult) :
  Forall (fun t => fromVisitor visitorTest (nodeVisitor visitorTest t)) l ->
  fromVisitor visitorTest (visitAll visitorTest l).
Proof.
  induction 1 as [|t l Ht _ IH]; intros r H; cbn [visitAll] in H.
  - discriminate.
  - destruct (nodeVisitor visitorTest t) as [r'|] eqn:E.
    + injection H as <-. now apply Ht.
    + now apply IH.
Qed.

Lemma nodeVisitor_fromVisitor (t : TokenResult) :
  fromVisitor visitorTest (nodeVisitor visitorTest t).
Proof.
  induction t as [f|loc text|loc text|loc text|loc text inner IH]
    using TokenResult_nested_ind; intros r H; cbn in H;
    match type of H with
    | context [visitorTest ?n] => destruct (visitorTest n) as [|r'|] eqn:E
    end;
    try discriminate;
    try (injection H as <-; eexists; exact E).
  - destruct (visitLeaf visitorTest (NKey (f_key f))) as [r'|] eqn:K.
    + injection H as <-. now apply (visitLeaf_fromVisitor _ _ K).
    + now apply (visitValue_fromVisitor (f_value f)).
  - apply visitAll_fromVisitor_list in IH. now apply IH.
Qed.

Lemma visitAll_fromVisitor (tree : list TokenResult) :
  fromVisitor visitorTest (visitAll visitorTest tree).
Proof.
  apply visitAll_fromVisitor_list, Forall_forall. intros t _.
  apply nodeVisitor_fromVisitor.
Qed.

(** A root token for which the visitor returns a result is not passed
    silently: the walk finds something. *)
Lemma visitAll_none_roots (tree : list TokenResult) (t : TokenResult) :
  visitAll visitorTest tree = None -> In t tree ->
  forall r, visitorTest (NRoot t) <> ReturnResult r.
Proof.
  induction tree as [|x tree IH]; intros H Hin r E; [contradiction|].
  cbn [visitAll] in H.
  destruct (nodeVisitor visitorTest x) as [r'|] eqn:X; [discriminate|].
  destruct Hin as [->|Hin]; [|now apply (IH H Hin r)].
  destruct t; cbn in X; rewrite E in X; discriminate.
Qed.

End LocatorProperties.

Lemma findTokensAtCursor_sound (matchedTokens : list Token) (c : Comp) (n : Node) :
  findTokensAtCursor matchedTokens c = Some n ->
  isWithinToken (node_location n) (cursorPosition c) = true
  /\ existsb (Token_eqb (node_type n)) matchedTokens = true.
Proof.
  unfold findTokensAtCursor, treeResultLocator.
  destruct (parsedQuery (state c)) as [tree|]; [|discriminate].
  match goal with
  | |- context [visitAll ?v tree] =>
      pose proof (visitAll_fromVisitor v tree) as F;
      destruct (visitAll v tree) as [found|]; [|discriminate]
  end.
  intros ->. destruct (F (Some n) eq_refl) as (node & E).
  cbv beta in E.
  destruct (existsb (Token_eqb (node_type node)) matchedTokens) eqn:K;
    [|discriminate].
  cbn [negb] in E.
  destruct (isWithinToken (node_location node) (cursorPosition c)) eqn:W;
    [|discriminate].
  injection E as ->. now split.
Qed.

(** X1.  The token the component takes to be under the cursor really is:
    [cursorToken] yields a filter or a free text whose range holds the
    cursor offset, [cursorValue] a text value whose range holds it; and
    when [cursorToken] yields nothing, no filter or free text at the root
    of the tree holds the cursor. *)
Theorem cursor_token_holds_the_cursor :
  forall (c : Comp),
    (forall t, cursorToken c = Some t ->
               isWithinToken (token_location t) (cursorPosition c) = true
               /\ (token_type t = Filter \/ token_type t = FreeText))
    /\ (forall v, cursorValue c = Some v ->
                  isWithinToken (vt_location v) (cursorPosition c) = true)
    /\ (cursorToken c = None ->
        forall tree t, parsedQuery (state c) = Some tree -> In t tree ->
                       token_type t = Filter \/ token_type t = FreeText ->
                       isWithinToken (token_location t) (cursorPosition c) = false).
Proof.
  intros c. split; [|split].
  - intros t H. unfold cursorToken in H.
    destruct (findTokensAtCursor [Filter; FreeText] c) as [[t'|k|v]|] eqn:E;
      try discriminate.
    injection H as ->.
    destruct (findTokensAtCursor_sound _ _ _ E) as [W K]. split; [exact W|].
    cbn in K. destruct (token_type t); cbn in K; try discriminate; auto.
  - intros v H. unfold cursorValue in H.
    destruct (findTokensAtCursor [ValueText] c) as [[t'|k|[v'|loc text items|loc text]]|] eqn:E;
      try discriminate.
    injection H as ->.
    now destruct (findTokensAtCursor_sound _ _ _ E) as [W _].
  - intros H tree t Hp Hin Hty. unfold cursorToken in H.
    destruct (findTokensAtCursor [Filter; FreeText] c) as [[t'|k|w]|] eqn:E;
      try discriminate.
    + destruct (findTokensAtCursor_sound _ _ _ E) as [_ K]. discriminate K.
    + destruct (findTokensAtCursor_sound _ _ _ E) as [_ K].
      destruct w; discriminate K.
    + unfold findTokensAtCursor, treeResultLocator in E. rewrite Hp in E.
      match type of E with
      | context [visitAll ?v tree] =>
          pose proof (visitAll_fromVisitor v tree) as F;
          destruct (visitAll v tree) as [found|] eqn:V
      end.
      * subst found. destruct (F None eq_refl) as (node & X). cbv beta in X.
        destruct (negb (existsb (Token_eqb (node_type node)) [Filter; FreeText]));
          [discriminate|].
        destruct (isWithinToken (node_location node) (cursorPosition c));
          discriminate.
      * pose proof (visitAll_none_roots _ tree t V Hin (Some (NRoot t))) as R.
        cbv beta in R. cbn [node_type node_location] in R.
        destruct (isWithinToken (token_location t) (cursorPosition c));
          [|reflexivity].
        exfalso. apply R.
        destruct Hty as [-> | ->]; reflexivity.
Qed.

Lemma cursor_token_holds_the_cursor_witness :
  isWithinToken (mkLoc 4 7) 5 = true
  /\ isWithinToken (mkLoc 6 7) 7 = true
  /\ isWithinToken (mkLoc 0 3) 9 = false.
Proof.
  split; [|split].
  - apply (proj1 (cursor_token_holds_the_cursor (onThreeFilters noProps 5))
             (TFilter (mkFilter (mkLoc 4 7) "b:2" Text false false
                         (mkKey (mkLoc 4 5) "b" "b") EmptyString
                         (VText (mkValueText (mkLoc 6 7) "2" false))))).
    reflexivity.
  - apply (proj1 (proj2 (cursor_token_holds_the_cursor (onThreeFilters noProps 7)))
             (mkValueText (mkLoc 6 7) "2" false)).
    reflexivity.
  - apply (proj2 (proj2 (cursor_token_holds_the_cursor
                          (mounted model noProps "a:1      " 9)))
             eq_refl
             [TFilter (mkFilter (mkLoc 0 3) "a:1" Text false false
                         (mkKey (mkLoc 0 1) "a" "a") EmptyString
                         (VText (mkValueText (mkLoc 2 3) "1" false)))]
             (TFilter (mkFilter (mkLoc 0 3) "a:1" Text false false
                         (mkKey (mkLoc 0 1) "a" "a") EmptyString
                         (VText (mkValueText (mkLoc 2 3) "1" false)))));
      [reflexivity | now left | now left].
Defined.

(* ================================================================== *)
(** ** The search term under the cursor *)

Lemma scanBack_spec (text : string) (fuel : nat) (i : Z) :
  0 <= i ->
  0 <= scanBack text fuel i <= i
  /\ forall j, scanBack text fuel i <= j < i ->
               isLimiterChar (JS.charAt text j) = false.
Proof.
  revert i; induction fuel as [|fuel IH]; intros i Hi; cbn [scanBack].
  - split; [lia | intros j Hj; lia].
  - destruct ((0 <? i) && negb (isLimiterChar (JS.charAt text (i - 1)))) eqn:E.
    + apply andb_true_iff in E as [E1 E2]. apply Z.ltb_lt in E1.
      apply negb_true_iff in E2.
      destruct (IH (i - 1)) as [B N]; [lia|]. split; [lia|].
      intros j Hj. destruct (Z.eq_dec j (i - 1)) as [->|]; [exact E2|].
      apply N. lia.
    + split; [lia | intros j Hj; lia].
Qed.

Lemma scanForward_spec (text : string) (fuel : nat) (i : Z) :
  i <= scanForward text fuel i
  /\ (i <= JS.length text -> scanForward text fuel i <= JS.length text)
  /\ forall j, i <= j < scanForward text fuel i ->
               isLimiterChar (JS.charAt text j) = false.
Proof.
  revert i; induction fuel as [|fuel IH]; intros i; cbn [scanForward].
  - repeat split; [lia | lia | intros j Hj; lia].
  - destruct ((i <? JS.length text) && negb (isLimiterChar (JS.charAt text i))) eqn:E.
    + apply andb_true_iff in E as [E1 E2]. apply Z.ltb_lt in E1.
      apply negb_true_iff in E2.
      destruct (IH (i + 1)) as (B & L & N). repeat split; [lia | lia |].
      intros j Hj. destruct (Z.eq_dec j i) as [->|]; [exact E2|].
      apply N. lia.
    + repeat split; [lia | lia | intros j Hj; lia].
Qed.

Lemma substring_allChars (p : ascii -> bool) (text : string) (a n : nat) :
  (forall k ch, (a <= k < a + n)%nat -> String.get k text = Some ch -> p ch = true) ->
  allChars p (String.substring a n text) = true.
Proof.
  revert a n; induction text as [|d text IH]; intros a n H.
  - destruct a, n; reflexivity.
  - destruct a as [|a]; [destruct n as [|n]|]; cbn [String.substring allChars].
    + reflexivity.
    + rewrite (H 0%nat d) by (try lia; reflexivity). cbn [andb].
      apply IH. intros k ch Hk G. apply (H (S k)); [lia | exact G].
    + apply IH. intros k ch Hk G. apply (H (S k)); [lia | exact G].
Qed.

Lemma allChars_hasChar (p : ascii -> bool) (ch : ascii) (s : string) :
  allChars p s = true -> p ch = false -> hasChar ch s = false.
Proof.
  intros H Hp. induction s as [|d s IH]; [reflexivity|].
  cbn in *. apply andb_true_iff in H as [H1 H2].
  destruct (Ascii.eqb_spec d ch) as [->|]; [congruence|]. now apply IH.
Qed.

Lemma drop_substring (s : string) (a n : nat) :
  JS.drop 1 (String.substring a (S n) s) = String.substring (S a) n s.
Proof.
  revert a; induction s as [|d s IH]; intros a.
  - destruct a, n; reflexivity.
  - destruct a as [|a].
    + cbn. now destruct s, n.
    + cbn [String.substring]. rewrite IH. reflexivity.
Qed.

Lemma hasChar_drop (ch : ascii) (s : string) :
  hasChar ch s = false -> hasChar ch (JS.drop 1 s) = false.
Proof.
  destruct s as [|d s]; [reflexivity|]. cbn.
  intros H. now apply orb_false_iff in H as [_ H].
Qed.

(** X2.  When the cursor is within the text of the token under it, the
    search term [cursorSearchTerm] computes lies inside the token and ends
    at or after the cursor; it is exactly the token's text between the
    offsets returned; and it holds neither a space nor a colon. *)
Theorem search_term_is_a_word_of_the_token :
  forall (c : Comp) (token : TokenResult),
    cursorToken c = Some token ->
    0 <= cursorPosition c - start_offset (token_location token)
      <= JS.length (token_text token) ->
    exists st : SearchTermAtCursor,
      cursorSearchTerm c = Some st
      /\ start_offset (token_location token) <= st_start st <= st_end st
      /\ st_end st <= start_offset (token_location token) + JS.length (token_text token)
      /\ cursorPosition c <= st_end st
      /\ st_searchTerm st
         = JS.slice (token_text token)
             (st_start st - start_offset (token_location token))
             (st_end st - start_offset (token_location token))
      /\ hasChar " " (st_searchTerm st) = false
      /\ hasChar ":" (st_searchTerm st) = false.
Proof.
  intros c token Htok Hin. unfold cursorSearchTerm. rewrite Htok.
  set (text := token_text token) in *.
  set (s := start_offset (token_location token)) in *.
  set (i := cursorPosition c - s) in *.
  destruct (scanBack_spec text (Z.to_nat i) i) as [Bt Nt]; [lia|].
  destruct (scanForward_spec text (Z.to_nat (JS.length text - i)) i) as (Be & Le & Ne).
  set (t := scanBack text (Z.to_nat i) i) in *.
  set (e := scanForward text (Z.to_nat (JS.length text - i)) i) in *.
  specialize (Le (proj2 Hin)).
  assert (S0 : JS.slice text t e
               = String.substring (Z.to_nat t) (Z.to_nat (e - t)) text)
    by (apply slice_in_range; lia).
  assert (A : allChars (fun ch => negb (isLimiterChar (Some ch)))
                       (JS.slice text t e) = true).
  { rewrite S0. apply substring_allChars. intros k ch Hk G.
    assert (N : isLimiterChar (JS.charAt text (Z.of_nat k)) = false).
    { destruct (Z_le_gt_dec i (Z.of_nat k)); [apply Ne | apply Nt]; lia. }
    unfold JS.charAt in N. destruct (Z.ltb_spec (Z.of_nat k) 0); [lia|].
    rewrite Nat2Z.id, G in N. now rewrite N. }
  assert (Hsp : hasChar " " (JS.slice text t e) = false)
    by (apply (allChars_hasChar _ _ _ A); reflexivity).
  assert (Hco : hasChar ":" (JS.slice text t e) = false)
    by (apply (allChars_hasChar _ _ _ A); reflexivity).
  eexists. split; [reflexivity|]. cbn [st_start st_end st_searchTerm].
  destruct (JS.startsWith (JS.slice text t e) NEGATION_OPERATOR) eqn:Neg.
  - assert (Lt : t < e).
    { destruct (Z.eq_dec t e) as [E|]; [|lia].
      rewrite S0, E, Z.sub_diag, substring_none in Neg. discriminate. }
    repeat split; try lia.
    + replace (s + (t + 1) - s) with (t + 1) by lia.
      replace (s + e - s) with e by lia.
      rewrite S0, slice_in_range by lia.
      replace (Z.to_nat (e - t)) with (S (Z.to_nat (e - (t + 1)))) by lia.
      rewrite drop_substring. f_equal. lia.
    + now apply hasChar_drop.
    + now apply hasChar_drop.
  - repeat split; try lia; try assumption.
    f_equal; lia.
Qed.

Lemma search_term_is_a_word_of_the_token_witness :
  exists st : SearchTermAtCursor,
    cursorSearchTerm (mounted model noProps "foo !lev bar" 6) = Some st
    /\ 4 <= st_start st <= st_end st
    /\ st_end st <= 4 + JS.length "!lev"
    /\ 6 <= st_end st
    /\ st_searchTerm st = JS.slice "!lev" (st_start st - 4) (st_end st - 4)
    /\ hasChar " " (st_searchTerm st) = false
    /\ hasChar ":" (st_searchTerm st) = false.
Proof.
  apply (search_term_is_a_word_of_the_token
           (mounted model noProps "foo !lev bar" 6)
           (TFreeText (mkLoc 4 8) "!lev")).
  - reflexivity.
  - vm_compute. split; discriminate.
Defined.

(* ================================================================== *)
(** ** Handlers that move the cursor or the highlight only *)

Lemma itemAt_In {A : Type} (l : list A) (i : Z) (x : A) :
  itemAt l i = Some x -> In x l.
Proof.
  unfold itemAt. destruct (i <? 0); [discriminate|]. apply nth_error_In.
Qed.

Lemma setSelection_frame (a b : Z) (c : Comp) :
  state (setSelection a b c) = state c
  /\ calls (setSelection a b c) = calls c
  /\ props (setSelection a b c) = props c.
Proof. unfold setSelection. destruct (searchInput c); repeat split. Qed.

Lemma moveToNextToken_spec (M : Imports) (fts : list FilterToken) (c : Comp) :
  query (state (moveToNextToken M fts c)) = query (state c)
  /\ parsedQuery (state (moveToNextToken M fts c)) = parsedQuery (state c)
  /\ calls (moveToNextToken M fts c) = calls c
  /\ (searchInput c = None \/ fts = [] -> moveToNextToken M fts c = c)
  /\ (searchInput c <> None -> fts <> [] ->
      exists f, In f fts
                /\ searchInput (moveToNextToken M fts c)
                   = Some (mkTextarea (end_offset (f_location f))
                                      (end_offset (f_location f)))).
Proof.
  unfold moveToNextToken.
  destruct (searchInput c) as [input|] eqn:E.
  2:{ repeat split; auto. intros H; now contradiction H. }
  destruct fts as [|first rest].
  { repeat split; auto. intros _ H; now contradiction H. }
  match goal with
  | |- context [setSelection ?o ?o c] => set (offset := o)
  end.
  unfold updateAutoCompleteItems.
  destruct (updateAutoCompleteFromAst_sameEditor M (setSelection offset offset c))
    as ((_ & Q & Pq & I) & Cl).
  destruct (setSelection_frame offset offset c) as (S1 & S2 & _).
  rewrite Q, Pq, Cl, S1, S2. repeat split.
  - intros [H|H]; discriminate.
  - intros _ _. rewrite I. unfold setSelection. rewrite E.
    assert (F : exists f, In f (first :: rest)
                          /\ offset = end_offset (f_location f)).
    { unfold offset. destruct (cursorToken c) as [token|].
      - match goal with
        | |- context [itemAt ?l ?i] => destruct (itemAt l i) as [next|] eqn:N
        end.
        + match goal with
          | |- context [negb ?b] => destruct (negb b)
          end.
          * exists next. split; [now apply itemAt_In in N | reflexivity].
          * exists first. split; [now left | reflexivity].
        + exists first. split; [now left | reflexivity].
      - exists first. split; [now left | reflexivity]. }
    destruct F as (f & Hin & ->). now exists f.
Qed.

(** X3.  Moving to the next or to the previous filter never edits the
    text: the query and its parse stay as they are and nothing is called
    outside.  Without text area or without filters nothing happens at all;
    otherwise the cursor lands, with an empty selection, on the end of one
    of the filters. *)
Theorem moving_between_filters_only_moves_the_cursor :
  forall (M : Imports) (P : Platform) (shortcut : Shortcut) (c : Comp),
    shortcutType shortcut = ShortcutNext
    \/ shortcutType shortcut = ShortcutPrevious ->
    let c' := runShortcut M P shortcut c in
    query (state c') = query (state c)
    /\ parsedQuery (state c') = parsedQuery (state c)
    /\ calls c' = calls c
    /\ (searchInput c = None \/ filterTokens c = [] -> c' = c)
    /\ (c' <> c ->
        exists f, In f (filterTokens c)
                  /\ searchInput c'
                     = Some (mkTextarea (end_offset (f_location f))
                                        (end_offset (f_location f)))).
Proof.
  intros M P shortcut c Hty c'. subst c'. unfold runShortcut.
  destruct (canRunShortcut shortcut (cursorToken c) (listLength (filterTokens c))).
  2:{ repeat split; auto. intros H; now contradiction H. }
  assert (G : forall fts,
             (forall f, In f fts -> In f (filterTokens c)) ->
             (filterTokens c = [] -> fts = []) ->
             query (state (moveToNextToken M fts c)) = query (state c)
             /\ parsedQuery (state (moveToNextToken M fts c)) = parsedQuery (state c)
             /\ calls (moveToNextToken M fts c) = calls c
             /\ (searchInput c = None \/ filterTokens c = [] ->
                 moveToNextToken M fts c = c)
             /\ (moveToNextToken M fts c <> c ->
                 exists f, In f (filterTokens c)
                           /\ searchInput (moveToNextToken M fts c)
                              = Some (mkTextarea (end_offset (f_location f))
                                                 (end_offset (f_location f))))).
  { intros fts Sub Emp.
    destruct (moveToNextToken_spec M fts c) as (A1 & A2 & A3 & A4 & A5).
    repeat split; auto.
    - intros [H|H]; apply A4; [now left | right; now apply Emp].
    - intros Hne.
      destruct (searchInput c) as [input|] eqn:E;
        [|contradiction Hne; apply A4; now left].
      destruct fts as [|x fts'];
        [contradiction Hne; apply A4; now right|].
      destruct A5 as (f & Hin & Hs); [discriminate | discriminate |].
      exists f. split; [now apply Sub | exact Hs]. }
  destruct Hty as [-> | ->].
  - apply G; auto.
  - apply G.
    + intros f Hf. now apply in_rev.
    + intros ->. reflexivity.
Qed.

Lemma moving_between_filters_only_moves_the_cursor_witness :
  let next := mkShortcut ShortcutNext (fun _ n => 0 <? n) in
  let c' := runShortcut model plainBrowser next (onThreeFilters noProps 5) in
  query (state c') = "a:1 b:2 c:3"
  /\ parsedQuery (state c') = parsedQuery (state (onThreeFilters noProps 5))
  /\ calls c' = []
  /\ (searchInput (onThreeFilters noProps 5) = None
      \/ filterTokens (onThreeFilters noProps 5) = [] ->
      c' = onThreeFilters noProps 5)
  /\ (c' <> onThreeFilters noProps 5 ->
      exists f, In f (filterTokens (onThreeFilters noProps 5))
                /\ searchInput c'
                   = Some (mkTextarea (end_offset (f_location f))
                                      (end_offset (f_location f)))).
Proof.
  intros next.
  apply (moving_between_filters_only_moves_the_cursor model plainBrowser next
           (onThreeFilters noProps 5)).
  left. reflexivity.
Defined.

(** From [b:2] the next filter is [c:3] and the previous one [a:1]; from
    the last filter the next one is the first. *)
Example next_and_previous_filter :
  let run t cursor :=
    cursorPosition
      (runShortcut model plainBrowser (mkShortcut t (fun _ n => 0 <? n))
         (onThreeFilters noProps cursor)) in
  run ShortcutNext 5 = 11 /\ run ShortcutPrevious 5 = 3
  /\ run ShortcutNext 11 = 3 /\ run ShortcutPrevious 3 = 11.
Proof. vm_compute. repeat split; reflexivity. Qed.

Lemma onKeyUp_spec (M : Imports) (key : string) (c : Comp) :
  let c' := onKeyUp M key c in
  query (state c') = query (state c)
  /\ parsedQuery (state c') = parsedQuery (state c)
  /\ searchInput c' = searchInput c
  /\ searchCalls (calls c') = searchCalls (calls c)
  /\ (key = "Escape" ->
      showDropdown (state c') = false
      /\ (showDropdown (state c) = true ->
          activeSearchItem (state c') = -1
          /\ calls c' = (calls c ++ [Call_preventDefault;
                                     Call_onClose (query (state c))])%list)).
Proof.
  unfold onKeyUp, updateAutoCompleteItems.
  destruct (updateAutoCompleteFromAst_sameEditor M c) as ((_ & Q & Pq & I) & Cl).
  destruct (String.eqb_spec key "Escape") as [->|Hne].
  - cbn [String.eqb Ascii.eqb Bool.eqb orb negb].
    change ("Escape" =? "ArrowLeft")%string with false.
    change ("Escape" =? "ArrowRight")%string with false.
    cbn [orb negb]. cbn [call state].
    destruct (showDropdown (state c)) eqn:D; cbn [negb].
    + cbn. rewrite !searchCalls_app. cbn. rewrite !app_nil_r.
      repeat split; auto. now rewrite <- app_assoc.
    + unfold blur, close. cbn.
      destruct (searchInput c) eqn:E; cbn; rewrite ?searchCalls_app; cbn;
        rewrite ?searchCalls_app; cbn; rewrite ?app_nil_r;
        repeat split; auto; discriminate.
  - cbn [negb].
    destruct (String.eqb key "ArrowLeft" || String.eqb key "ArrowRight");
      rewrite ?Q, ?Pq, ?I, ?Cl; repeat split; auto; contradiction.
Qed.

(** X4.  Releasing a key never edits the text, never moves the selection
    and never runs a search.  After Escape the dropdown is closed; when it
    was open the highlight is cleared and the host's close handler is told
    the current text. *)
Theorem key_release_never_edits :
  forall (M : Imports) (key : string) (c : Comp),
    let c' := onKeyUp M key c in
    query (state c') = query (state c)
    /\ parsedQuery (state c') = parsedQuery (state c)
    /\ searchInput c' = searchInput c
    /\ searchCalls (calls c') = searchCalls (calls c)
    /\ (key = "Escape" ->
        showDropdown (state c') = false
        /\ (showDropdown (state c) = true ->
            activeSearchItem (state c') = -1
            /\ calls c' = (calls c ++ [Call_preventDefault;
                                       Call_onClose (query (state c))])%list)).
Proof. intros M key c. apply onKeyUp_spec. Qed.

Lemma key_release_never_edits_witness :
  showDropdown (state (onKeyUp model "Escape"
                         (onKeyDown model "ArrowDown" threeSuggestions))) = false
  /\ activeSearchItem (state (onKeyUp model "Escape"
                                (onKeyDown model "ArrowDown" threeSuggestions)))
     = -1.
Proof.
  destruct (key_release_never_edits model "Escape"
              (onKeyDown model "ArrowDown" threeSuggestions))
    as (_ & _ & _ & _ & H).
  destruct (H eq_refl) as [H1 H2]. split; [exact H1|].
  apply H2. reflexivity.
Defined.

(* ================================================================== *)
(** ** Tag keys and predefined values *)








Lemma mapIndexed_values {A : Type} (f : A -> Z -> SearchItem) (g : A -> option string)
      (l : list A) (k : Z) :
  (forall x i, item_value (f x i) = g x) ->
  map item_value (mapIndexed f l k) = map g l.
Proof.
  intros H. revert k; induction l as [|x l IH]; intros k; cbn; [reflexivity|].
  now rewrite H, IH.
Qed.

Lemma mapIndexed_nth {A B : Type} (f : A -> Z -> B) (l : list A) (k : Z) (i : nat) (y : B) :
  nth_error (mapIndexed f l k) i = Some y ->
  exists x, nth_error l i = Some x /\ y = f x (k + Z.of_nat i).
Proof.
  revert k i; induction l as [|x l IH]; intros k i H.
  - destruct i; discriminate.
  - destruct i as [|i]; cbn in H.
    + injection H as <-. exists x. split; [reflexivity|]. f_equal. lia.
    + destruct (IH _ _ H) as (x' & Hx & ->). exists x'. split; [exact Hx|].
      f_equal. lia.
Qed.

Lemma filter_all {A : Type} (p : A -> bool) (l : list A) :
  (forall x, p x = true) -> filter p l = l.
Proof.
  intros H. induction l as [|x l IH]; cbn; [reflexivity|]. now rewrite H, IH.
Qed.

Lemma indexOf_empty (s : string) : JS.indexOf s EmptyString = 0.
Proof. unfold JS.indexOf. now destruct s. Qed.

(** X6.  The predefined values of a tag are suggested in the order they
    are given, escaped, and only those that contain the query: with an
    empty query all of them, for a tag without values none.  The
    suggestion at position [i] is exempt from the cap on the number of
    items exactly when the tag has a non-zero [maxSuggestedValues] above
    [i]. *)
Theorem predefined_values_are_filtered_in_order :
  forall (tag : Tag) (query0 : string),
    map item_value (getPredefinedTagValues tag query0)
    = map (fun v => Some (escapeValue v))
          (filter (fun v => -1 <? JS.indexOf v query0) (orEmpty (tag_values tag)))
    /\ map item_value (getPredefinedTagValues tag EmptyString)
       = map (fun v => Some (escapeValue v)) (orEmpty (tag_values tag))
    /\ (tag_values tag = None -> getPredefinedTagValues tag query0 = [])
    /\ (forall (i : nat) (item : SearchItem),
           nth_error (getPredefinedTagValues tag query0) i = Some item ->
           ignoreMaxSearchItems item
           = Some (match maxSuggestedValues tag with
                   | Some m => negb (m =? 0) && (Z.of_nat i <? m)
                   | None => false
                   end)).
Proof.
  intros tag query0.
  assert (A : forall q,
             map item_value (getPredefinedTagValues tag q)
             = map (fun v => Some (escapeValue v))
                   (filter (fun v => -1 <? JS.indexOf v q) (orEmpty (tag_values tag)))).
  { intros q. unfold getPredefinedTagValues.
    rewrite (mapIndexed_values _ (fun v => Some (escapeValue v))) by reflexivity.
    now destruct (tag_values tag). }
  split; [apply A|]. split; [|split].
  - rewrite A. rewrite filter_all; [reflexivity|].
    intros v. now rewrite indexOf_empty.
  - intros H. unfold getPredefinedTagValues. now rewrite H.
  - intros i item H. unfold getPredefinedTagValues in H.
    apply mapIndexed_nth in H as (v & _ & ->). cbn.
    unfold truthy. destruct (maxSuggestedValues tag) as [m|]; [|reflexivity].
    now destruct (m =? 0).
Qed.

Lemma predefined_values_are_filtered_in_order_witness :
  getPredefinedTagValues (mkTag "os" None true (Some 1)) "x" = []
  /\ ignoreMaxSearchItems (tagValueItem (escapeValue "mac os") (Some false))
     = Some (negb (1 =? 0) && (Z.of_nat 1 <? 1)).
Proof.
  split.
  - apply (proj1 (proj2 (proj2 (predefined_values_are_filtered_in_order
                                  (mkTag "os" None true (Some 1)) "x")))).
    reflexivity.
  - apply (proj2 (proj2 (proj2 (predefined_values_are_filtered_in_order
                                  (mkTag "os" (Some ["linux"; "mac os"]) true (Some 1))
                                  EmptyString)))
             1%nat).
    reflexivity.
Defined.

(* ================================================================== *)
(** ** Remote values and the marker of a query without values *)

(** X7.  The function that [getTagValues] debounces keeps a marker of the
    last query that had no values.  When a run of it has been answered
    with no value for a query that is not empty, the marker is that query
    and the loading mark is off; a later run whose query starts with the
    marker returns at once: nothing is requested, the loading mark is not
    set and the component is left as it is.  When a run has been answered
    with values, the marker is cleared.  (For the key [release:] the value
    [latest] is always there, so the marker is never set.) *)
Theorem empty_lookup_stops_longer_lookups :
  forall (tag : TagEntry) (query1 query2 : string) (r : Response) (c : Comp),
    onGetTagValues (props c) = true ->
    let q1 := JS.trim (JS.replaceAllChar query1 JS.dquote EmptyString) in
    let q2 := JS.trim (JS.replaceAllChar query2 JS.dquote EmptyString) in
    let c1 := fst (getTagValues_resumed tag q1 true r c) in
    (resp_values r = Some [] -> entry_key tag <> Some "release:" -> q1 <> EmptyString ->
     noValueQuery (state c1) = Some q1
     /\ loading (state c1) = false
     /\ snd (getTagValues_resumed tag q1 true r c) = []
     /\ (JS.startsWith q2 q1 = true ->
         getTagValues tag query2 c1 = (c1, RemoteValues tag q2 false)))
    /\ (forall v vs, resp_values r = Some (v :: vs) ->
        noValueQuery (state c1) = None /\ loading (state c1) = false).
Proof.
  intros tag query1 query2 r c Hon q1 q2 c1. split.
  - intros Hr Hk Hq. subst c1. unfold getTagValues_resumed. rewrite Hr.
    assert (K : match entry_key tag with
                | Some key => String.eqb key "release:"
                | None => false
                end = false).
    { destruct (entry_key tag) as [key|]; [|reflexivity].
      destruct (String.eqb_spec key "release:") as [->|]; [now contradiction Hk|].
      reflexivity. }
    rewrite K. cbn [andb]. cbn [listLength List.length Z.of_nat Z.eqb andb fst snd map].
    assert (L : (0 <? JS.length q1) = true).
    { apply Z.ltb_lt. unfold JS.length. destruct q1; [contradiction|].
      cbn [String.length]. lia. }
    rewrite L. repeat split.
    intros Hs. unfold getTagValues. cbn. rewrite Hon. cbn [negb]. fold q2.
    now rewrite Hs.
  - intros v vs Hr. subst c1. unfold getTagValues_resumed. rewrite Hr.
    assert (N : forall values : list string,
               values <> [] -> (listLength values =? 0) = false).
    { intros [|x l] H; [contradiction|]. unfold listLength. cbn [List.length].
      apply Z.eqb_neq. lia. }
    destruct (match entry_key tag with
              | Some key => String.eqb key "release:"
              | None => false
              end && negb (existsb (String.eqb "latest") (v :: vs)));
      rewrite N by discriminate; cbn [andb fst]; split; reflexivity.
Qed.

Lemma empty_lookup_stops_longer_lookups_witness :
  let tag := OwnTag (mkTag "level" None false None) in
  let c := mounted model tagProps "level:zz" 8 in
  let c1 := fst (getTagValues_resumed tag "zz" true
                   (mkResponse (Some []) (Some []) [] true) c) in
  noValueQuery (state c1) = Some "zz"
  /\ getTagValues tag "zzz" c1 = (c1, RemoteValues tag "zzz" false).
Proof.
  intros tag c c1.
  destruct (proj1 (empty_lookup_stops_longer_lookups tag "zz" "zzz"
                     (mkResponse (Some []) (Some []) [] true) c eq_refl)
              eq_refl ltac:(discriminate) ltac:(discriminate))
    as (A & _ & _ & B).
  split; [exact A | apply B; reflexivity].
Defined.

(* ================================================================== *)
(** ** Saving a recent search *)

Lemma saveCalls_app (a b : list Call) :
  saveCalls (a ++ b)%list = (saveCalls a ++ saveCalls b)%list.
Proof. apply flat_map_app. Qed.

Lemma blur_frame (c : Comp) :
  hasValidSearch (blur c) = hasValidSearch c
  /\ query (state (blur c)) = query (state c)
  /\ parsedQuery (state (blur c)) = parsedQuery (state c)
  /\ props (blur c) = props c
  /\ pending (blur c) = pending c
  /\ saveCalls (calls (blur c)) = saveCalls (calls c)
  /\ searchCalls (calls (blur c)) = searchCalls (calls c).
Proof.
  unfold blur, close. destruct (searchInput c); cbn.
  - rewrite saveCalls_app, searchCalls_app. cbn. rewrite !app_nil_r.
    repeat split.
  - repeat split.
Qed.

(** Whether [doSearch] goes on to save the query: it is valid, a saved
    search type is configured and the text is not empty. *)
Lemma doSearch_saves (M : Imports) (c : Comp) :
  let q := removeSpace M (query (state c)) in
  let saves :=
    hasValidSearch c
    && match savedSearchType (props c) with Some _ => true | None => false end
    && negb (isEmpty q) in
  saveCalls (calls (doSearch M c))
  = (saveCalls (calls c) ++ (if saves then [q] else []))%list
  /\ pending (doSearch M c)
     = (pending c ++ (if saves then [AwaitSaveRecentSearch q] else []))%list.
Proof.
  unfold doSearch.
  destruct (blur_frame c) as (V & Qu & _ & Pr & Pe & Sa & _).
  rewrite V, Qu. destruct (hasValidSearch c); cbn [negb andb]; cbv iota.
  - cbn [props call suspend]. rewrite Pr.
    destruct (savedSearchType (props c)); cbn [andb].
    + destruct (isEmpty (removeSpace M (query (state c)))); cbn;
        rewrite ?saveCalls_app, Pe; cbn; rewrite ?saveCalls_app, Sa; cbn;
        rewrite ?app_nil_r; split; reflexivity.
    + cbn. rewrite ?saveCalls_app, Pe. cbn. rewrite ?saveCalls_app, Sa. cbn.
      rewrite !app_nil_r. split; reflexivity.
  - rewrite Pe, Sa, !app_nil_r. split; reflexivity.
Qed.

(** X8.  [doSearch] saves the query as a recent search exactly when the
    query is valid, a saved-search type is configured and the text handed
    to the search callback is not empty: then, and only then, one save is
    requested, for that same text, and one continuation is left waiting
    for it.  In particular an empty query is never saved.  When the save
    has succeeded the host's callback, if there is one, is called with
    that text; when it has failed the exception is reported and nothing
    else happens. *)
Theorem recent_search_is_saved_once_and_only_if_not_empty :
  forall (M : Imports) (c : Comp),
    let q := removeSpace M (query (state c)) in
    let saves :=
      hasValidSearch c
      && match savedSearchType (props c) with Some _ => true | None => false end
      && negb (isEmpty q) in
    saveCalls (calls (doSearch M c))
    = (saveCalls (calls c) ++ (if saves then [q] else []))%list
    /\ pending (doSearch M c)
       = (pending c ++ (if saves then [AwaitSaveRecentSearch q] else []))%list
    /\ (q = EmptyString -> saveCalls (calls (doSearch M c)) = saveCalls (calls c))
    /\ (forall (r : Response) (c' : Comp),
           state (resume M (AwaitSaveRecentSearch q) r c') = state c'
           /\ calls (resume M (AwaitSaveRecentSearch q) r c')
              = (calls c'
                 ++ (if resp_saved r
                     then (if hasOnSavedRecentSearch (props c')
                           then [Call_onSavedRecentSearch q] else [])
                     else [Call_captureException]))%list).
Proof.
  intros M c q saves. destruct (doSearch_saves M c) as [A B].
  split; [exact A|]. split; [exact B|]. split.
  - intros E. rewrite A. fold q. rewrite E. cbn.
    rewrite andb_false_r. now rewrite app_nil_r.
  - intros r c'. cbn [resume].
    destruct (resp_saved r); [destruct (hasOnSavedRecentSearch (props c'))|];
      cbn; rewrite ?app_nil_r; split; reflexivity.
Qed.

Lemma recent_search_is_saved_once_and_only_if_not_empty_witness :
  saveCalls (calls (doSearch model (mounted model savingProps "   " 0))) = [].
Proof.
  apply (proj1 (proj2 (proj2 (recent_search_is_saved_once_and_only_if_not_empty
                                model (mounted model savingProps "   " 0))))).
  reflexivity.
Defined.

(** X9.  Clearing the search empties the text and hands the empty text to
    the search callback whether or not the text before was valid; it
    closes the dropdown, saves nothing and leaves nothing waiting. *)
Theorem clearing_the_search_submits_the_empty_text :
  forall (M : Imports) (c : Comp),
    let c' := clearSearch M c in
    query (state c') = EmptyString
    /\ parsedQuery (state c') = parseSearch M EmptyString
    /\ showDropdown (state c') = false
    /\ searchCalls (calls c') = (searchCalls (calls c) ++ [EmptyString])%list
    /\ saveCalls (calls c') = saveCalls (calls c)
    /\ pending c' = pending c
    /\ (hasValidSearch c = false ->
        searchCalls (calls (doSearch M c)) = searchCalls (calls c)).
Proof.
  intros M c c'. subst c'. unfold clearSearch, close.
  destruct (commitValue_rest (query (state c))
              (setState (makeQueryState M EmptyString) c)) as (_ & S & C & Pe).
  cbn [call setState state calls pending]. rewrite S, C, Pe. cbn.
  rewrite !searchCalls_app, !saveCalls_app. cbn. rewrite !app_nil_r.
  repeat split.
  intros H. rewrite doSearch_calls, H. now rewrite app_nil_r.
Qed.

Lemma clearing_the_search_submits_the_empty_text_witness :
  searchCalls (calls (doSearch model invalidInGroup)) = []
  /\ searchCalls (calls (clearSearch model invalidInGroup)) = [EmptyString].
Proof.
  destruct (clearing_the_search_submits_the_empty_text model invalidInGroup)
    as (_ & _ & _ & S & _ & _ & D).
  split; [apply D; reflexivity | exact S].
Defined.

(** X10.  Accepting a recent search replaces the whole text by it and
    submits at once: the new text is the search chosen, and the search
    callback is called with it exactly when it parses without an invalid
    filter (or does not parse). *)
Theorem recent_search_replaces_the_text_and_submits :
  forall (M : Imports) (replaceText : string) (item : SearchItem) (c : Comp),
    item_type item = RECENT_SEARCH ->
    let c' := onAutoComplete M replaceText item c in
    query (state c') = replaceText
    /\ parsedQuery (state c') = parseSearch M replaceText
    /\ searchCalls (calls c')
       = (searchCalls (calls c)
          ++ (if hasValidSearch (setState (makeQueryState M replaceText) c)
              then [removeSpace M replaceText] else []))%list.
Proof.
  intros M replaceText item c Hty c'. subst c'. unfold onAutoComplete.
  rewrite Hty. cbn [ItemType_eqb].
  match goal with
  | |- context [doSearch M ?x] => set (c1 := x)
  end.
  assert (S1 : state c1 = makeQueryState M replaceText (state c)
               /\ calls c1 = (calls c ++ [Call_trackAnalytics "search.searched"])%list).
  { subst c1.
    match goal with
    | |- context [commitValue ?d ?x] =>
        destruct (commitValue_rest d x) as (_ & S & C & _)
    end.
    rewrite S, C. split; reflexivity. }
  destruct S1 as [S1 C1].
  assert (Q : query (state (doSearch M c1)) = replaceText
              /\ parsedQuery (state (doSearch M c1)) = parseSearch M replaceText).
  { unfold doSearch. destruct (blur_frame c1) as (_ & Qu & Pa & _).
    destruct (negb (hasValidSearch (blur c1))).
    - rewrite Qu, Pa, S1. split; reflexivity.
    - destruct (savedSearchType _); [destruct (isEmpty _)|]; cbn;
        rewrite Qu, Pa, S1; split; reflexivity. }
  destruct Q as [Q1 Q2]. split; [exact Q1|]. split; [exact Q2|].
  rewrite doSearch_calls, C1, searchCalls_app.
  unfold hasValidSearch. rewrite S1. cbn. now rewrite app_nil_r.
Qed.

Lemma recent_search_replaces_the_text_and_submits_witness :
  let c' := onAutoComplete model "level:error "
              (mkItem (Some "level:error ") None RECENT_SEARCH None None false)
              (mounted model noProps "a:1" 3) in
  query (state c') = "level:error "
  /\ parsedQuery (state c') = parseSearch model "level:error "
  /\ searchCalls (calls c')
     = ([] ++ (if hasValidSearch
                    (setState (makeQueryState model "level:error ")
                              (mounted model noProps "a:1" 3))
               then [removeSpace model "level:error "] else []))%list.
Proof.
  intros c'.
  apply (recent_search_replaces_the_text_and_submits model "level:error "
           (mkItem (Some "level:error ") None RECENT_SEARCH None None false)
           (mounted model noProps "a:1" 3)).
  reflexivity.
Defined.

(* ================================================================== *)
(** ** Keys pressed in the text area *)

Lemma updateQuery_calls (M : Imports) (newQuery : string) (pos : option Z) (c : Comp) :
  calls (updateQuery M newQuery pos c) = (calls c ++ [Call_onChange newQuery])%list.
Proof.
  unfold updateQuery, updateAutoCompleteItems.
  match goal with
  | |- context [updateAutoCompleteFromAst M ?x] =>
      destruct (updateAutoCompleteFromAst_sameEditor M x) as (_ & H)
  end.
  cbn [call calls]. rewrite H.
  destruct (commitValue_rest (query (state c))
              (setState (makeQueryState M newQuery) c)) as (_ & _ & C & _).
  destruct pos as [p|]; [destruct (negb (p =? 0))|];
    rewrite ?(proj1 (proj2 (proj2 (setSelection_rest p p _)))), C; reflexivity.
Qed.

(** The component once [onKeyDown] has told the host and opened the
    dropdown: the same text, parse and selection. *)
Lemma cursorToken_frame (a b : Comp) :
  parsedQuery (state a) = parsedQuery (state b) ->
  searchInput a = searchInput b ->
  cursorToken a = cursorToken b /\ cursorPosition a = cursorPosition b.
Proof.
  intros H1 H2. unfold cursorToken, findTokensAtCursor, cursorPosition.
  rewrite H1, H2. split; reflexivity.
Qed.

(** X11.  Typing an opening bracket right after the colon of a filter
    whose value is still empty starts a list: the text becomes the text up
    to and including the colon, then a pair of brackets, then, when
    anything follows the character after the value, one space and what
    follows; the cursor is put between the brackets, the key press is
    cancelled and the host is told of the change. *)
Theorem opening_bracket_starts_a_list :
  forall (M : Imports) (c : Comp) (f : FilterToken),
    cursorToken c = Some (TFilter f) ->
    value_text (f_value f) = EmptyString ->
    0 <= start_offset (value_location (f_value f)) ->
    isWithinToken (value_location (f_value f)) (cursorPosition c) = true ->
    let q := query (state c) in
    let before := JS.substring q 0 (end_offset (key_location (f_key f)) + 1) in
    let rest := JS.substringFrom q (end_offset (value_location (f_value f)) + 1) in
    let c' := onKeyDown M "[" c in
    query (state c')
    = before ++ "[]" ++ (if isEmpty rest then EmptyString else " " ++ rest)
    /\ searchInput c'
       = Some (mkTextarea (JS.length before + 1) (JS.length before + 1))
    /\ calls c'
       = (calls c
          ++ [Call_onKeyDown "["; Call_preventDefault;
              Call_onChange (query (state c'))])%list.
Proof.
  intros M c f Hc Ht H0 Hw q before rest c'. subst c'.
  assert (Hin : searchInput c <> None).
  { exact (within_has_input c _ H0 Hw). }
  unfold onKeyDown.
  change (String.eqb "[" "Escape") with false.
  change (String.eqb "[" "ArrowDown") with false.
  change (String.eqb "[" "ArrowUp") with false.
  change (String.eqb "[" "Tab") with false.
  change (String.eqb "[" "Enter") with false.
  change (String.eqb "[" "[") with true.
  cbn [orb andb negb]. cbv zeta. cbv iota.
  set (c1 := if negb (showDropdown (state (call (Call_onKeyDown "[") c))) && true
             then open (call (Call_onKeyDown "[") c)
             else call (Call_onKeyDown "[") c).
  assert (F : parsedQuery (state c1) = parsedQuery (state c)
              /\ searchInput c1 = searchInput c
              /\ query (state c1) = query (state c)
              /\ calls c1 = (calls c ++ [Call_onKeyDown "["])%list).
  { subst c1. destruct (negb _ && true); cbn; repeat split; reflexivity. }
  destruct F as (F1 & F2 & F3 & F4).
  destruct (cursorToken_frame c1 c F1 F2) as [T1 T2].
  rewrite T1, Hc, T2, Hw, Ht.
  change (JS.length EmptyString =? 0) with true. cbn [andb]. cbv iota.
  rewrite F3. fold q. fold before. fold rest.
  change (JS.length "[]") with 2.
  replace (if isEmpty rest then rest else " " ++ rest)
    with (if isEmpty rest then EmptyString else " " ++ rest)
    by (destruct rest; reflexivity).
  replace (JS.length before + 2 - 1) with (JS.length before + 1) by lia.
  split; [apply updateQuery_query|].
  split.
  - apply updateQuery_cursor.
    + cbn. rewrite F2. exact Hin.
    + pose proof (length_nonneg before). lia.
  - rewrite (proj1 (updateQuery_query M _ _ _)).
    rewrite updateQuery_calls. cbn [call calls]. rewrite F4, <- !app_assoc.
    reflexivity.
Qed.

Lemma opening_bracket_starts_a_list_witness :
  let c' := onKeyDown model "[" (mounted model noProps "user: a:1" 5) in
  query (state c') = "user:[] a:1"
  /\ searchInput c' = Some (mkTextarea 6 6)
  /\ calls c'
     = [Call_onKeyDown "["; Call_preventDefault; Call_onChange (query (state c'))].
Proof.
  intros c'.
  exact (opening_bracket_starts_a_list model (mounted model noProps "user: a:1" 5)
           (mkFilter (mkLoc 0 5) "user:" Text false false
              (mkKey (mkLoc 0 4) "user" "user") EmptyString
              (VText (mkValueText (mkLoc 5 5) EmptyString false)))
           eq_refl eq_refl ltac:(cbn; lia) eq_refl).
Defined.

Lemma onAutoCompleteFromAst_searchCalls (M : Imports) (replaceText : string)
      (item : SearchItem) (c : Comp) :
  searchCalls (calls (onAutoCompleteFromAst M replaceText item c))
  = searchCalls (calls c).
Proof.
  unfold onAutoCompleteFromAst.
  destruct (cursorToken c) as [t|].
  - destruct t as [f| | | |].
    + destruct (filterClause f replaceText item c) as [[[a b]|] tok];
        destruct (ItemType_eqb (item_type item) TAG_OPERATOR);
        rewrite ?updateQuery_calls; cbn; rewrite ?searchCalls_app; cbn;
        rewrite ?app_nil_r; reflexivity.
    + destruct (cursorSearchTerm c);
        rewrite ?updateQuery_calls, ?searchCalls_app; cbn;
        rewrite ?app_nil_r; reflexivity.
    + reflexivity.
    + reflexivity.
    + reflexivity.
  - rewrite updateQuery_calls, searchCalls_app. cbn. apply app_nil_r.
Qed.

Ltac key_tests := cbn [String.eqb Ascii.eqb Bool.eqb andb orb negb].

(** What [onKeyDown] has done before it looks at the key: the host is
    told, and the dropdown is opened unless the key is Escape. *)
Ltac key_down_opened key c c1 F :=
  set (c1 := if negb (showDropdown (state (call (Call_onKeyDown key) c))) && true
             then open (call (Call_onKeyDown key) c)
             else call (Call_onKeyDown key) c);
  assert (F : (parsedQuery (state c1) = parsedQuery (state c)
               /\ searchInput c1 = searchInput c
               /\ query (state c1) = query (state c)
               /\ props c1 = props c)
              /\ (activeSearchItem (state c1) = activeSearchItem (state c)
                  /\ flatSearchItems (state c1) = flatSearchItems (state c)
                  /\ searchGroups (state c1) = searchGroups (state c))
              /\ calls c1 = (calls c ++ [Call_onKeyDown key])%list
              /\ pending c1 = pending c)
    by (subst c1; destruct (negb _ && true); cbn; repeat split; reflexivity).

Lemma hasValidSearch_frame (a b : Comp) :
  parsedQuery (state a) = parsedQuery (state b) ->
  hasValidSearch a = hasValidSearch b.
Proof. intros H. unfold hasValidSearch. now rewrite H. Qed.

(** X12.  With no suggestion highlighted, Tab closes the dropdown, tells
    the host so and searches nothing; Enter submits the text as [doSearch]
    does, so the search callback is called exactly when the text is
    valid.  Neither key changes the text. *)
Theorem tab_closes_and_enter_submits_when_nothing_is_highlighted :
  forall (M : Imports) (c : Comp),
    activeSearchItem (state c) = -1 ->
    (calls (onKeyDown M "Tab" c)
     = (calls c ++ [Call_onKeyDown "Tab"; Call_onClose (query (state c))])%list
     /\ showDropdown (state (onKeyDown M "Tab" c)) = false
     /\ query (state (onKeyDown M "Tab" c)) = query (state c)
     /\ pending (onKeyDown M "Tab" c) = pending c)
    /\ (searchCalls (calls (onKeyDown M "Enter" c))
        = (searchCalls (calls c)
           ++ (if hasValidSearch c then [removeSpace M (query (state c))] else []))%list
        /\ query (state (onKeyDown M "Enter" c)) = query (state c)).
Proof.
  intros M c Ha. split.
  - unfold onKeyDown. key_tests. cbv zeta.
    key_down_opened "Tab" c c1 F.
    destruct F as ((F1 & F2 & F3 & F4) & (G1 & G2 & G3) & F5 & F6).
    cbn [call state]. rewrite Ha. cbn [Z.eqb negb andb]. cbv iota.
    change (-1 =? -1) with true. cbn [negb andb]. cbv iota.
    unfold close. cbn. rewrite F3, F5, F6, <- app_assoc. repeat split.
  - unfold onKeyDown. key_tests. cbv zeta.
    key_down_opened "Enter" c c1 F.
    destruct F as ((F1 & F2 & F3 & F4) & (G1 & G2 & G3) & F5 & F6).
    cbn [call state]. rewrite Ha.
    change (-1 =? -1) with true. cbn [negb andb]. cbv iota.
    split.
    + rewrite doSearch_calls, (hasValidSearch_frame c1 c F1), F3, F5.
      rewrite searchCalls_app. cbn. now rewrite app_nil_r.
    + unfold doSearch. destruct (blur_frame c1) as (_ & Qu & _).
      destruct (negb (hasValidSearch (blur c1))); [now rewrite Qu|].
      destruct (savedSearchType _); [destruct (isEmpty _)|]; cbn;
        now rewrite Qu.
Qed.

Lemma tab_closes_and_enter_submits_when_nothing_is_highlighted_witness :
  searchCalls (calls (onKeyDown model "Enter" (mounted model noProps "a:1 " 4)))
  = ["a:1"]
  /\ searchCalls (calls (onKeyDown model "Tab" (mounted model noProps "a:1 " 4)))
     = [].
Proof.
  destruct (tab_closes_and_enter_submits_when_nothing_is_highlighted model
              (mounted model noProps "a:1 " 4) eq_refl)
    as ((T & _) & (E & _)).
  split; [exact E | rewrite T; reflexivity].
Defined.

(** X13.  With a suggestion highlighted, Tab and Enter accept it and
    never submit on their own: an item with a callback has its callback
    run and nothing else happens to the text; an item that is not a
    recent search edits the text without calling the search callback; and
    when the highlight index is set but no group is shown, the key does
    nothing at all, so that Enter does not search. *)
Theorem tab_and_enter_accept_the_highlighted_item :
  forall (M : Imports) (key : string) (c : Comp),
    key = "Tab" \/ key = "Enter" ->
    activeSearchItem (state c) <> -1 ->
    (searchGroups (state c) = [] ->
     searchCalls (calls (onKeyDown M key c)) = searchCalls (calls c)
     /\ query (state (onKeyDown M key c)) = query (state c))
    /\ (forall item : SearchItem,
           searchGroups (state c) <> [] ->
           itemAt (flatSearchItems (state c)) (activeSearchItem (state c))
           = Some item ->
           (forall cb, item_callback item = Some cb ->
                  calls (onKeyDown M key c)
                  = (calls c ++ [Call_onKeyDown key; Call_preventDefault;
                                 Call_itemCallback cb])%list
                  /\ query (state (onKeyDown M key c)) = query (state c))
           /\ (item_type item <> RECENT_SEARCH ->
               searchCalls (calls (onKeyDown M key c)) = searchCalls (calls c))).
Proof.
  intros M key c Hk Ha.
  assert (A : negb (activeSearchItem (state c) =? -1) = true).
  { destruct (Z.eqb_spec (activeSearchItem (state c)) (-1)); [contradiction|reflexivity]. }
  assert (K : (String.eqb key "Tab" || String.eqb key "Enter") = true
              /\ String.eqb key "Escape" = false
              /\ (String.eqb key "ArrowDown" || String.eqb key "ArrowUp") = false
              /\ String.eqb key "[" = false).
  { destruct Hk as [-> | ->]; repeat split. }
  destruct K as (K1 & K2 & K3 & K4).
  unfold onKeyDown. rewrite K1, K2, K3. change (negb false) with true. cbv zeta.
  key_down_opened key c c1 F.
  destruct F as ((F1 & F2 & F3 & F4) & (G1 & G2 & G3) & F5 & F6).
  cbn [call state]. rewrite A. cbn [negb andb]. rewrite !andb_false_r. cbv iota.
  split.
  - intros Hg. rewrite Hg. change (0 <? listLength []) with false. cbv iota.
    rewrite K4. cbn [andb].
    destruct (cursorToken c1) as [[]|]; cbv iota; rewrite F3, F5, searchCalls_app;
      cbn; rewrite app_nil_r; split; reflexivity.
  - intros item Hg Hi.
    assert (G : (0 <? listLength (searchGroups (state c))) = true).
    { apply Z.ltb_lt. unfold listLength.
      destruct (searchGroups (state c)); [contradiction | cbn; lia]. }
    rewrite G. cbv iota. cbn [call state]. rewrite G1, G2, Hi.
    split.
    + intros cb Hcb. rewrite Hcb. cbn. rewrite F3, F5, <- !app_assoc.
      split; reflexivity.
    + intros Hty.
      destruct (item_callback item).
      * cbn. rewrite !searchCalls_app, F5, searchCalls_app. cbn.
        now rewrite !app_nil_r.
      * unfold onAutoComplete.
        destruct (item_type item) eqn:E; try (exfalso; apply Hty; reflexivity);
          cbn [ItemType_eqb]; rewrite onAutoCompleteFromAst_searchCalls; cbn;
          rewrite !searchCalls_app, F5, searchCalls_app; cbn;
          now rewrite !app_nil_r.
Qed.

Lemma tab_and_enter_accept_the_highlighted_item_witness :
  calls (onKeyDown model "Enter" docsHighlighted)
  = [Call_onKeyDown "Enter"; Call_preventDefault; Call_itemCallback OpenSearchDocs]
  /\ query (state (onKeyDown model "Enter" docsHighlighted)) = "a:1".
Proof.
  assert (A : activeSearchItem (state docsHighlighted) <> -1) by (cbn; lia).
  assert (G : searchGroups (state docsHighlighted) <> []) by discriminate.
  exact (proj1 (proj2 (tab_and_enter_accept_the_highlighted_item model "Enter"
                         docsHighlighted (or_intror eq_refl) A)
                  docsItem G eq_refl)
           OpenSearchDocs eq_refl).
Defined.

(* ================================================================== *)
(** ** Accepting a suggestion: the other branches *)

Lemma not_operator (item : SearchItem) :
  item_type item <> TAG_OPERATOR ->
  ItemType_eqb (item_type item) TAG_OPERATOR = false.
Proof. intros H. destruct (item_type item); try reflexivity. now contradiction H. Qed.

(** X14.  A key suggestion accepted with the cursor on the key of a
    filter replaces the key together with the one character after it, the
    separator, and nothing of the value; the cursor is put right after the
    text inserted. *)
Theorem key_suggestion_replaces_the_key_and_its_separator :
  forall (M : Imports) (c : Comp) (f : FilterToken)
         (replaceText : string) (item : SearchItem),
    cursorToken c = Some (TFilter f) ->
    item_type item <> TAG_OPERATOR ->
    isWithinToken (value_location (f_value f)) (cursorPosition c) = false ->
    isWithinToken (key_location (f_key f)) (cursorPosition c) = true ->
    let q := query (state c) in
    let before := JS.substring q 0 (start_offset (key_location (f_key f))) in
    let c' := onAutoCompleteFromAst M replaceText item c in
    query (state c')
    = before ++ replaceText
      ++ JS.substringFrom q (end_offset (key_location (f_key f)) + 1)
    /\ (searchInput c <> None -> replaceText <> EmptyString ->
        cursorPosition c' = JS.length before + JS.length replaceText).
Proof.
  intros M c f replaceText item Hc Hop Hv Hk q before c'.
  apply (onAutoCompleteFromAst_filter M c f replaceText item); [exact Hc|].
  unfold filterClause. now rewrite (not_operator item Hop), Hv, Hk.
Qed.

Lemma key_suggestion_replaces_the_key_and_its_separator_witness :
  let c' := onAutoCompleteFromAst model "level:"
              (mkItem (Some "level:") None TAG_KEY None None false)
              (mounted model noProps "lev:error" 2) in
  query (state c') = "level:error"
  /\ (searchInput (mounted model noProps "lev:error" 2) <> None ->
      "level:" <> EmptyString -> cursorPosition c' = 0 + 6).
Proof.
  intros c'.
  exact (key_suggestion_replaces_the_key_and_its_separator model
           (mounted model noProps "lev:error" 2)
           (mkFilter (mkLoc 0 9) "lev:error" Text false false
              (mkKey (mkLoc 0 3) "lev" "lev") EmptyString
              (VText (mkValueText (mkLoc 4 9) "error" false)))
           "level:" (mkItem (Some "level:") None TAG_KEY None None false)
           eq_refl ltac:(discriminate) eq_refl eq_refl).
Defined.

(** X15.  A value suggestion accepted inside a list filter replaces the
    list item under the cursor, from its start to its end, or is inserted
    at the cursor when the cursor is on no item; the text goes in as it
    is, with no space added after it and no quotes around it, whatever the
    key. *)
Theorem list_value_replaces_the_item_under_the_cursor :
  forall (M : Imports) (c : Comp) (f : FilterToken)
         (replaceText : string) (item : SearchItem),
    cursorToken c = Some (TFilter f) ->
    item_type item <> TAG_OPERATOR ->
    f_filter f = TextIn ->
    isWithinToken (value_location (f_value f)) (cursorPosition c) = true ->
    let q := query (state c) in
    let span := match cursorValue c with
                | Some v => (start_offset (vt_location v), end_offset (vt_location v))
                | None => (cursorPosition c, cursorPosition c)
                end in
    let c' := onAutoCompleteFromAst M replaceText item c in
    query (state c')
    = JS.substring q 0 (fst span) ++ replaceText ++ JS.substringFrom q (snd span)
    /\ (searchInput c <> None -> replaceText <> EmptyString ->
        cursorPosition c'
        = JS.length (JS.substring q 0 (fst span)) + JS.length replaceText).
Proof.
  intros M c f replaceText item Hc Hop Hf Hv q span c'.
  apply (onAutoCompleteFromAst_filter M c f replaceText item); [exact Hc|].
  unfold filterClause, valueToken_location. rewrite (not_operator item Hop), Hv, Hf.
  subst span. destruct (cursorValue c); reflexivity.
Qed.

Lemma list_value_replaces_the_item_under_the_cursor_witness :
  let c' := onAutoCompleteFromAst model "alice" (valueItem "alice") onUserList in
  query (state c') = "user:[alice]"
  /\ (searchInput onUserList <> None -> "alice" <> EmptyString ->
      cursorPosition c' = 6 + 5).
Proof.
  intros c'.
  exact (list_value_replaces_the_item_under_the_cursor model onUserList
           userListFilter "alice" (valueItem "alice")
           eq_refl ltac:(discriminate) eq_refl eq_refl).
Defined.

(** X16.  A suggestion accepted on free text replaces the word under the
    cursor, the span [cursorSearchTerm] gives, and leaves the rest of the
    text as it is; a negation mark before the word is outside that span
    and is kept.  The host is told of the new text once. *)
Theorem free_text_suggestion_replaces_the_word :
  forall (M : Imports) (c : Comp) (loc : LocationRange) (text : string)
         (st : SearchTermAtCursor) (replaceText : string) (item : SearchItem),
    cursorToken c = Some (TFreeText loc text) ->
    cursorSearchTerm c = Some st ->
    let q := query (state c) in
    let c' := onAutoCompleteFromAst M replaceText item c in
    query (state c')
    = JS.substring q 0 (st_start st) ++ replaceText ++ JS.substringFrom q (st_end st)
    /\ calls c' = (calls c ++ [Call_onChange (query (state c'))])%list
    /\ (searchInput c <> None -> replaceText <> EmptyString ->
        searchInput c'
        = Some (mkTextarea
                  (JS.length (JS.substring q 0 (st_start st)) + JS.length replaceText)
                  (JS.length (JS.substring q 0 (st_start st)) + JS.length replaceText))).
Proof.
  intros M c loc text st replaceText item Hc Hs q c'. subst c'.
  unfold onAutoCompleteFromAst. rewrite Hc, Hs. fold q.
  split; [apply updateQuery_query|]. split.
  - rewrite (proj1 (updateQuery_query M _ _ _)). apply updateQuery_calls.
  - intros Hin Hne. apply updateQuery_cursor; [exact Hin|].
    pose proof (length_nonneg (JS.substring q 0 (st_start st))).
    destruct replaceText as [|d t]; [contradiction|].
    unfold JS.length at 2. cbn [String.length]. lia.
Qed.

Lemma free_text_suggestion_replaces_the_word_witness :
  let c := mounted model noProps "a:1 !lev" 8 in
  let c' := onAutoCompleteFromAst model "level:"
              (mkItem (Some "level:") None TAG_KEY None None false) c in
  query (state c') = "a:1 !level:"
  /\ calls c' = [Call_onChange (query (state c'))]
  /\ (searchInput c <> None -> "level:" <> EmptyString ->
      searchInput c' = Some (mkTextarea (5 + 6) (5 + 6))).
Proof.
  intros c c'.
  exact (free_text_suggestion_replaces_the_word model c (mkLoc 4 8) "!lev"
           (mkSearchTerm 8 "lev" 5) "level:"
           (mkItem (Some "level:") None TAG_KEY None None false)
           eq_refl eq_refl).
Defined.

Lemma append_same (a b : string) : a = a ++ b -> b = EmptyString.
Proof.
  induction a as [|ch a IH]; cbn [append]; intros H.
  - now symmetry.
  - injection H as H. now apply IH.
Qed.

(** X17.  Where there is nothing to replace: with the cursor on no token
    the suggestion is appended to the text and the host is told; the text
    area is rendered with the longer text, so the caret ends at the end of
    the text.  With the cursor on a filter but neither on its key nor on
    its value, a suggestion other than an operator changes nothing at
    all. *)
Theorem suggestion_with_nothing_to_replace :
  forall (M : Imports) (c : Comp) (replaceText : string) (item : SearchItem),
    (cursorToken c = None ->
     let c' := onAutoCompleteFromAst M replaceText item c in
     query (state c') = query (state c) ++ replaceText
     /\ calls c' = (calls c ++ [Call_onChange (query (state c) ++ replaceText)])%list
     /\ (replaceText <> EmptyString -> searchInput c <> None ->
         searchInput c'
         = Some (mkTextarea (JS.length (query (state c) ++ replaceText))
                            (JS.length (query (state c) ++ replaceText))))
     /\ (replaceText = EmptyString -> searchInput c' = searchInput c))
    /\ (forall f : FilterToken,
           cursorToken c = Some (TFilter f) ->
           item_type item <> TAG_OPERATOR ->
           isWithinToken (value_location (f_value f)) (cursorPosition c) = false ->
           isWithinToken (key_location (f_key f)) (cursorPosition c) = false ->
           onAutoCompleteFromAst M replaceText item c = c).
Proof.
  intros M c replaceText item. split.
  - intros Hc c'. subst c'. unfold onAutoCompleteFromAst. rewrite Hc.
    split; [apply updateQuery_query|]. split; [apply updateQuery_calls|].
    rewrite updateQuery_rendered. split.
    + intros Hne Hin.
      destruct (String.eqb_spec (query (state c)) (query (state c) ++ replaceText))
        as [E|_].
      * now apply append_same in E.
      * destruct (searchInput c); [reflexivity | contradiction].
    + intros ->. now rewrite append_empty_r, String.eqb_refl.
  - intros f Hc Hop Hv Hk. unfold onAutoCompleteFromAst, filterClause.
    rewrite Hc, (not_operator item Hop), Hv, Hk. reflexivity.
Qed.

Lemma suggestion_with_nothing_to_replace_witness :
  (query (state (onAutoCompleteFromAst model "level:" (valueItem "level:")
                   (mounted model noProps "a:1   " 5)))
   = "a:1   level:"
   /\ searchInput (onAutoCompleteFromAst model "level:" (valueItem "level:")
                     (mounted model noProps "a:1   " 5))
      = Some (mkTextarea 12 12))
  /\ onAutoCompleteFromAst model "b:" (valueItem "b:") (mounted model noProps "!a:1" 0)
     = mounted model noProps "!a:1" 0.
Proof.
  split.
  - destruct (proj1 (suggestion_with_nothing_to_replace model
                       (mounted model noProps "a:1   " 5) "level:"
                       (valueItem "level:")) eq_refl) as (Q & _ & S & _).
    split; [exact Q|]. apply S; discriminate.
  - exact (proj2 (suggestion_with_nothing_to_replace model
                    (mounted model noProps "!a:1" 0) "b:" (valueItem "b:"))
             (mkFilter (mkLoc 0 4) "!a:1" Text true false
                (mkKey (mkLoc 1 2) "a" "a") EmptyString
                (VText (mkValueText (mkLoc 3 4) "1" false)))
             eq_refl ltac:(discriminate) eq_refl eq_refl).
Defined.

(* ================================================================== *)
(** ** Text that comes in: pasting and typing *)

Lemma countChar_nonneg (ch : ascii) (s : string) : 0 <= countChar ch s.
Proof.
  induction s as [|d s IH]; cbn [countChar]; [lia|].
  destruct (Ascii.eqb d ch); lia.
Qed.

Lemma countChar_none (ch : ascii) (s : string) :
  countChar ch s = 0 -> hasChar ch s = false.
Proof.
  induction s as [|d s IH]; cbn [countChar hasChar]; [reflexivity|].
  pose proof (countChar_nonneg ch s).
  destruct (Ascii.eqb d ch); cbn [orb]; intros E; [lia | apply IH; lia].
Qed.

(** Replacing the first occurrence removes the character when it occurs
    once at most. *)
Lemma replace_single (ch : ascii) (s : string) :
  countChar ch s <= 1 ->
  hasChar ch (JS.replace s (JS.str ch) EmptyString) = false.
Proof.
  induction s as [|d s IH]; intros H; [reflexivity|].
  cbn [JS.replace]. rewrite prefix_char. cbn [countChar] in H.
  pose proof (countChar_nonneg ch s).
  destruct (Ascii.eqb d ch) eqn:E.
  - cbn. apply countChar_none. lia.
  - cbn [hasChar]. rewrite E. cbn [orb]. apply IH. lia.
Qed.

(** X18.  Pasting puts the clipboard text, without its first line break
    and trimmed at both ends, in place of the selection: what was before
    the selection and what was after it are kept, the cursor goes right
    after the text inserted, the paste of the browser is cancelled and the
    host is told of the merged text.  The text inserted has no white space
    at either end, and no line break when the clipboard has one at most. *)
Theorem pasted_text_replaces_the_selection :
  forall (M : Imports) (clipboard : string) (c : Comp) (input : Textarea),
    searchInput c = Some input ->
    let q := query (state c) in
    let text := JS.trim (JS.replace clipboard (JS.str JS.newline) EmptyString) in
    let merged := JS.substring q 0 (selectionStart input) ++ text
                  ++ JS.substring q (selectionEnd input) (JS.length q) in
    let c' := onPaste M clipboard c in
    query (state c') = merged
    /\ parsedQuery (state c') = parseSearch M merged
    /\ searchInput c'
       = Some (mkTextarea (selectionStart input + JS.length text)
                          (selectionStart input + JS.length text))
    /\ calls c' = (calls c ++ [Call_preventDefault; Call_onChange merged])%list
    /\ isTrimmed text
    /\ (countChar JS.newline clipboard <= 1 -> hasChar JS.newline text = false).
Proof.
  intros M clipboard c input Hin q text merged c'. subst c'.
  unfold onPaste. rewrite Hin. cbn [call state]. fold q. fold text. fold merged.
  unfold updateAutoCompleteItems.
  match goal with
  | |- context [updateAutoCompleteFromAst M ?x] =>
      destruct (updateAutoCompleteFromAst_sameEditor M x)
        as ((H1 & H2 & H3 & H4) & H5);
      set (c2 := updateAutoCompleteFromAst M x) in *
  end.
  match type of H2 with
  | context [commitValue ?d ?x] =>
      destruct (commitValue_rest d x) as (_ & S & C & _);
      pose proof (commitValue_has_input d x) as I
  end.
  rewrite S in H2, H3. rewrite C in H5. cbn in H2, H3, H5.
  destruct (setSelection_rest (selectionStart input + JS.length text)
              (selectionStart input + JS.length text) c2) as (_ & S2 & C2 & _).
  rewrite S2, C2, H2, H3, H5, <- app_assoc.
  split; [reflexivity|]. split; [reflexivity|]. split.
  - apply setSelection_input. rewrite H4. apply I. cbn. now rewrite Hin.
  - split; [reflexivity|]. split.
    + apply trim_idempotent.
    + intros Hn. apply hasChar_trim, replace_single. exact Hn.
Qed.

Lemma pasted_text_replaces_the_selection_witness :
  let c' := onPaste model (" b:2" ++ JS.str JS.newline)
              (mkComp noProps
                 (mkState (-1) [] false (parseSearch_model "a:1 x") "a:1 x" []
                          EmptyString false None)
                 (Some (mkTextarea 4 5)) [] []) in
  query (state c') = "a:1 b:2"
  /\ searchInput c' = Some (mkTextarea 7 7).
Proof.
  intros c'.
  destruct (pasted_text_replaces_the_selection model (" b:2" ++ JS.str JS.newline)
              (mkComp noProps
                 (mkState (-1) [] false (parseSearch_model "a:1 x") "a:1 x" []
                          EmptyString false None)
                 (Some (mkTextarea 4 5)) [] [])
              (mkTextarea 4 5) eq_refl) as (Q & _ & S & _).
  split; [exact Q | exact S].
Defined.

(** Replacing the first occurrence of a character that occurs makes the
    text one shorter. *)
Lemma replace_present (ch : ascii) (s : string) :
  hasChar ch s = true ->
  JS.length (JS.replace s (JS.str ch) EmptyString) + 1 = JS.length s.
Proof.
  induction s as [|d s IH]; intros H; [discriminate|].
  cbn [JS.replace]. rewrite prefix_char. cbn [hasChar] in H.
  destruct (Ascii.eqb d ch) eqn:E.
  - cbn. unfold JS.length. cbn [String.length]. lia.
  - cbn [orb] in H. specialize (IH H). unfold JS.length in *.
    cbn [String.length]. lia.
Qed.

(** X19.  Text typed into the text area is kept without its first line
    break, so that a text with one line break at most is kept on one
    line; the host, however, is handed the text as the text area has it,
    line breaks included.  A text without line break leaves the selection
    where the browser has put it; a text with one is rendered again
    without it, and the caret ends at the end of the text. *)
Theorem typed_text_is_kept_without_its_first_line_break :
  forall (M : Imports) (value : string) (c : Comp),
    let c' := onQueryChange M value c in
    query (state c') = JS.replace value (JS.str JS.newline) EmptyString
    /\ calls c' = (calls c ++ [Call_onChange value])%list
    /\ (countChar JS.newline value <= 1 ->
        hasChar JS.newline (query (state c')) = false)
    /\ (hasChar JS.newline value = false ->
        query (state c') = value /\ searchInput c' = searchInput c)
    /\ (hasChar JS.newline value = true -> searchInput c <> None ->
        searchInput c'
        = Some (mkTextarea (JS.length value - 1) (JS.length value - 1))).
Proof.
  intros M value c c'. subst c'.
  destruct (onQueryChange_query M value c) as (Q & _ & S & _).
  split; [exact Q|]. split; [|split; [|split]].
  - unfold onQueryChange, onQueryChange_queued, updateAutoCompleteItems.
    match goal with
    | |- context [updateAutoCompleteFromAst M ?x] =>
        destruct (updateAutoCompleteFromAst_sameEditor M x) as (_ & H)
    end.
    rewrite H.
    match goal with
    | |- context [commitValue ?d ?x] =>
        destruct (commitValue_rest d x) as (_ & _ & C & _)
    end.
    rewrite C. reflexivity.
  - intros Hn. rewrite Q. now apply replace_single.
  - intros Hn. split; [rewrite Q; now apply replace_absent|].
    now apply onQueryChange_input.
  - intros Hn Hin. rewrite S, commitValue_input.
    cbn [state setState makeQueryState put_queryState query searchInput].
    pose proof (replace_present JS.newline value Hn) as L.
    destruct (String.eqb_spec value (JS.replace value (JS.str JS.newline) EmptyString))
      as [E|_].
    + rewrite <- E in L. lia.
    + destruct (searchInput c); [|contradiction].
      do 2 f_equal; lia.
Qed.

Lemma typed_text_is_kept_without_its_first_line_break_witness :
  let c := mounted model noProps "a:1" 3 in
  let c' := onQueryChange model ("a:1" ++ JS.str JS.newline) (setSelection 4 4 c) in
  query (state c') = "a:1"
  /\ calls c' = [Call_onChange ("a:1" ++ JS.str JS.newline)]
  /\ searchInput c' = Some (mkTextarea 3 3).
Proof.
  intros c c'.
  destruct (typed_text_is_kept_without_its_first_line_break model
              ("a:1" ++ JS.str JS.newline) (setSelection 4 4 c))
    as (Q & C & _ & _ & S).
  split; [exact Q|]. split; [exact C|].
  apply S; [reflexivity | discriminate].
Defined.

(* ================================================================== *)
(** ** The escaped form of a value *)

Lemma replaceAllChar_escapes (s : string) (b : bool) :
  quotesEscapedFrom b
    (JS.replaceAllChar s JS.dquote (String JS.backslash (JS.str JS.dquote)))
  = true.
Proof.
  revert b; induction s as [|d s IH]; intros b; [reflexivity|].
  cbn [JS.replaceAllChar]. destruct (Ascii.eqb d JS.dquote) eqn:E.
  - cbn [append JS.str quotesEscapedFrom].
    change (Ascii.eqb JS.backslash JS.dquote) with false.
    change (Ascii.eqb JS.backslash JS.backslash) with true.
    change (Ascii.eqb JS.dquote JS.dquote) with true.
    change (Ascii.eqb JS.dquote JS.backslash) with false.
    cbn [andb]. apply IH.
  - cbn [append JS.str quotesEscapedFrom]. rewrite E. cbn [andb]. apply IH.
Qed.

Lemma replaceAllChar_length (s : string) :
  JS.length (JS.replaceAllChar s JS.dquote (String JS.backslash (JS.str JS.dquote)))
  = JS.length s + countChar JS.dquote s.
Proof.
  induction s as [|d s IH]; [reflexivity|].
  cbn [JS.replaceAllChar countChar]. rewrite length_append, IH.
  destruct (Ascii.eqb d JS.dquote); unfold JS.length; cbn [String.length JS.str];
    lia.
Qed.

(** X20.  A value with a space or a double quote in it is escaped to an
    opening double quote, a body and a closing double quote, where every
    double quote of the body has a backslash right before it and the body
    is longer than the value by the number of its double quotes; any other
    value is left as it is, and so has neither a space nor a double
    quote. *)
Theorem escaped_value_has_no_bare_quote :
  forall raw : string,
    let body := JS.replaceAllChar raw JS.dquote (String JS.backslash (JS.str JS.dquote)) in
    (hasChar " " raw || hasChar JS.dquote raw = true ->
     escapeValue raw = JS.str JS.dquote ++ body ++ JS.str JS.dquote
     /\ quotesEscaped body = true
     /\ JS.length (escapeValue raw)
        = JS.length raw + countChar JS.dquote raw + 2)
    /\ (hasChar " " raw || hasChar JS.dquote raw = false ->
        escapeValue raw = raw
        /\ hasChar " " (escapeValue raw) = false
        /\ hasChar JS.dquote (escapeValue raw) = false).
Proof.
  intros raw body.
  assert (E : escapeValue raw
              = if hasChar " " raw || hasChar JS.dquote raw
                then JS.str JS.dquote ++ body ++ JS.str JS.dquote else raw).
  { unfold escapeValue. change " " with (JS.str " "%char) at 1.
    now rewrite !includes_char. }
  split; intros H; rewrite E, H.
  - split; [reflexivity|]. split; [apply replaceAllChar_escapes|].
    rewrite !length_append. subst body. rewrite replaceAllChar_length.
    unfold JS.length, JS.str. cbn [String.length]. lia.
  - apply orb_false_iff in H as [H1 H2]. repeat split; assumption.
Qed.

Lemma escaped_value_has_no_bare_quote_witness :
  escapeValue ("say " ++ JS.str JS.dquote ++ "hi" ++ JS.str JS.dquote)
  = JS.str JS.dquote
    ++ JS.replaceAllChar ("say " ++ JS.str JS.dquote ++ "hi" ++ JS.str JS.dquote)
         JS.dquote (String JS.backslash (JS.str JS.dquote))
    ++ JS.str JS.dquote
  /\ JS.length (escapeValue ("say " ++ JS.str JS.dquote ++ "hi" ++ JS.str JS.dquote))
     = 8 + 2 + 2.
Proof.
  destruct (proj1 (escaped_value_has_no_bare_quote
                     ("say " ++ JS.str JS.dquote ++ "hi" ++ JS.str JS.dquote))
              eq_refl) as (A & _ & L).
  split; [exact A | exact L].
Defined.

(* ================================================================== *)
(** ** Building the dropdown *)

Lemma fold_groups (l : list SearchGroups) (a : list SearchGroup) (b : list SearchItem) :
  fold_left
    (fun acc item =>
       mkSearchGroups (sg_searchGroups acc ++ sg_searchGroups item)%list
                      (sg_flatSearchItems acc ++ sg_flatSearchItems item)%list
                      (-1))
    l (mkSearchGroups a b (-1))
  = mkSearchGroups (a ++ List.concat (map sg_searchGroups l))%list
                   (b ++ List.concat (map sg_flatSearchItems l))%list (-1).
Proof.
  revert a b; induction l as [|x l IH]; intros a b; cbn [fold_left map List.concat].
  - now rewrite !app_nil_r.
  - cbn [sg_searchGroups sg_flatSearchItems]. rewrite IH, <- !app_assoc.
    reflexivity.
Qed.

(** X21.  [updateAutoCompleteStateMultiHeader] shows the groups one after
    the other: the sections of the dropdown are those [createSearchGroups]
    builds for the first group, then those for the second, and so on, and
    the flat list of items follows the same order.  No item is
    highlighted afterwards, whatever was highlighted before and whatever
    [createSearchGroups] marks; the text, its parse and the selection are
    not touched. *)
Theorem groups_are_shown_in_order_with_no_highlight :
  forall (M : Imports) (groups : list AutocompleteGroup) (c : Comp),
    let c' := updateAutoCompleteStateMultiHeader M groups c in
    searchGroups (state c') = List.concat (map sg_searchGroups (groupsBuilt M groups c))
    /\ flatSearchItems (state c')
       = List.concat (map sg_flatSearchItems (groupsBuilt M groups c))
    /\ activeSearchItem (state c') = -1
    /\ sameEditor c' c
    /\ calls c' = calls c
    /\ (forall more : list AutocompleteGroup,
           searchGroups (state (updateAutoCompleteStateMultiHeader M (groups ++ more) c))
           = (searchGroups (state c')
              ++ searchGroups (state (updateAutoCompleteStateMultiHeader M more c)))%list).
Proof.
  intros M groups c c'. subst c'.
  assert (G : forall gs,
             state (updateAutoCompleteStateMultiHeader M gs c)
             = put_suggestions
                 (mkSearchGroups (List.concat (map sg_searchGroups (groupsBuilt M gs c)))
                                 (List.concat (map sg_flatSearchItems (groupsBuilt M gs c)))
                                 (-1))
                 (state c)).
  { intros gs. unfold updateAutoCompleteStateMultiHeader, groupsBuilt.
    cbn [state setState]. now rewrite fold_groups. }
  split; [now rewrite G|]. split; [now rewrite G|]. split; [now rewrite G|].
  split; [unfold sameEditor, updateAutoCompleteStateMultiHeader; cbn; repeat split|].
  split; [reflexivity|].
  intros more. rewrite !G.
  cbn [put_suggestions searchGroups sg_searchGroups].
  unfold groupsBuilt. now rewrite !map_app, List.concat_app.
Qed.

(** X22.  With the cursor on the value of a filter whose key the tag
    collection does not know, neither as a tag of its own nor as a name
    every object inherits, or whose key is [environment] while that key is
    excluded, no value is looked up: nothing is requested and the loading
    mark is not set.  When the suggestions are built, an unknown key shows
    the one group that says so, without the operators even at the start of
    the value; an excluded [environment] shows the operators at the start
    of the value and nothing elsewhere. *)
Theorem no_lookup_for_an_unknown_or_excluded_tag :
  forall (M : Imports) (c : Comp) (f : FilterToken),
    cursorToken c = Some (TFilter f) ->
    isWithinToken (value_location (f_value f)) (cursorPosition c) = true ->
    let tagName := getKeyName (f_key f) in
    let known := lookupTag (supportedTags (props c)) tagName in
    known = None
    \/ (excludeEnvironment (props c) = true /\ tagName = "environment") ->
    let result := match known with
                  | None => Some (invalidTagGroup tagName)
                  | Some _ => None
                  end in
    let p := AwaitValueGroup (cursorPosition c) f tagName (NoRequest result)
                             (getRecentSearches c) in
    let c1 := updateAutoCompleteFromAst M c in
    pending c1 = (pending c ++ [p])%list
    /\ loading (state c1) = loading (state c)
    /\ calls c1 = calls c
    /\ forall r : Response,
         resume M p r c1
         = updateAutoCompleteStateMultiHeader M
             (match result with
              | Some g => [g]
              | None =>
                  if cursorPosition c =? start_offset (value_location (f_value f))
                  then [generateOpAutocompleteGroup M (getValidOps M f) tagName]
                  else []
              end) c1.
Proof.
  intros M c f Hc Hw tagName known Hk result p c1.
  assert (R : exists c0,
             generateValueAutocompleteGroup tagName
               (if String.eqb
                     (match cursorValue c with
                      | Some v => vt_text v
                      | None => value_text (f_value f)
                      end) "[]"
                   || match cursorValue c with None => true | Some _ => false end
                then EmptyString
                else match cursorValue c with
                     | Some v => vt_text v
                     | None => value_text (f_value f)
                     end) c
             = (c0, NoRequest result)
             /\ searchInput c0 = searchInput c
             /\ loading (state c0) = loading (state c)
             /\ calls c0 = calls c /\ pending c0 = pending c).
  { unfold generateValueAutocompleteGroup. cbn [props setState].
    fold known. subst result.
    destruct Hk as [Hk | [He Hn]].
    - rewrite Hk. eexists. split; [reflexivity|]. cbn. repeat split.
    - destruct known as [tag|].
      + rewrite He, Hn. cbn [String.eqb Ascii.eqb Bool.eqb andb].
        eexists. split; [reflexivity|]. cbn. repeat split.
      + eexists. split; [reflexivity|]. cbn. repeat split. }
  destruct R as (c0 & R & S0 & L0 & C0 & P0).
  assert (E : c1 = suspend p c0).
  { subst c1 p. unfold updateAutoCompleteFromAst. rewrite Hc, Hw.
    fold tagName. rewrite R. reflexivity. }
  rewrite E. cbn [suspend pending state calls]. rewrite P0, L0, C0.
  repeat split.
  intros r.
  assert (CP : forall q, cursorPosition (suspend q c0) = cursorPosition c).
  { intros q. unfold cursorPosition. cbn [suspend searchInput]. now rewrite S0. }
  subst p. cbn [resume generateValueAutocompleteGroup_resumed].
  rewrite CP, Z.eqb_refl.
  subst result. destruct known; cbn [isInvalidTagGroup invalidTagGroup group_type
                                      ItemType_eqb negb];
    rewrite ?andb_false_r, ?andb_true_r; [|reflexivity].
  destruct (cursorPosition c =? start_offset (value_location (f_value f)));
    reflexivity.
Qed.

Lemma no_lookup_for_an_unknown_or_excluded_tag_witness :
  let c := mounted model tagProps "nope:x" 6 in
  let p := AwaitValueGroup 6
             (mkFilter (mkLoc 0 6) "nope:x" Text false false
                (mkKey (mkLoc 0 4) "nope" "nope") EmptyString
                (VText (mkValueText (mkLoc 5 6) "x" false)))
             "nope" (NoRequest (Some (invalidTagGroup "nope")))
             (getRecentSearches c) in
  pending (updateAutoCompleteFromAst model c) = [p]
  /\ loading (state (updateAutoCompleteFromAst model c)) = false.
Proof.
  intros c p.
  destruct (no_lookup_for_an_unknown_or_excluded_tag model c
              (mkFilter (mkLoc 0 6) "nope:x" Text false false
                 (mkKey (mkLoc 0 4) "nope" "nope") EmptyString
                 (VText (mkValueText (mkLoc 5 6) "x" false)))
              eq_refl eq_refl (or_introl eq_refl)) as (A & B & _).
  split; [exact A | exact B].
Defined.

(** A key that is a name every object inherits is not unknown: for
    [constructor:x] the lookup finds the inherited member, the remote
    lookup is started and the loading mark is set. *)
Example inherited_name_is_looked_up :
  let c := mounted model tagProps "constructor:x" 13 in
  lookupTag (supportedTags (props c)) "constructor" = Some PrototypeMember
  /\ lookupTag (supportedTags (props c)) "nope" = None
  /\ loading (state (updateAutoCompleteFromAst model c)) = true
  /\ pending (updateAutoCompleteFromAst model c)
     = [AwaitValueGroup 13
          (mkFilter (mkLoc 0 13) "constructor:x" Text false false
             (mkKey (mkLoc 0 11) "constructor" "constructor") EmptyString
             (VText (mkValueText (mkLoc 12 13) "x" false)))
          "constructor" (RemoteValues PrototypeMember "x" true) true].
Proof. vm_compute. repeat split; reflexivity. Qed.

(* ================================================================== *)
(** ** Values of the first release *)

(** X23.  A run of the function that [getReleases] debounces yields the
    tag's own values that contain the query, in their order and escaped,
    followed by the releases fetched, by their short version; every one
    of them is typed as a first release.  The group made of them, once the
    recent searches are there, is a group of tag values named after the
    tag, and making it touches nothing of the component. *)
Theorem first_release_values_join_own_and_fetched :
  forall (tag : Tag) (query0 : string) (wanted : bool) (r : Response) (c : Comp),
    let items := getReleases tag query0 (resp_releases r) in
    Forall (fun i => item_type i = FIRST_RELEASE) items
    /\ map item_value items
       = (map (fun v => Some (escapedAsSpecified v))
              (filter (fun v => JS.includes v query0) (orEmpty (tag_values tag)))
          ++ map (fun rel => Some (shortVersion rel)) (resp_releases r))%list
    /\ (forall recent : list SearchItem,
           recentSearchesOf wanted r = Some recent ->
           generateValueAutocompleteGroup_resumed (ReleaseValues tag query0) wanted r c
           = (c, Some (Some (mkAutocompleteGroup items (Some recent)
                               (Some (tag_key tag)) TAG_VALUE)))).
Proof.
  intros tag query0 wanted r c items. subst items. unfold getReleases.
  split; [|split].
  - apply Forall_app. split; apply Forall_forall; intros i Hi;
      apply in_map_iff in Hi as (x & <- & _); reflexivity.
  - rewrite map_app. f_equal.
    + rewrite map_map.
      rewrite (map_ext (fun x => item_value (asFirstRelease x)) item_value)
        by reflexivity.
      unfold getPredefinedTagValues.
      rewrite (mapIndexed_proj _ _ (fun v => Some (escapedAsSpecified v))).
      * f_equal. destruct (tag_values tag) as [values|]; [|reflexivity].
        cbn [orEmpty]. apply filter_ext. intros v. apply includes_indexOf.
      * intros v i. cbn. now rewrite escapeValue_as_specified.
    + now rewrite map_map.
  - intros recent Hr. cbn [generateValueAutocompleteGroup_resumed].
    now rewrite Hr.
Qed.

Lemma first_release_values_join_own_and_fetched_witness :
  let tag := mkTag "firstRelease" (Some ["1.0"; "2.0 beta"]) false None in
  let r := mkResponse None (Some []) [mkRelease "2.1"] true in
  let c := mounted model releaseProps "firstRelease:2" 14 in
  generateValueAutocompleteGroup_resumed (ReleaseValues tag "2") true r c
  = (c, Some (Some (mkAutocompleteGroup (getReleases tag "2" [mkRelease "2.1"])
                      (Some []) (Some "firstRelease") TAG_VALUE))).
Proof.
  intros tag r c.
  apply (proj2 (proj2 (first_release_values_join_own_and_fetched tag "2" true r c))).
  reflexivity.
Defined.

(* ================================================================== *)
(** ** The context line *)

Lemma takeWhile_dropWhile (p : ascii -> bool) (s : string) :
  s = ContextLine.takeWhile p s ++ ContextLine.dropWhile p s.
Proof.
  induction s as [|ch s IH]; cbn; [reflexivity|].
  destruct (p ch); cbn; [now rewrite <- IH | reflexivity].
Qed.

Lemma takeWhile_all (p : ascii -> bool) (s : string) :
  allChars p (ContextLine.takeWhile p s) = true.
Proof.
  induction s as [|ch s IH]; cbn; [reflexivity|].
  destruct (p ch) eqn:E; cbn; [now rewrite E | reflexivity].
Qed.

Lemma dropWhile_head (p : ascii -> bool) (s : string) :
  match ContextLine.dropWhile p s with
  | EmptyString => True
  | String ch _ => p ch = false
  end.
Proof.
  induction s as [|ch s IH]; cbn; [exact I|].
  destruct (p ch) eqn:E; [exact IH | exact E].
Qed.

Lemma takeWhile_whole (p : ascii -> bool) (s : string) :
  allChars p s = true -> ContextLine.takeWhile p s = s.
Proof.
  induction s as [|ch s IH]; cbn; [reflexivity|].
  intros H. apply andb_prop in H as [H1 H2]. now rewrite H1, IH.
Qed.

Lemma allChars_append (p : ascii -> bool) (a b : string) :
  allChars p (a ++ b) = allChars p a && allChars p b.
Proof.
  induction a as [|ch a IH]; cbn; [reflexivity|]. now rewrite IH, andb_assoc.
Qed.

(** X24.  The context line of a stack frame is rendered as two spans,
    its indentation and its code.  The indentation is white space only;
    the code starts with no white space and holds no line break; the two
    together are the beginning of the line's text, and what is left out,
    if anything, starts at a line break.  A text without a line break is
    rendered whole. *)
Theorem context_line_is_indentation_then_code :
  forall content : string,
    let ws := fst (ContextLine.splitLine content) in
    let code := snd (ContextLine.splitLine content) in
    allChars JS.isWhiteSpace ws = true
    /\ match code with
       | EmptyString => True
       | String ch _ => JS.isWhiteSpace ch = false
       end
    /\ allChars (fun ch => negb (ContextLine.isLineTerminator ch)) code = true
    /\ (exists rest : string,
           content = ws ++ code ++ rest
           /\ match rest with
              | EmptyString => True
              | String ch _ => ContextLine.isLineTerminator ch = true
              end)
    /\ (allChars (fun ch => negb (ContextLine.isLineTerminator ch)) content = true ->
        ws ++ code = content).
Proof.
  intros content ws code. subst ws code. unfold ContextLine.splitLine. cbn [fst snd].
  set (q := fun ch => negb (ContextLine.isLineTerminator ch)).
  set (d := ContextLine.dropWhile JS.isWhiteSpace content).
  split; [apply takeWhile_all|]. split; [|split; [apply takeWhile_all|split]].
  - pose proof (dropWhile_head JS.isWhiteSpace content) as H. fold d in H.
    destruct d as [|ch rest]; cbn; [exact I|].
    destruct (q ch); [exact H | exact I].
  - exists (ContextLine.dropWhile q d). split.
    + rewrite <- (takeWhile_dropWhile q d). apply takeWhile_dropWhile.
    + pose proof (dropWhile_head q d) as H.
      destruct (ContextLine.dropWhile q d) as [|ch rest]; [exact I|].
      subst q. cbn in H. now apply negb_false_iff in H.
  - intros H.
    rewrite (takeWhile_dropWhile JS.isWhiteSpace content) in H. fold d in H.
    rewrite allChars_append in H. apply andb_prop in H as [_ H].
    rewrite (takeWhile_whole q d H). symmetry. apply takeWhile_dropWhile.
Qed.

Lemma context_line_is_indentation_then_code_witness :
  fst (ContextLine.splitLine "    return x;")
  ++ snd (ContextLine.splitLine "    return x;")
  = "    return x;".
Proof.
  apply (proj2 (proj2 (proj2 (proj2
           (context_line_is_indentation_then_code "    return x;"))))).
  reflexivity.
Defined.

Example context_line_of_two_lines :
  ContextLine.lineSpans (Some ("  a" ++ JS.str JS.newline ++ " b")) = ("  ", "a")
  /\ ContextLine.lineSpans None = (EmptyString, EmptyString).
Proof. split; reflexivity. Qed.

(* ================================================================== *)
(** ** Arrow keys, there and back *)

Lemma onKeyDown_arrow_groups (M : Imports) (key : string) (c : Comp) :
  key = "ArrowDown" \/ key = "ArrowUp" ->
  searchGroups (state c) <> [] ->
  exists prev next,
    searchGroups (state (onKeyDown M key c))
    = getSearchGroupWithItemMarkedActive M
        (getSearchGroupWithItemMarkedActive M (searchGroups (state c)) prev false)
        next true.
Proof.
  intros Hk Hg.
  assert (G : (0 <? listLength (searchGroups (state c))) = true).
  { apply Z.ltb_lt. unfold listLength.
    destruct (searchGroups (state c)); [contradiction | cbn; lia]. }
  unfold onKeyDown.
  destruct Hk as [-> | ->]; cbn -[nextActiveSearchItem Z.ltb];
    rewrite G; cbn -[nextActiveSearchItem];
    destruct (showDropdown (state c)); cbn -[nextActiveSearchItem];
    match goal with
    | |- context [cursorToken ?x] => destruct (cursorToken x) as [[]|]
    end; cbn -[nextActiveSearchItem]; eexists; eexists; reflexivity.
Qed.

Lemma itemAt_in_range {A : Type} (l : list A) (i : Z) :
  0 <= i < listLength l -> exists x, itemAt l i = Some x /\ In x l.
Proof.
  intros H. unfold itemAt, listLength in *.
  destruct (Z.ltb_spec i 0) as [|_]; [lia|].
  destruct (nth_error l (Z.to_nat i)) as [x|] eqn:E.
  - exists x. split; [reflexivity|]. now apply nth_error_In in E.
  - apply nth_error_None in E. lia.
Qed.

(** X25.  While the dropdown shows its groups and has items, an arrow key
    always leaves the highlight on an item of the list.  From a
    highlighted item, arrow-down followed by arrow-up comes back to it,
    and so does arrow-up followed by arrow-down, provided that marking an
    item never empties the groups. *)
Theorem arrow_keys_stay_on_the_list_and_undo_each_other :
  forall (M : Imports) (c : Comp) (n : Z),
    (forall groups item active,
        groups <> [] ->
        getSearchGroupWithItemMarkedActive M groups item active <> []) ->
    searchGroups (state c) <> [] ->
    n = listLength (flatSearchItems (state c)) ->
    0 < n ->
    -1 <= activeSearchItem (state c) < n ->
    let down := onKeyDown M "ArrowDown" in
    let up := onKeyDown M "ArrowUp" in
    (forall key, key = "ArrowDown" \/ key = "ArrowUp" ->
        exists item,
          itemAt (flatSearchItems (state (onKeyDown M key c)))
                 (activeSearchItem (state (onKeyDown M key c))) = Some item
          /\ In item (flatSearchItems (state c)))
    /\ (0 <= activeSearchItem (state c) ->
        activeSearchItem (state (up (down c))) = activeSearchItem (state c)
        /\ activeSearchItem (state (down (up c))) = activeSearchItem (state c)).
Proof.
  intros M c n Hm Hg Hn Hpos Ha down up.
  assert (Ha' : -1 <= activeSearchItem (state c)) by lia.
  pose proof (nextActiveSearchItem_down c ltac:(lia) Ha') as ND.
  pose proof (nextActiveSearchItem_up c ltac:(lia) Ha') as NU.
  rewrite <- Hn in ND, NU.
  assert (RD : 0 <= nextActiveSearchItem "ArrowDown" c < n).
  { rewrite ND. destruct (activeSearchItem (state c) =? -1); [lia|].
    apply Z.mod_pos_bound. lia. }
  assert (RU : 0 <= nextActiveSearchItem "ArrowUp" c < n).
  { rewrite NU. destruct (activeSearchItem (state c) =? -1); [lia|].
    apply Z.mod_pos_bound. lia. }
  split.
  - intros key Hk.
    destruct (onKeyDown_arrow M key c Hk Hg) as (A1 & A2 & _).
    rewrite A1, A2. apply itemAt_in_range. rewrite <- Hn.
    destruct Hk as [-> | ->]; assumption.
  - intros H0.
    assert (E : (activeSearchItem (state c) =? -1) = false) by (apply Z.eqb_neq; lia).
    rewrite E in ND, NU.
    assert (step : forall key (c1 : Comp),
               key = "ArrowDown" \/ key = "ArrowUp" ->
               c1 = onKeyDown M key c ->
               searchGroups (state c1) <> []
               /\ listLength (flatSearchItems (state c1)) = n
               /\ activeSearchItem (state c1) = nextActiveSearchItem key c).
    { intros key c1 Hk ->.
      destruct (onKeyDown_arrow M key c Hk Hg) as (A1 & A2 & _).
      destruct (onKeyDown_arrow_groups M key c Hk Hg) as (prev & next & G).
      rewrite G, A1, A2. split; [|split; [now rewrite Hn | reflexivity]].
      apply Hm, Hm, Hg. }
    split.
    + destruct (step "ArrowDown" (down c) (or_introl eq_refl) eq_refl)
        as (G1 & L1 & A1).
      destruct (onKeyDown_arrow M "ArrowUp" (down c) (or_intror eq_refl) G1)
        as (B1 & _).
      unfold up. rewrite B1, nextActiveSearchItem_up; rewrite ?L1, ?A1; try lia.
      rewrite ND.
      assert (Q : (nextActiveSearchItem "ArrowDown" c =? -1) = false)
        by (apply Z.eqb_neq; lia).
      rewrite ND in Q. rewrite Q.
      destruct (Z.eq_dec (activeSearchItem (state c) + 1) n) as [En|En].
      * rewrite En, Z.mod_same by lia. rewrite Z.mod_small; lia.
      * rewrite (Z.mod_small (activeSearchItem (state c) + 1) n) by lia.
        replace (activeSearchItem (state c) + 1 - 1 + n)
          with (activeSearchItem (state c) + 1 * n) by lia.
        rewrite Z.mod_add by lia. apply Z.mod_small. lia.
    + destruct (step "ArrowUp" (up c) (or_intror eq_refl) eq_refl)
        as (G1 & L1 & A1).
      destruct (onKeyDown_arrow M "ArrowDown" (up c) (or_introl eq_refl) G1)
        as (B1 & _).
      unfold down. rewrite B1, nextActiveSearchItem_down; rewrite ?L1, ?A1; try lia.
      rewrite NU.
      assert (Q : (nextActiveSearchItem "ArrowUp" c =? -1) = false)
        by (apply Z.eqb_neq; lia).
      rewrite NU in Q. rewrite Q.
      destruct (Z.eq_dec (activeSearchItem (state c)) 0) as [En|En].
      * rewrite En. replace (0 - 1 + n) with (n - 1) by lia.
        rewrite (Z.mod_small (n - 1) n) by lia.
        replace (n - 1 + 1) with n by lia. apply Z.mod_same. lia.
      * replace (activeSearchItem (state c) - 1 + n)
          with (activeSearchItem (state c) - 1 + 1 * n) by lia.
        rewrite Z.mod_add by lia.
        rewrite (Z.mod_small (activeSearchItem (state c) - 1) n) by lia.
        replace (activeSearchItem (state c) - 1 + 1)
          with (activeSearchItem (state c)) by lia.
        apply Z.mod_small. lia.
Qed.

Lemma arrow_keys_stay_on_the_list_and_undo_each_other_witness :
  let c := setState (put_activeSearchItem 2) threeSuggestions in
  activeSearchItem (state (onKeyDown model "ArrowUp" (onKeyDown model "ArrowDown" c)))
  = 2
  /\ activeSearchItem (state (onKeyDown model "ArrowDown" (onKeyDown model "ArrowUp" c)))
     = 2.
Proof.
  intros c.
  assert (Hm : forall groups item active,
             groups <> [] ->
             getSearchGroupWithItemMarkedActive model groups item active <> []).
  { intros [|g gs] [it|] b H; cbn; try contradiction; discriminate. }
  assert (Hg : searchGroups (state c) <> []) by discriminate.
  assert (Ha : -1 <= activeSearchItem (state c) < 3) by (cbn; lia).
  exact (proj2 (arrow_keys_stay_on_the_list_and_undo_each_other model c 3
                  Hm Hg eq_refl ltac:(lia) Ha)
           ltac:(cbn; lia)).
Defined.

(* ================================================================== *)
(** ** Clicking the text area *)

Lemma updateAutoCompleteFromAst_showDropdown (M : Imports) (c : Comp) :
  showDropdown (state (updateAutoCompleteFromAst M c)) = showDropdown (state c).
Proof.
  unfold updateAutoCompleteFromAst.
  destruct (cursorToken c) as [[f| | | |]|]; try reflexivity.
  - destruct (isWithinToken (value_location (f_value f)) (cursorPosition c)).
    + match goal with
      | |- context [generateValueAutocompleteGroup ?t ?q c] =>
          assert (H : showDropdown (state (fst (generateValueAutocompleteGroup t q c)))
                      = showDropdown (state c));
          [ unfold generateValueAutocompleteGroup, getTagValues;
            repeat match goal with
                   | |- context [match ?x with _ => _ end] => destruct x
                   | |- context [if ?x then _ else _] => destruct x
                   end; reflexivity
          | destruct (generateValueAutocompleteGroup t q c) as [c1 request] ]
      end.
      exact H.
    + destruct (isWithinToken (key_location (f_key f)) (cursorPosition c)).
      * destruct (getTagKeys M (getKeyName (f_key f)) c). reflexivity.
      * reflexivity.
  - destruct (cursorSearchTerm c) as [st|]; [|reflexivity].
    destruct (getTagKeys M (st_searchTerm st) c). reflexivity.
  - unfold showDefaultSearches, updateAutoCompleteState.
    repeat match goal with
           | |- context [match ?x with _ => _ end] => destruct x
           | |- context [if ?x then _ else _] => destruct x
           end; reflexivity.
Qed.

(** X26.  A click in the text area opens the dropdown and refreshes the
    suggestions for the place of the cursor; it changes neither the text,
    nor its parse, nor the selection, and calls nothing of the host. *)
Theorem click_opens_the_dropdown_and_edits_nothing :
  forall (M : Imports) (c : Comp),
    showDropdown (state (onInputClick M c)) = true
    /\ sameEditor (onInputClick M c) c
    /\ calls (onInputClick M c) = calls c.
Proof.
  intros M c. unfold onInputClick, updateAutoCompleteItems.
  destruct (updateAutoCompleteFromAst_sameEditor M (open c)) as (S & C).
  split; [now rewrite updateAutoCompleteFromAst_showDropdown|].
  split; [exact S | exact C].
Qed.
